(** * BioAgentic: pipeline executor, debate loop and trial-linking subsystem

    A shallow embedding of the parts of [src/backend] that drive the research
    pipeline ([graph.py], [state.py], [agents/debate.py], [agents/scouts.py])
    and the trial-linking subsystem ([agents/linking/*.py]).

    External collaborators (the language-model call [acall_llm], the HTTP
    clients, [json.loads]) are modelled as oracles: functions passed in as
    arguments, so that every theorem holds for every behaviour of them. *)

From Stdlib Require Import String Ascii List ZArith Bool Lia.
Import ListNotations.
Open Scope string_scope.
#[local] Set Warnings "-register-all".

(* ------------------------------------------------------------------------- *)
(** ** Python values and helpers *)

Module Py.

(** JSON-like Python values: what [json.loads] produces and what the linking
    code passes around as [dict]s and [list]s. *)
Inductive json : Type :=
| JNull
| JBool (b : bool)
| JNum (z : Z)
| JStr (s : string)
| JArr (xs : list json)
| JObj (kvs : list (string * json)).

(** [d.get(k)] on a dict: the first binding of [k]. *)
Fixpoint assoc (k : string) (kvs : list (string * json)) : option json :=
  match kvs with
  | [] => None
  | (k', v) :: r => if String.eqb k k' then Some v else assoc k r
  end.

Definition get (k : string) (j : json) : option json :=
  match j with
  | JObj kvs => assoc k kvs
  | _ => None
  end.

(** Python truthiness. *)
Definition truthy (j : json) : bool :=
  match j with
  | JNull => false
  | JBool b => b
  | JNum z => negb (Z.eqb z 0)
  | JStr s => negb (String.eqb s "")
  | JArr xs => match xs with [] => false | _ => true end
  | JObj kvs => match kvs with [] => false | _ => true end
  end.

Definition truthy_opt (o : option json) : bool :=
  match o with Some j => truthy j | None => false end.

(** Decimal rendering of a natural number, as [str(n)]. *)
Fixpoint digits_of (fuel n : nat) (acc : string) : string :=
  match fuel with
  | O => acc
  | S f =>
      let d := Nat.modulo n 10 in
      let c := String (ascii_of_nat (48 + d)) acc in
      if Nat.ltb n 10 then c else digits_of f (Nat.div n 10) c
  end.

Definition string_of_nat (n : nat) : string := digits_of (S n) n "".

Definition string_of_Z (z : Z) : string :=
  match z with
  | Z.neg p => "-" ++ string_of_nat (Pos.to_nat p)
  | _ => string_of_nat (Z.to_nat z)
  end.

(** [needle in hay] for Python strings. *)
Fixpoint str_contains (hay needle : string) : bool :=
  if String.prefix needle hay then true
  else match hay with
       | EmptyString => false
       | String _ r => str_contains r needle
       end.

(** List concatenation, written apart from string [++]. *)
Infix "+++" := app (right associativity, at level 60).

(** The newline character. *)
Definition nl : string := String (ascii_of_nat 10) EmptyString.

(** [sep.join(xs)]. *)
Fixpoint join (sep : string) (xs : list string) : string :=
  match xs with
  | [] => ""
  | [x] => x
  | x :: r => x ++ sep ++ join sep r
  end.

(** A lower-case hexadecimal digit. *)
Definition hex_digit (n : nat) : ascii :=
  ascii_of_nat (if Nat.ltb n 10 then 48 + n else 87 + n).

(** One character inside [repr(s)] quoted with [q]: the quote and the
    backslash are escaped, tab, newline and carriage return become [\t],
    [\n], [\r], the other control characters [\xhh]. The bytes of a
    non-ASCII character are copied, as [repr] keeps printable characters. *)
Definition repr_char (q c : ascii) : string :=
  let n := nat_of_ascii c in
  if Ascii.eqb c q || Nat.eqb n 92 then String (ascii_of_nat 92) (String c EmptyString)
  else if Nat.eqb n 9 then String (ascii_of_nat 92) "t"
  else if Nat.eqb n 10 then String (ascii_of_nat 92) "n"
  else if Nat.eqb n 13 then String (ascii_of_nat 92) "r"
  else if Nat.ltb n 32 || Nat.eqb n 127 then
    String (ascii_of_nat 92) (String "x" (String (hex_digit (n / 16))
                                          (String (hex_digit (n mod 16)) EmptyString)))
  else String c EmptyString.

(** [repr(s)]: single quotes, unless [s] holds a single quote and no double
    quote. *)
Definition repr_str (s : string) : string :=
  let cs := list_ascii_of_string s in
  let q := if existsb (Ascii.eqb "'"%char) cs && negb (existsb (Ascii.eqb (ascii_of_nat 34)) cs)
           then ascii_of_nat 34 else "'"%char in
  String q (String.concat EmptyString (map (repr_char q) cs) ++ String q EmptyString).

(** [str(v)] of a Python value (strings print bare at top level, and as
    [repr] inside containers). *)
Fixpoint py_repr (j : json) : string :=
  match j with
  | JNull => "None"
  | JBool true => "True"
  | JBool false => "False"
  | JNum z => string_of_Z z
  | JStr s => repr_str s
  | JArr xs => "[" ++ join ", " (map py_repr xs) ++ "]"
  | JObj kvs =>
      "{" ++ join ", " (map (fun kv => repr_str (fst kv) ++ ": " ++ py_repr (snd kv)) kvs) ++ "}"
  end.

Definition py_str (j : json) : string :=
  match j with JStr s => s | _ => py_repr j end.

(** [d.get(k, default)] rendered with [str]. *)
Definition get_str (k : string) (j : json) (default : string) : string :=
  match get k j with Some v => py_str v | None => default end.

End Py.

Import Py.


(* ------------------------------------------------------------------------- *)
(** ** The debate loop ([agents/debate.py], [Debate.call]) *)

Module Debate.

(** [state["debate"]]: a [DebateState] with its keys present. *)
Record debate_state := mkDebate {
  round : Z;
  max_rounds : Z;
  history : string }.

(** An [AgentLog] entry: [{"agent": ..., "content": ...}]. *)
Record agent_log := mkLog { agent : string; content : string }.

Section Loop.

(** [acall_llm(system_prompt=BIOTECH_PROMPTS[key], user_prompt=p)], for any
    behaviour of the language model: keyed by the prompt-table key. *)
Variable acall_llm : string -> string -> string.
Variable hypotheses : string.
Variable max_rounds_v : Z.

(** One iteration of [for r in range(current_round, max_rounds)]. *)
Definition debate_round (r : Z) (history : string) (log : list agent_log)
  : string * list agent_log :=
  let round_label := "Round " ++ string_of_Z (r + 1) ++ "/" ++ string_of_Z max_rounds_v in
  let adv_prompt := "Hypotheses:" ++ nl ++ hypotheses ++ nl ++ nl
    ++ "Debate history:" ++ nl ++ history ++ nl ++ nl
    ++ "This is " ++ round_label ++ "." in
  let adv_response := acall_llm "advocate" adv_prompt in
  let history := history ++ nl ++ nl ++ "### " ++ round_label ++ " — Advocate"
    ++ nl ++ adv_response in
  let log := app log [mkLog ("Advocate (R" ++ string_of_Z (r + 1) ++ ")") adv_response] in
  let skep_prompt := "Hypotheses:" ++ nl ++ hypotheses ++ nl ++ nl
    ++ "Debate history:" ++ nl ++ history ++ nl ++ nl
    ++ "This is " ++ round_label ++ "." in
  let skep_response := acall_llm "skeptic" skep_prompt in
  let history := history ++ nl ++ nl ++ "### " ++ round_label ++ " — Skeptic"
    ++ nl ++ skep_response in
  let log := app log [mkLog ("Skeptic (R" ++ string_of_Z (r + 1) ++ ")") skep_response] in
  let med_prompt := "Hypotheses:" ++ nl ++ hypotheses ++ nl ++ nl
    ++ "Full debate so far:" ++ nl ++ history in
  let med_response := acall_llm "mediator" med_prompt in
  let history := history ++ nl ++ nl ++ "### " ++ round_label ++ " — Mediator"
    ++ nl ++ med_response in
  let log := app log [mkLog ("Mediator (R" ++ string_of_Z (r + 1) ++ ")") med_response] in
  (history, log).

(** The loop body run [n] times from round [r]. *)
Fixpoint debate_loop (n : nat) (r : Z) (history : string) (log : list agent_log)
  : string * list agent_log :=
  match n with
  | O => (history, log)
  | S n' =>
      let '(h, l) := debate_round r history log in
      debate_loop n' (r + 1) h l
  end.

End Loop.

(** The partial update returned by [Debate.call]: the new [debate] value and
    the [agents_log] entries of this step. *)
Record debate_update := mkDebateUpdate {
  upd_debate : debate_state;
  upd_agents_log : list agent_log }.

(** [Debate.call]; [d] is [state["debate"]] and [hyp] is
    [state.get("hypotheses", "")]. *)
Definition call (acall_llm : string -> string -> string) (hyp : string)
  (d : debate_state) : debate_update :=
  let current_round := round d in
  let max_rounds := max_rounds d in
  let '(history, log_entries) :=
    debate_loop acall_llm hyp max_rounds
      (Z.to_nat (max_rounds - current_round)) current_round (history d) [] in
  mkDebateUpdate (mkDebate max_rounds max_rounds history) log_entries.

(** The spec's view of a transcript: the roles in their order ... *)
Inductive role := Advocate | Skeptic | Mediator.

Definition role_name (x : role) : string :=
  match x with Advocate => "Advocate" | Skeptic => "Skeptic" | Mediator => "Mediator" end.

(** ... the labelled slots "Round k/N — Role" for [k = 1 .. R] ... *)
Definition spec_schedule (R : Z) : list (Z * role) :=
  flat_map (fun k => [(k, Advocate); (k, Skeptic); (k, Mediator)])
    (map Z.of_nat (seq 1 (Z.to_nat R))).

(** ... a labelled block of the transcript and its log entry. *)
Definition spec_block (R : Z) (slot : Z * role) (resp : string) : string :=
  nl ++ nl ++ "### Round " ++ string_of_Z (fst slot) ++ "/" ++ string_of_Z R ++ " — "
  ++ role_name (snd slot) ++ nl ++ resp.

Definition spec_entry (slot : Z * role) (resp : string) : agent_log :=
  mkLog (role_name (snd slot) ++ " (R" ++ string_of_Z (fst slot) ++ ")") resp.

Fixpoint zip_with {A B C} (f : A -> B -> C) (xs : list A) (ys : list B) : list C :=
  match xs, ys with
  | x :: xs', y :: ys' => f x y :: zip_with f xs' ys'
  | _, _ => []
  end.

(** Concatenation of transcript blocks. *)
Definition concat_str (xs : list string) : string := fold_right String.append "" xs.

Definition triple (k : Z) : list (Z * role) := [(k, Advocate); (k, Skeptic); (k, Mediator)].

Definition rounds_from (r : Z) (n : nat) : list Z :=
  map (fun i => (r + Z.of_nat i)%Z) (seq 1 n).

End Debate.

(* ------------------------------------------------------------------------- *)
(** ** The research pipeline ([graph.py], [state.py], the agent nodes) *)

Module Pipeline.
Import Debate.

(** [BiotechState] as [server._build_initial_state] creates it: every key
    present. [api_data] maps a source name to its formatted text. *)
Record state := mkState {
  target : string;
  clarification : string;
  analysis : string;
  search_criteria : json;
  api_data : list (string * string);
  hypotheses : string;
  debate : debate_state;
  brief : string;
  agents_log : list agent_log;
  citations : list json }.

(** The dict a node returns: the keys it sets ([None]: key absent). *)
Record update := mkUpdate {
  u_analysis : option string;
  u_search_criteria : option json;
  u_api_data : option (list (string * string));
  u_hypotheses : option string;
  u_debate : option debate_state;
  u_brief : option string;
  u_agents_log : option (list agent_log);
  u_citations : option (list json) }.

Definition no_update : update := mkUpdate None None None None None None None None.

Definition keep {A} (o : option A) (old : A) : A :=
  match o with Some v => v | None => old end.

(** LangGraph's state update for [StateGraph(BiotechState)]: no key of the
    [TypedDict] carries a reducer ([Annotated[..., reducer]]), so every key
    is a last-value channel: a key the node returns replaces the old value,
    a key it does not return keeps it. *)
Definition apply_update (s : state) (u : update) : state :=
  mkState (target s) (clarification s)
    (keep (u_analysis u) (analysis s))
    (keep (u_search_criteria u) (search_criteria s))
    (keep (u_api_data u) (api_data s))
    (keep (u_hypotheses u) (hypotheses s))
    (keep (u_debate u) (debate s))
    (keep (u_brief u) (brief s))
    (keep (u_agents_log u) (agents_log s))
    (keep (u_citations u) (citations s)).

(** The external collaborators of the nodes. *)
Record oracles := mkOracles {
  acall_llm : string -> string -> string;        (** keyed by [BIOTECH_PROMPTS] key *)
  parse_criteria : string -> string -> json;     (** [TargetAnalyzer._parse_response(raw, target)] *)
  json_dumps : json -> string;                   (** [json.dumps(x, indent=2)] *)
  fetch_trials : string -> option string -> string * list json;
  fetch_papers : string -> string * list json;
  search_papers : string -> string * list json }.

(** [{**d, k: v}] *)
Fixpoint dict_set (k v : string) (d : list (string * string)) : list (string * string) :=
  match d with
  | [] => [(k, v)]
  | (k', v') :: r => if String.eqb k k' then (k, v) :: r else (k', v') :: dict_set k v r
  end.

Fixpoint dict_get (k : string) (d : list (string * string)) (default : string) : string :=
  match d with
  | [] => default
  | (k', v) :: r => if String.eqb k k' then v else dict_get k r default
  end.

Section Nodes.
Variable o : oracles.

(** [TargetAnalyzer.call]; [search_criteria.get(...)] raises on a non-dict. *)
Definition target_analyzer (s : state) : option update :=
  let user_prompt := "Research target: " ++ target s ++ nl
    ++ "User clarification: " ++ clarification s in
  let raw_response := acall_llm o "analyzer" user_prompt in
  let criteria := parse_criteria o raw_response (target s) in
  match criteria with
  | JObj _ =>
      let narrative := get_str "narrative_summary" criteria
                         ("Parsed research target: " ++ target s) in
      Some (mkUpdate (Some narrative) (Some criteria) None None None None
        (Some [mkLog "Target Analyzer"
                 (narrative ++ nl ++ nl ++ "**Structured criteria:** "
                  ++ json_dumps o criteria)])
        None)
  | _ => None
  end.

(** [_get_query(state, key)]: [None] when [.get] meets a non-dict. *)
Definition get_query (s : state) (key : string) : option string :=
  match search_criteria s with
  | JObj _ =>
      match get "search_queries" (search_criteria s) with
      | None => Some (target s)
      | Some (JObj kvs) =>
          match assoc key kvs with
          | Some (JStr q) => if String.eqb q "" then Some (target s) else Some q
          | _ => Some (target s)
          end
      | Some _ => None
      end
  | _ => None
  end.

(** [_criteria_context(state)] *)
Definition criteria_context (s : state) : string :=
  if truthy (search_criteria s) then
    nl ++ nl ++ "## Structured Search Criteria" ++ nl ++ "```json" ++ nl
    ++ json_dumps o (search_criteria s) ++ nl ++ "```"
  else "".

(** [_format_citation_block(citations)] *)
Definition citation_line (c : json) : string :=
  let label := "[" ++ get_str "id" c "" ++ "]" in
  let parts := [get_str "title" c ""]
    +++ (if truthy_opt (get "authors" c) then ["by " ++ get_str "authors" c ""] else [])
    +++ (if truthy_opt (get "year" c) then ["(" ++ get_str "year" c "" ++ ")"] else [])
    +++ (if truthy_opt (get "journal" c) then ["in " ++ get_str "journal" c ""] else [])
    +++ (if truthy_opt (get "url" c) then ["URL: " ++ get_str "url" c ""] else []) in
  "- " ++ label ++ " " ++ join " — " parts.

Definition format_citation_block (cits : list json) : string :=
  match cits with
  | [] => ""
  | _ => join nl ((nl ++ nl ++ "## Available Citations (use these for references)")
                  :: map citation_line cits)
  end.


(** [TrialsScout.call] *)
Definition trials_scout (s : state) : option update :=
  match get_query s "clinicaltrials_condition", get_query s "clinicaltrials_intervention" with
  | Some condition_query, Some intervention_query =>
      let intervention :=
        if String.eqb intervention_query (target s) then None else Some intervention_query in
      let '(raw_trials, trial_citations) := fetch_trials o condition_query intervention in
      let analysis := acall_llm o "trials_scout"
        ("Target: " ++ target s ++ nl ++ nl ++ "Clinical trial data:" ++ nl ++ raw_trials
         ++ criteria_context s ++ format_citation_block trial_citations) in
      Some (mkUpdate None None (Some (dict_set "trials" raw_trials (api_data s))) None None None
        (Some [mkLog "Trials Scout" analysis])
        (Some (citations s +++ trial_citations)))
  | _, _ => None
  end.

(** [LitScout.call] *)
Definition literature_miner (s : state) : option update :=
  match get_query s "pubmed_query", get_query s "semantic_scholar_query" with
  | Some pubmed_query, Some semantic_query =>
      let '(pubmed_data, pm_citations) := fetch_papers o pubmed_query in
      let '(semantic_data, ss_citations) := search_papers o semantic_query in
      let combined := "## PubMed Results" ++ nl ++ pubmed_data ++ nl ++ nl
        ++ "## Semantic Scholar Results" ++ nl ++ semantic_data in
      let all_new_citations := pm_citations +++ ss_citations in
      let analysis := acall_llm o "literature_miner"
        ("Target: " ++ target s ++ nl ++ nl ++ "Academic literature data:" ++ nl ++ combined
         ++ criteria_context s ++ format_citation_block all_new_citations) in
      let updated_api := dict_set "papers" combined
        (dict_set "semantic" semantic_data (dict_set "pubmed" pubmed_data (api_data s))) in
      Some (mkUpdate None None (Some updated_api) None None None
        (Some [mkLog "Literature Miner" analysis])
        (Some (citations s +++ all_new_citations)))
  | _, _ => None
  end.

(** [HypothesisGenerator.call]; [[:500]] is a byte prefix here. *)
Definition hypothesis_generator (s : state) : option update :=
  let previous_insights :=
    join (nl ++ nl) (map (fun e => "### " ++ agent e ++ nl ++ content e) (agents_log s)) in
  let context := "Target: " ++ target s ++ nl ++ nl
    ++ "## Target Analysis" ++ nl ++ analysis s ++ nl ++ nl
    ++ "## Agent Insights" ++ nl ++ previous_insights ++ nl ++ nl
    ++ "## Raw Trial Data (summary)" ++ nl
    ++ substring 0 500 (dict_get "trials" (api_data s) "N/A") ++ nl ++ nl
    ++ "## Raw Literature Data (summary)" ++ nl
    ++ substring 0 500 (dict_get "papers" (api_data s) (dict_get "pubmed" (api_data s) "N/A")) in
  let hyps := acall_llm o "hypothesis_generator" context in
  Some (mkUpdate None None None (Some hyps) None None
    (Some [mkLog "Hypothesis Generator" hyps]) None).

(** The [debate] node: [Debate.call]. *)
Definition debate_node (s : state) : option update :=
  let u := Debate.call (acall_llm o) (hypotheses s) (debate s) in
  Some (mkUpdate None None None None (Some (upd_debate u)) None
    (Some (upd_agents_log u)) None).

(** [_format_citation_registry(citations)] *)
Definition registry_lines (idx : nat) (c : json) : list string :=
  let parts :=
    (if truthy_opt (get "authors" c) then [get_str "authors" c ""] else [])
    +++ (if truthy_opt (get "title" c) then [String (ascii_of_nat 34) (get_str "title" c "" ++ String (ascii_of_nat 34) "")] else [])
    +++ (if truthy_opt (get "journal" c) then [get_str "journal" c ""] else [])
    +++ (if truthy_opt (get "year" c) then ["(" ++ get_str "year" c "" ++ ")"] else [])
    +++ (if truthy_opt (get "nct_id" c) then ["NCT: " ++ get_str "nct_id" c ""] else []) in
  ("- " ++ string_of_nat idx ++ ". " ++ join " — " parts)
  :: (if truthy_opt (get "url" c) then ["  URL: " ++ get_str "url" c ""] else []).

Fixpoint registry_entries (idx : nat) (cs : list json) : list string :=
  match cs with
  | [] => []
  | c :: r => registry_lines idx c +++ registry_entries (S idx) r
  end.

Definition format_citation_registry (cits : list json) : string :=
  match cits with
  | [] => nl ++ nl ++ "## Citation Registry" ++ nl ++ "No structured citations available."
  | _ => join nl ([nl ++ nl ++ "## Citation Registry";
                   "Use ONLY these citations for the References section. Each citation has a verified URL.";
                   "Do NOT include internal IDs (like ct-1, pm-2, ss-3) in the final report — use numbered references [1], [2], etc.";
                   ""] +++ registry_entries 1 cits)
  end.

(** [Synthesizer.call]; [api_data] holds text only, so
    [trial_publications] is absent and dumps as [[]]. *)
Definition synthesizer (s : state) : option update :=
  let trial_publications_json := json_dumps o (JArr []) in
  let full_context := "# Research Target: " ++ target s ++ nl ++ nl
    ++ "## Target Analysis" ++ nl ++ analysis s ++ nl ++ nl
    ++ "## Clinical Trial Data" ++ nl ++ dict_get "trials" (api_data s) "N/A" ++ nl ++ nl
    ++ "## Verified Trial-Publication Links (ClinicalTrials.gov Results References)" ++ nl
    ++ "```json" ++ nl ++ trial_publications_json ++ nl ++ "```" ++ nl ++ nl
    ++ "## PubMed Literature" ++ nl ++ substring 0 800 (dict_get "pubmed" (api_data s) "N/A") ++ nl ++ nl
    ++ "## Semantic Scholar Literature" ++ nl ++ substring 0 800 (dict_get "semantic" (api_data s) "N/A") ++ nl ++ nl
    ++ "## Generated Hypotheses" ++ nl ++ hypotheses s ++ nl ++ nl
    ++ "## Debate Transcript" ++ nl ++ history (debate s)
    ++ format_citation_registry (citations s) in
  let b := acall_llm o "synthesizer" full_context in
  Some (mkUpdate None None None None None (Some b) (Some [mkLog "Synthesizer" b]) None).

(** [build_graph]: the fixed node order of the compiled graph. *)
Definition graph_nodes : list (string * (state -> option update)) :=
  [("analyzer", target_analyzer); ("trials_scout", trials_scout);
   ("literature_miner", literature_miner); ("hypothesis_generator", hypothesis_generator);
   ("debate", debate_node); ("synthesizer", synthesizer)].

End Nodes.

(** The executor ([graph.ainvoke] / [graph.astream]): each node reads the
    current state, its update is applied, and the next node runs; a node that
    raises aborts the run ([None]). The trace lists [(node, update)] as
    [astream] yields them. *)
Fixpoint run_steps (nodes : list (string * (state -> option update))) (s : state)
  : list (string * update) * option state :=
  match nodes with
  | [] => ([], Some s)
  | (name, node) :: rest =>
      match node s with
      | None => ([], None)
      | Some u =>
          let '(tr, fin) := run_steps rest (apply_update s u) in
          ((name, u) :: tr, fin)
      end
  end.

(** [server._build_initial_state(target, rounds, clarification)] *)
Definition initial_state (tgt : string) (rounds : Z) (clar : string) : state :=
  mkState tgt clar "" (JObj []) [] "" (mkDebate 0 rounds "") "" [] [].

End Pipeline.

(* ------------------------------------------------------------------------- *)
(** ** Link validator ([agents/linking/link_validator.py]) *)

Module Validator.

(** Python [a == b] on JSON values: exact on scalars ([True == 1]); lists and
    dicts compared entry by entry in order. *)
Definition num_of_scalar (j : json) : option Z :=
  match j with
  | JNum z => Some z
  | JBool b => Some (if b then 1%Z else 0%Z)
  | _ => None
  end.

Fixpoint py_eq (a b : json) : bool :=
  match a, b with
  | JNull, JNull => true
  | JStr x, JStr y => String.eqb x y
  | JArr xs, JArr ys =>
      (fix go (xs ys : list json) : bool :=
         match xs, ys with
         | [], [] => true
         | x :: xs', y :: ys' => py_eq x y && go xs' ys'
         | _, _ => false
         end) xs ys
  | JObj xs, JObj ys =>
      (fix go (xs ys : list (string * json)) : bool :=
         match xs, ys with
         | [], [] => true
         | (k, x) :: xs', (k', y) :: ys' => String.eqb k k' && py_eq x y && go xs' ys'
         | _, _ => false
         end) xs ys
  | _, _ =>
      match num_of_scalar a, num_of_scalar b with
      | Some x, Some y => Z.eqb x y
      | _, _ => false
      end
  end.

(** [d.get(k, default)]; [None] when [d] is not a dict ([AttributeError]). *)
Definition dget (d : json) (k : string) (default : json) : option json :=
  match d with
  | JObj kvs => Some (match assoc k kvs with Some v => v | None => default end)
  | _ => None
  end.

(** The elements a [for] loop visits, when every element then has [.get]
    called on it: a list gives its items; an empty string or dict gives none;
    a non-empty string or dict gives strings, on which [.get] raises; other
    values are not iterable. *)
Definition as_iter (j : json) : option (list json) :=
  match j with
  | JArr xs => Some xs
  | JStr "" => Some []
  | JObj [] => Some []
  | _ => None
  end.

(** [for c in candidates[:3]] under the same convention: slicing a dict
    raises. *)
Definition as_slice_iter (j : json) : option (list json) :=
  match j with
  | JArr xs => Some (firstn 3 xs)
  | JStr "" => Some []
  | _ => None
  end.

Fixpoint mapM {A B} (f : A -> option B) (xs : list A) : option (list B) :=
  match xs with
  | [] => Some []
  | x :: r =>
      match f x with
      | None => None
      | Some y => match mapM f r with None => None | Some ys => Some (y :: ys) end
      end
  end.

Notation "'let?' x ':=' a 'in' b" := (match a with Some x => b | None => None end)
  (at level 200, x pattern, a at level 100, b at level 200).

(** A publication dict built by the fallback. *)
Record publication := mkPub {
  pub_pmid : json;
  pub_title : json;
  pub_authors : json;
  pub_year : json;
  pub_url : string;
  confidence_tier : string;
  confidence_score : json;
  match_reason : json }.

Record dataset := mkDataset {
  ds_source : json; ds_url : json; ds_title : json; ds_availability_type : string }.

Record trial_link := mkTrialLink {
  tl_nct_id : json;
  trial_title : json;
  trial_url : json;
  publications : list publication;
  datasets : list dataset;
  data_availability : string }.

Record fallback_result := mkFallback {
  trial_links : list trial_link;
  summary : string }.

(** [for c in candidates[:3]]: one publication; comparing a non-number with
    [70] raises [TypeError]. *)
Definition make_pub (c : json) : option publication :=
  let? confidence := dget c "confidence" (JNum 30) in
  let? z := num_of_scalar confidence in
  let tier := if (70 <=? z)%Z then "high" else if (50 <=? z)%Z then "medium" else "low" in
  let? pmid := dget c "pmid" (JStr "") in
  let? title := dget c "title" (JStr "") in
  let? authors := dget c "authors" (JStr "") in
  let? year := dget c "year" (JStr "") in
  let? reason := dget c "match_reason" (JStr "PubMed search match") in
  Some (mkPub pmid title authors year
          ("https://pubmed.ncbi.nlm.nih.gov/" ++ py_str pmid ++ "/")
          tier confidence reason).

(** The body of [for ft in fulltext] for one publication. *)
Definition upgrade_one (pub : publication) (ft : json) : option publication :=
  let? ft_pmid := dget ft "pmid" JNull in
  if py_eq ft_pmid (pub_pmid pub) then
    let? mentioned := dget ft "nct_mentioned" JNull in
    if truthy mentioned then
      let? s := num_of_scalar (confidence_score pub) in
      let score := if (s <? 80)%Z then JNum 80 else confidence_score pub in
      let suffix := " (NCT ID confirmed in full text)" in
      let? reason := match match_reason pub with
                     | JStr m => Some (JStr (m ++ suffix))
                     | JArr xs =>
                         Some (JArr (xs +++ map (fun ch => JStr (String ch ""))
                                               (list_ascii_of_string suffix)))
                     | _ => None
                     end in
      Some (mkPub (pub_pmid pub) (pub_title pub) (pub_authors pub) (pub_year pub)
              (pub_url pub) "high" score reason)
    else Some pub
  else Some pub.

Fixpoint upgrade (pub : publication) (fulltext : list json) : option publication :=
  match fulltext with
  | [] => Some pub
  | ft :: r => let? p := upgrade_one pub ft in upgrade p r
  end.

Definition make_dataset (hit : json) : option dataset :=
  let? src := dget hit "source" (JStr "Unknown") in
  let? url := dget hit "url" (JStr "") in
  let? title := dget hit "title" (JStr "") in
  Some (mkDataset src url title "unknown").

(** [x in avail_types] *)
Definition py_in (x : json) (xs : list json) : bool := existsb (py_eq x) xs.

(** The data-availability summary of one trial. *)
Definition data_avail_of (avail_types : list json) : string :=
  if py_in (JStr "open_access") avail_types then "Open-access data available"
  else if py_in (JStr "on_request") avail_types then "Data available on request"
  else if py_in (JStr "restricted") avail_types then "Restricted access data"
  else "No data availability information found".

(** The loop body of [_fallback_validation] for one trial record. *)
Definition trial_link_of (rec : json) : option trial_link :=
  let? nct_id := dget rec "nct_id" (JStr "") in
  let? registry := dget rec "registry" (JObj []) in
  let? cands_v := dget rec "pubmed_candidates" (JArr []) in
  let? fulltext_v := dget rec "fulltext_data" (JArr []) in
  let? hits_v := dget rec "repository_hits" (JArr []) in
  let? top3 := as_slice_iter cands_v in
  let? fulltext := as_iter fulltext_v in
  let? repo_hits := as_iter hits_v in
  let? pubs0 := mapM make_pub top3 in
  let? pubs := mapM (fun p => upgrade p fulltext) pubs0 in
  let? datasets := mapM make_dataset repo_hits in
  let? avail_types := mapM (fun ft => dget ft "availability_type" (JStr "not_stated")) fulltext in
  let? title := dget registry "brief_title" (JStr "") in
  let? url := dget registry "trial_url" (JStr ("https://clinicaltrials.gov/study/" ++ py_str nct_id)) in
  Some (mkTrialLink nct_id title url pubs datasets (data_avail_of avail_types)).

(** [_fallback_validation(trial_records)]; [None]: it raises. *)
Definition fallback_validation (trial_records : list json) : option fallback_result :=
  let? links := mapM trial_link_of trial_records in
  let total_pubs := fold_right (fun t n => length (publications t) + n) 0 links in
  Some (mkFallback links
          ("Found " ++ string_of_nat total_pubs ++ " publications across "
           ++ string_of_nat (length links) ++ " trials.")).

(** What the [try] block gets from the gateway: [acall_llm] raised, the
    (stripped, fence-removed) text is not JSON, or it parses to a value. *)
Inductive gw_outcome :=
| GwRaised
| GwUnparsable
| GwParsed (v : json).

(** The value returned by [validate_links]: a JSON dict (the parsed gateway
    output or a literal dict of the code), or the fallback's dict. *)
Inductive validated :=
| VJson (j : json)
| VFallback (r : fallback_result).

(** [key in v]: [Some b] or [None] when the test raises [TypeError]. *)
Definition py_contains (v : json) (key : string) : option bool :=
  match v with
  | JObj kvs => Some (match assoc key kvs with Some _ => true | None => false end)
  | JArr xs => Some (py_in (JStr key) xs)
  | JStr s => Some (str_contains s key)
  | _ => None
  end.

(** [validate_links(trial_records)]. [gateway] answers the one reasoning call,
    whose prompt is built from [trial_records]; the first component lists the
    record sets the gateway was called with. [None]: an exception escapes. *)
Definition validate_links (gateway : list json -> gw_outcome) (trial_records : list json)
  : list (list json) * option validated :=
  match trial_records with
  | [] => ([], Some (VJson (JObj [("trial_links", JArr []);
                                  ("summary", JStr "No trials to validate.")])))
  | _ =>
      let fallback := match fallback_validation trial_records with
                      | Some r => Some (VFallback r)
                      | None => None
                      end in
      ([trial_records],
       match gateway trial_records with
       | GwRaised | GwUnparsable => fallback
       | GwParsed v =>
           match py_contains v "trial_links" with
           | None => fallback
           | Some true => Some (VJson v)
           | Some false => Some (VJson (JObj [("trial_links", JArr []);
                                               ("summary", JStr (py_str v))]))
           end
       end)
  end.

(** Records on which the fallback does not raise: dicts whose collection
    fields are lists of dicts, whose registry is a dict, and whose first three
    candidates have a numeric (or absent) confidence and a string (or list)
    match reason. *)
Definition is_dict (j : json) : bool := match j with JObj _ => true | _ => false end.

Definition fld (j : json) (k : string) (d : json) : json :=
  match get k j with Some v => v | None => d end.

Definition wf_candidate (c : json) : bool :=
  is_dict c
  && match num_of_scalar (fld c "confidence" (JNum 30)) with Some _ => true | None => false end
  && match fld c "match_reason" (JStr "PubMed search match") with
     | JStr _ | JArr _ => true
     | _ => false
     end.

Definition wf_list (p : json -> bool) (j : json) : bool :=
  match j with JArr xs => forallb p xs | _ => false end.

Definition wf_record (rec : json) : bool :=
  is_dict rec
  && is_dict (fld rec "registry" (JObj []))
  && match fld rec "pubmed_candidates" (JArr []) with
     | JArr xs => forallb wf_candidate (firstn 3 xs)
     | _ => false
     end
  && wf_list is_dict (fld rec "fulltext_data" (JArr []))
  && wf_list is_dict (fld rec "repository_hits" (JArr [])).

(** The spec's precedence for the data-availability label:
    open_access > on_request > restricted > none, as a rank. *)
Definition avail_rank (j : json) : nat :=
  match j with
  | JStr s =>
      if String.eqb s "open_access" then 3
      else if String.eqb s "on_request" then 2
      else if String.eqb s "restricted" then 1
      else 0
  | _ => 0
  end.

Definition avail_label (n : nat) : string :=
  match n with
  | 3 => "Open-access data available"
  | 2 => "Data available on request"
  | 1 => "Restricted access data"
  | _ => "No data availability information found"
  end.

Definition spec_data_availability (types : list json) : string :=
  avail_label (fold_right (fun t m => Nat.max (avail_rank t) m) 0 types).

(** The spec's tiers: [>= 70] high, [50 .. 69] medium, [< 50] low. *)
Definition spec_tier (z : Z) : string :=
  if (z >=? 70)%Z then "high"
  else if ((50 <=? z) && (z <=? 69))%Z then "medium"
  else "low".

(** Some full-text record of the trial has the same [pmid] as [pm] and
    flags [nct_mentioned]. *)
Definition mentioned (fts : list json) (pm : json) : bool :=
  existsb (fun ft => py_eq (fld ft "pmid" JNull) pm && truthy (fld ft "nct_mentioned" JNull)) fts.

(** The publication emitted for candidate [c] of a trial with full-text
    records [fts]. *)
Definition publication_ok (fts : list json) (c : json) (p : publication) : Prop :=
  exists z,
    num_of_scalar (fld c "confidence" (JNum 30)) = Some z /\
    pub_pmid p = fld c "pmid" (JStr "") /\
    if mentioned fts (fld c "pmid" (JStr "")) then
      confidence_tier p = "high" /\
      exists s, num_of_scalar (confidence_score p) = Some s /\ (80 <= s)%Z /\ s = Z.max z 80
    else
      confidence_tier p = spec_tier z /\ confidence_score p = fld c "confidence" (JNum 30).

(** The publications of the trial link built for [rec]. *)
Definition link_publications_ok (rec : json) (tl : trial_link) : Prop :=
  forall top3 fts,
    as_slice_iter (fld rec "pubmed_candidates" (JArr [])) = Some top3 ->
    as_iter (fld rec "fulltext_data" (JArr [])) = Some fts ->
    Forall2 (publication_ok fts) top3 (publications tl).

(** The availability label of the link built for [rec]. *)
Definition link_availability_ok (rec : json) (tl : trial_link) : Prop :=
  (forall fts,
     as_iter (fld rec "fulltext_data" (JArr [])) = Some fts ->
     data_availability tl =
       spec_data_availability (map (fun ft => fld ft "availability_type" (JStr "not_stated")) fts)) /\
  (fld rec "pubmed_candidates" (JArr []) = JArr [] ->
   fld rec "fulltext_data" (JArr []) = JArr [] ->
   publications tl = [] /\ data_availability tl = "No data availability information found").

Definition reason_ok (j : json) : bool :=
  match j with JStr _ | JArr _ => true | _ => false end.

End Validator.

(* ------------------------------------------------------------------------- *)
(** ** The trial-linking stages ([agents/linking/pubmed_linker.py],
    [registry_enricher.py], [orchestrator.py]) *)

Module Linking.
Import Validator.

(** Character classes of [str] methods, on ASCII characters (multi-byte
    UTF-8 characters are left alone). *)
Definition is_space (c : ascii) : bool :=
  let n := nat_of_ascii c in ((9 <=? n) && (n <=? 13) || (28 <=? n) && (n <=? 32))%nat.

Definition is_digit (c : ascii) : bool :=
  let n := nat_of_ascii c in ((48 <=? n) && (n <=? 57))%nat.

Definition upper_char (c : ascii) : ascii :=
  let n := nat_of_ascii c in
  if ((97 <=? n) && (n <=? 122))%nat then ascii_of_nat (n - 32) else c.

(** [s.upper()] *)
Definition py_upper (s : string) : string :=
  string_of_list_ascii (map upper_char (list_ascii_of_string s)).

(** [s.isdigit()] *)
Definition py_isdigit (s : string) : bool :=
  match s with
  | EmptyString => false
  | _ => forallb is_digit (list_ascii_of_string s)
  end.

Fixpoint split_ws (cs : list ascii) (cur : list ascii) : list string :=
  let flush := match cur with [] => [] | _ => [string_of_list_ascii (rev cur)] end in
  match cs with
  | [] => flush
  | c :: r => if is_space c then flush +++ split_ws r [] else split_ws r (c :: cur)
  end.

(** [s.split()]: the maximal runs of non-whitespace characters. *)
Definition py_split (s : string) : list string := split_ws (list_ascii_of_string s) [].

Fixpoint lstrip (cs : list ascii) : list ascii :=
  match cs with
  | c :: r => if is_space c then lstrip r else cs
  | [] => []
  end.

(** [s.strip()] *)
Definition py_strip (s : string) : string :=
  string_of_list_ascii (rev (lstrip (rev (lstrip (list_ascii_of_string s))))).

(** [s.replace("\n", " ")] *)
Definition replace_nl (s : string) : string :=
  string_of_list_ascii
    (map (fun c => if Ascii.eqb c (ascii_of_nat 10) then " "%char else c) (list_ascii_of_string s)).

(** [len(v)]; [None]: [TypeError]. *)
Definition py_len (v : json) : option nat :=
  match v with
  | JArr xs => Some (length xs)
  | JObj kvs => Some (length kvs)
  | JStr s => Some (String.length s)
  | _ => None
  end.

(** [v[0]] on a truthy value: JSON dicts have string keys, so [d[0]] raises
    [KeyError]; numbers and booleans are not subscriptable. *)
Definition py_index0 (v : json) : option json :=
  match v with
  | JArr (x :: _) => Some x
  | JStr (String c _) => Some (JStr (String c EmptyString))
  | _ => None
  end.

(** [v[:n]] *)
Definition py_slice (n : nat) (v : json) : option json :=
  match v with
  | JArr xs => Some (JArr (firstn n xs))
  | JStr s => Some (JStr (substring 0 n s))
  | _ => None
  end.

(** The items a [for] loop visits: list items, string characters, dict keys. *)
Definition py_iter (v : json) : option (list json) :=
  match v with
  | JArr xs => Some xs
  | JStr s => Some (map (fun c => JStr (String c EmptyString)) (list_ascii_of_string s))
  | JObj kvs => Some (map (fun kv => JStr (fst kv)) kvs)
  | _ => None
  end.

Fixpoint sum_opt (xs : list (option nat)) : option nat :=
  match xs with
  | [] => Some 0
  | x :: r => let? a := x in let? b := sum_opt r in Some (a + b)
  end.

(** The external calls a stage makes, in the order it makes them. *)
Inductive call :=
| SearchByNct (nct_id : json)
| SearchByTrialMetadata (title condition pi_name : json) (completion_year : string)
| RankCandidates (trial_context : json) (combined : string)
| FetchTrials (target : string) (max_results : nat)
| EnrichTrial (nct_id : json)
| LinkTrial (registry : json)
| SearchRepositories (nct_id trial_title : json)
| ExtractBatch (publications : json) (nct_id : json)
| ValidateLinks (trial_records : list json).

(* ---- pubmed_linker.py ---- *)

(** The year of [completion_date]: the first whitespace-separated part that
    is four digits. *)
Fixpoint first_year (parts : list string) : string :=
  match parts with
  | [] => ""
  | p :: r => if py_isdigit p && Nat.eqb (String.length p) 4 then p else first_year r
  end.

(** The arguments of [search_by_trial_metadata] (lines 49-61). *)
Definition heuristic_args (registry : json) : option (json * json * json * string) :=
  let? brief := dget registry "brief_title" (JStr "") in
  let? official := dget registry "official_title" (JStr "") in
  let title := if truthy brief then brief else official in
  let? conditions := dget registry "conditions" (JArr []) in
  let? condition := if truthy conditions then py_index0 conditions else Some (JStr "") in
  let? pi_name := dget registry "pi_name" (JStr "") in
  let? completion := dget registry "completion_date" (JStr "") in
  let? comp_year := if truthy completion
                    then match completion with
                         | JStr s => Some (first_year (py_split s))
                         | _ => None
                         end
                    else Some "" in
  Some (title, condition, pi_name, comp_year).

(** [combined] (lines 72-74). *)
Definition combined_of (nct_md heuristic_md : string) : string :=
  "## Structured NCT Search Results" ++ nl ++ nct_md ++ nl ++ nl ++
  (if String.eqb heuristic_md "" then ""
   else "## Heuristic Metadata Search Results" ++ nl ++ heuristic_md ++ nl).

(** The dict serialised into [trial_context] (lines 82-91). *)
Definition trial_context (registry nct_id : json) : option json :=
  let? title := dget registry "brief_title" (JStr "") in
  let? official := dget registry "official_title" (JStr "") in
  let? conditions := dget registry "conditions" (JArr []) in
  let? pi_name := dget registry "pi_name" (JStr "") in
  let? sponsor := dget registry "sponsor" (JStr "") in
  let? completion := dget registry "completion_date" (JStr "") in
  let? status := dget registry "status" (JStr "") in
  Some (JObj [("nct_id", nct_id); ("title", title); ("official_title", official);
              ("conditions", conditions); ("pi_name", pi_name); ("sponsor", sponsor);
              ("completion_date", completion); ("status", status)]).

(** The candidates read from a parsed ranking answer (lines 116-121). *)
Definition candidates_of (parsed : json) : json :=
  match parsed with
  | JArr _ => parsed
  | JObj kvs =>
      match assoc "candidates" kvs with
      | Some v => v
      | None => if truthy parsed then JArr [parsed] else JArr []
      end
  | _ => if truthy parsed then JArr [parsed] else JArr []
  end.

(** One entry of the [except] branch (lines 130-139). *)
Definition fallback_candidate (nct_id : json) (c : json) : option json :=
  let? pmid := dget c "pmid" (JStr "") in
  let? doi := dget c "doi" (JStr "") in
  let? title := dget c "title" (JStr "") in
  let? authors := dget c "authors" (JStr "") in
  let? year := dget c "year" (JStr "") in
  let? nct_s := match nct_id with JStr s => Some s | _ => None end in
  let? t := match (if truthy title then title else JStr "") with
            | JStr t => Some t
            | _ => None
            end in
  Some (JObj [("pmid", pmid); ("doi", doi); ("title", title); ("authors", authors);
              ("year", year);
              ("confidence", JNum (if str_contains (py_upper t) (py_upper nct_s) then 40 else 25));
              ("match_reason", JStr "Raw PubMed search result (LLM ranking unavailable)");
              ("match_type", JStr "metadata_heuristic")]).

(** [link_trial_to_publications(registry)]. [search_by_nct] and
    [search_by_trial_metadata] return [(markdown, citations)]; [rank]
    answers the ranking call, whose user prompt is built from the trial
    context and [combined], with the outcome of the [try] block up to
    [json.loads]. The first component lists the calls made; [None]: an
    exception escapes. *)
Definition link_trial_to_publications
  (search_by_nct : json -> string * list json)
  (search_by_trial_metadata : json -> json -> json -> string -> string * list json)
  (rank : json -> string -> gw_outcome)
  (registry : json) : list call * option json :=
  match dget registry "nct_id" (JStr "") with
  | None => ([], None)
  | Some nct_id =>
    if negb (truthy nct_id) then ([], Some (JArr [])) else
    let (nct_md, nct_citations) := search_by_nct nct_id in
    let heuristic :=
      if Nat.ltb (length nct_citations) 3 then
        match heuristic_args registry with
        | None => None
        | Some (title, condition, pi_name, comp_year) =>
            Some ([SearchByTrialMetadata title condition pi_name comp_year],
                  search_by_trial_metadata title condition pi_name comp_year)
        end
      else Some ([], ("", [])) in
    match heuristic with
    | None => ([SearchByNct nct_id], None)
    | Some (calls, (heuristic_md, heuristic_citations)) =>
      let combined := combined_of nct_md heuristic_md in
      let all_citations := nct_citations +++ heuristic_citations in
      match all_citations with
      | [] => (SearchByNct nct_id :: calls, Some (JArr []))
      | _ =>
        match trial_context registry nct_id with
        | None => (SearchByNct nct_id :: calls, None)
        | Some ctx =>
          (SearchByNct nct_id :: calls +++ [RankCandidates ctx combined],
           match rank ctx combined with
           | GwParsed parsed => Some (candidates_of parsed)
           | GwRaised | GwUnparsable =>
               let? fallback := mapM (fallback_candidate nct_id) (firstn 5 all_citations) in
               Some (JArr fallback)
           end)
        end
      end
    end
  end.

(* ---- registry_enricher.py ---- *)

(** What the [try] block of [enrich_trial] sees: a 404 response, a
    [requests.RequestException] [e] (from [requests.get],
    [raise_for_status] or [resp.json]) with [str(e) = msg], or a parsed
    response body. *)
Inductive http_result :=
| Http404
| HttpError (msg : string)
| HttpOk (study : json).

(** [_safe(val, max_len)] *)
Definition safe (val : json) (max_len : nat) : string :=
  match val with
  | JNull => ""
  | _ => substring 0 max_len (py_strip (replace_nl (py_str val)))
  end.

(** [d.get(k, {}) or {}] *)
Definition get_or_empty (d : json) (k : string) : option json :=
  let? v := dget d k (JObj []) in Some (if truthy v then v else JObj []).

(** [d.get(k, []) or []] *)
Definition get_or_nil (d : json) (k : string) : option json :=
  let? v := dget d k (JArr []) in Some (if truthy v then v else JArr []).

(** The names kept from [interventions_raw] (lines 91-95). *)
Definition intervention_names (items : list json) : list string :=
  fold_right (fun intr acc =>
    match intr with
    | JObj _ => let name := safe (fld intr "name" JNull) 300 in
                if String.eqb name "" then acc else name :: acc
    | _ => acc
    end) [] items.

(** The entries of [registry_pmids] (lines 101-114). *)
Definition registry_refs (items : list json) : list json :=
  fold_right (fun ref acc =>
    match ref with
    | JObj _ =>
        let ref_type := py_upper (safe (fld ref "type" JNull) 40) in
        let is_result := str_contains ref_type "RESULT" || truthy (fld ref "isResultsReference" JNull) in
        let pmid := safe (fld ref "pmid" JNull) 32 in
        let citation := safe (fld ref "citation" JNull) 500 in
        if negb (String.eqb pmid "") || negb (String.eqb citation "") then
          JObj [("pmid", JStr pmid); ("citation", JStr citation); ("is_result", JBool is_result);
                ("type", JStr (safe (fld ref "type" JNull) 40))] :: acc
        else acc
    | _ => acc
    end) [] items.

(** [enrich_trial(nct_id)] for the given outcome of the HTTP request;
    [None]: an exception escapes (a body or module that is not a dict). *)
Definition enrich_trial (nct_id : string) (resp : http_result) : option json :=
  match resp with
  | Http404 => Some (JObj [("nct_id", JStr nct_id); ("error", JStr "not_found")])
  | HttpError e => Some (JObj [("nct_id", JStr nct_id); ("error", JStr e)])
  | HttpOk study =>
    let? proto := get_or_empty study "protocolSection" in
    let? ident := get_or_empty proto "identificationModule" in
    let? brief_title := dget ident "briefTitle" JNull in
    let? official_title := dget ident "officialTitle" JNull in
    let? status_mod := get_or_empty proto "statusModule" in
    let? overall_status := dget status_mod "overallStatus" JNull in
    let? start_date_struct := get_or_empty status_mod "startDateStruct" in
    let? start_date := dget start_date_struct "date" JNull in
    let? completion_struct := get_or_empty status_mod "completionDateStruct" in
    let? completion_date := dget completion_struct "date" JNull in
    let? design := get_or_empty proto "designModule" in
    let? phases := dget design "phases" (JArr []) in
    let? enrollment_info := dget design "enrollmentInfo" (JObj []) in
    let? enrollment := match enrollment_info with
                       | JObj _ => dget enrollment_info "count" (JStr "")
                       | _ => Some (JStr "")
                       end in
    let? sponsor_mod := get_or_empty proto "sponsorCollaboratorsModule" in
    let? lead_sponsor := get_or_empty sponsor_mod "leadSponsor" in
    let? sponsor_name := dget lead_sponsor "name" JNull in
    let? contacts_mod := get_or_empty proto "contactsLocationsModule" in
    let? overall_officials := get_or_nil contacts_mod "overallOfficials" in
    let? pi_name := if truthy overall_officials
                    then let? pi := py_index0 overall_officials in
                         let? name := dget pi "name" JNull in
                         Some (safe name 300)
                    else Some "" in
    let? conditions_mod := get_or_empty proto "conditionsModule" in
    let? conditions := get_or_nil conditions_mod "conditions" in
    let? arms_mod := get_or_empty proto "armsInterventionsModule" in
    let? interventions_raw := get_or_nil arms_mod "interventions" in
    let? intr_items := py_iter interventions_raw in
    let? refs_mod := get_or_empty proto "referencesModule" in
    let? references := get_or_nil refs_mod "references" in
    let? ref_items := py_iter references in
    let? conditions5 := py_slice 5 conditions in
    Some (JObj [("nct_id", JStr nct_id);
                ("brief_title", JStr (safe brief_title 300));
                ("official_title", JStr (safe official_title 300));
                ("conditions", conditions5);
                ("interventions", JArr (map JStr (firstn 5 (intervention_names intr_items))));
                ("sponsor", JStr (safe sponsor_name 300));
                ("pi_name", JStr pi_name);
                ("start_date", JStr (safe start_date 300));
                ("completion_date", JStr (safe completion_date 300));
                ("status", JStr (safe overall_status 300));
                ("phases", phases);
                ("enrollment", JStr (py_str enrollment));
                ("registry_pmids", JArr (registry_refs ref_items));
                ("trial_url", JStr ("https://clinicaltrials.gov/study/" ++ nct_id))])
  end.

(* ---- orchestrator.py ---- *)

(** What the generator does: yield an event or make a call. *)
Inductive effect :=
| Yield (ev : json)
| Call (c : call).

(** A run of the generator: its effects, and [true] if it returned rather
    than raised. *)
Definition run := (list effect * bool)%type.

Definition event (kind agent content : string) : effect :=
  Yield (JObj [("event", JStr kind); ("agent", JStr agent); ("content", JStr content)]).

Definition done_event : effect := Yield (JObj [("event", JStr "done")]).

Definition emit (e : effect) (k : run) : run := (e :: fst k, snd k).

(** Effects and a value, then the rest of the run on that value. *)
Definition seq_run {A} (p : list effect * option A) (k : A -> run) : run :=
  let (es, o) := p in
  match o with
  | None => (es, false)
  | Some a => let (es', b) := k a in (es +++ es', b)
  end.

(** The collaborators of [run_linking_pipeline]: [fetch_trials] gives
    [inl (str e)] when it raises; the others give [None] when they raise. *)
Record linking_env := mkEnv {
  fetch_trials : string -> nat -> string + list json;
  enrich : json -> option json;
  link_pubs : json -> option json;
  search_repositories : json -> json -> option json;
  extract_batch : json -> json -> option json;
  validate : list json -> option json;
  format_linking_markdown : json -> option string }.

Section Orchestrator.
Variable env : linking_env.

(** [[t.get("nct_id", "") for t in trial_list if t.get("nct_id")]] *)
Fixpoint collect_ids (ts : list json) : option (list json) :=
  match ts with
  | [] => Some []
  | t :: r =>
      let? v := dget t "nct_id" JNull in
      let? rest := collect_ids r in
      Some (if truthy v then v :: rest else rest)
  end.

(** [[r for r in enriched_records if not r.get("error")]] (line 108). *)
Fixpoint valid_records (rs : list json) : option (list json) :=
  match rs with
  | [] => Some []
  | r :: t =>
      let? e := dget r "error" JNull in
      let? rest := valid_records t in
      Some (if truthy e then rest else r :: rest)
  end.

(** A trial record of step 3: [(nct_id, registry, pubmed_candidates,
    repository_hits, fulltext_data)]. *)
Definition trial_record := (json * json * json * json * json)%type.

Definition record_json (r : trial_record) : json :=
  let '(nct_id, registry, cands, hits, ft) := r in
  JObj [("nct_id", nct_id); ("registry", registry); ("pubmed_candidates", cands);
        ("repository_hits", hits); ("fulltext_data", ft)].

(** The loop of step 3 (lines 130-149). *)
Fixpoint link_loop (valid : list json) : list effect * option (list trial_record) :=
  match valid with
  | [] => ([], Some [])
  | registry :: rest =>
      match dget registry "nct_id" (JStr ""), dget registry "brief_title" (JStr "") with
      | Some nct_id, Some title =>
          let calls := [Call (LinkTrial registry); Call (SearchRepositories nct_id title)] in
          match link_pubs env registry, search_repositories env nct_id title with
          | Some cands, Some hits =>
              let (es, recs) := link_loop rest in
              (calls +++ es,
               option_map (cons (nct_id, registry, cands, hits, JArr [])) recs)
          | _, _ => (calls, None)
          end
      | _, _ => ([], None)
      end
  end.

(** The loop of step 4 (lines 171-178). *)
Fixpoint extract_loop (recs : list trial_record) : list effect * option (list trial_record) :=
  match recs with
  | [] => ([], Some [])
  | (nct_id, registry, cands, hits, ft) :: rest =>
      if truthy cands then
        match py_slice 3 cands with
        | None => ([], None)
        | Some top3 =>
            match extract_batch env top3 nct_id with
            | None => ([Call (ExtractBatch top3 nct_id)], None)
            | Some results =>
                let (es, recs') := extract_loop rest in
                (Call (ExtractBatch top3 nct_id) :: es,
                 option_map (cons (nct_id, registry, cands, hits, results)) recs')
            end
        end
      else
        let (es, recs') := extract_loop rest in
        (es, option_map (cons (nct_id, registry, cands, hits, ft)) recs')
  end.

(** [sum(1 for r in trial_records for ft in r["fulltext_data"] if ft.get(key))] *)
Definition count_flag (key : string) (recs : list trial_record) : option nat :=
  sum_opt (map (fun r =>
    let '(_, _, _, _, ft) := r in
    let? items := py_iter ft in
    let? flags := mapM (fun f => dget f key JNull) items in
    Some (length (filter truthy flags))) recs).

(** Step 5 and the final result (lines 201-228). *)
Definition validate_stage (recs : list trial_record) : run :=
  emit (event "status" "Link Validator" "Validating and aggregating trial–publication links…")
  (emit (Call (ValidateLinks (map record_json recs)))
  (match validate env (map record_json recs) with
   | None => ([], false)
   | Some validated =>
     match format_linking_markdown env validated, dget validated "summary" (JStr "Results aggregated.") with
     | Some final_markdown, Some summary =>
         emit (event "agent" "Link Validator" ("Validation complete. " ++ py_str summary))
         (emit (Yield (JObj [("event", JStr "result"); ("content", JStr final_markdown);
                             ("data", validated)]))
         (emit done_event ([], true)))
     | _, _ => ([], false)
     end
   end)).

(** Step 4 (lines 164-198). *)
Definition fulltext_stage (total_pubs : nat) (recs : list trial_record) : run :=
  if Nat.ltb 0 total_pubs then
    emit (event "status" "Full-Text Extractor" "Fetching full texts and extracting data availability…")
    (seq_run (extract_loop recs) (fun recs' =>
       match count_flag "nct_mentioned" recs', count_flag "fulltext_available" recs' with
       | Some nct_mentions, Some data_sections =>
           emit (event "agent" "Full-Text Extractor"
                   ("Analysed " ++ string_of_nat data_sections ++ " publication full texts. "
                    ++ "Found " ++ string_of_nat nct_mentions
                    ++ " publications mentioning trial NCT IDs in text."))
           (validate_stage recs')
       | _, _ => ([], false)
       end))
  else validate_stage recs.

(** Steps 2 to 5, from the list of trial ids (lines 97-228). *)
Definition stages (nct_ids : list json) : run :=
  emit (event "status" "Registry Enricher"
          ("Enriching " ++ string_of_nat (length nct_ids) ++ " trial records from ClinicalTrials.gov…"))
  (seq_run (map (fun n => Call (EnrichTrial n)) nct_ids, mapM (enrich env) nct_ids)
  (fun enriched_records =>
   match valid_records enriched_records with
   | None => ([], false)
   | Some valid =>
     match sum_opt (map (fun r => let? v := dget r "registry_pmids" (JArr []) in py_len v) valid) with
     | None => ([], false)
     | Some n_refs =>
       emit (event "agent" "Registry Enricher"
               ("Enriched " ++ string_of_nat (length valid) ++ "/" ++ string_of_nat (length nct_ids)
                ++ " trial records. " ++ "Extracted metadata including titles, conditions, PIs, dates, "
                ++ "and " ++ string_of_nat n_refs ++ " registry-linked references."))
       (emit (event "status" "PubMed Linker" "Searching PubMed for linked publications…")
       (seq_run (link_loop valid) (fun recs =>
          match sum_opt (map (fun r => let '(_, _, c, _, _) := r in py_len c) recs),
                sum_opt (map (fun r => let '(_, _, _, h, _) := r in py_len h) recs) with
          | Some total_pubs, Some total_repos =>
              emit (event "agent" "PubMed Linker"
                      ("Found " ++ string_of_nat total_pubs ++ " candidate publications across "
                       ++ string_of_nat (length recs) ++ " trials. "
                       ++ "Repository search found " ++ string_of_nat total_repos ++ " dataset records."))
              (fulltext_stage total_pubs recs)
          | _, _ => ([], false)
          end)))
     end
   end)).

(** [run_linking_pipeline(target, nct_ids, max_trials)]; an absent
    [nct_ids] is the empty list. *)
Definition run_linking_pipeline (target : string) (nct_ids : list string) (max_trials : nat) : run :=
  match nct_ids with
  | _ :: _ =>
      let ids := firstn max_trials (filter (fun s => negb (String.eqb s "")) nct_ids) in
      emit (event "status" "Linking Orchestrator"
              ("Using " ++ string_of_nat (length ids) ++ " trials from research results…"))
      (emit (event "agent" "Linking Orchestrator"
               ("Starting deep linking analysis for " ++ string_of_nat (length ids) ++ " trials: "
                ++ join ", " (firstn 5 ids) ++ (if Nat.ltb 5 (length ids) then "…" else "")))
      (stages (map JStr ids)))
  | [] =>
      emit (event "status" "Linking Orchestrator" ("Searching ClinicalTrials.gov for '" ++ target ++ "'…"))
      (emit (Call (FetchTrials target max_trials))
      (match fetch_trials env target max_trials with
       | inl e =>
           emit (Yield (JObj [("event", JStr "error"); ("detail", JStr ("Failed to fetch trials: " ++ e))]))
             ([], true)
       | inr [] =>
           emit (event "agent" "Linking Orchestrator" ("No clinical trials found for '" ++ target ++ "'."))
           (emit done_event ([], true))
       | inr trial_list =>
           match collect_ids trial_list with
           | None => ([], false)
           | Some all_ids =>
               let ids := firstn max_trials all_ids in
               emit (event "agent" "Linking Orchestrator"
                       ("Found " ++ string_of_nat (length ids) ++ " trials. Beginning deep linking analysis…"))
               (stages ids)
           end
       end))
  end.

End Orchestrator.

(** Citations on which the [except] branch of [link_trial_to_publications]
    does not raise: dicts whose title is a string or falsy. *)
Definition wf_citation (c : json) : bool :=
  is_dict c && match fld c "title" (JStr "") with
               | JStr _ => true
               | v => negb (truthy v)
               end.

(** The events a run yields, their ["event"] kinds, and the calls it makes. *)
Definition yielded (es : list effect) : list json :=
  flat_map (fun e => match e with Yield ev => [ev] | Call _ => [] end) es.

Definition event_kind (ev : json) : string := get_str "event" ev "".

Definition is_enrich_call (e : effect) : bool :=
  match e with Call (EnrichTrial _) => true | _ => false end.

Definition is_rank_call (c : call) : bool :=
  match c with RankCandidates _ _ => true | _ => false end.

(** An environment whose registry search finds no trial; the later
    collaborators are never reached on that path. *)
Definition no_trials_env : linking_env :=
  mkEnv (fun _ _ => inr []) (fun _ => None) (fun _ => None) (fun _ _ => None)
        (fun _ _ => None) (fun _ => None) (fun _ => None).

(** A trial record that carries only its id. *)
Definition bare_registry : json := JObj [("nct_id", JStr "NCT04330664")].

End Linking.

(* ------------------------------------------------------------------------- *)
(** ** Target analyzer ([agents/analyzer.py]) *)

Module Analyzer.
Import Validator Linking.

(** Character classes of [_TARGET_RE]: [[A-Z0-9a-z]], [[A-Za-z0-9-]], [\s]
    (on ASCII characters: [is_space]) and [.] (anything but a newline). *)
Definition is_alnum (c : ascii) : bool :=
  let n := nat_of_ascii c in
  ((48 <=? n) && (n <=? 57) || (65 <=? n) && (n <=? 90) || (97 <=? n) && (n <=? 122))%nat.

Definition gene_char (c : ascii) : bool := is_alnum c || Ascii.eqb c "-"%char.

Definition not_nl (c : ascii) : bool := negb (Ascii.eqb c (ascii_of_nat 10)).

(** The ways a greedy [p+] can match at the front of [cs], in the order the
    backtracking matcher tries them: longest run first. *)
Fixpoint prefix_runs (p : ascii -> bool) (cs : list ascii) : list (list ascii * list ascii) :=
  match cs with
  | [] => []
  | c :: r =>
      if p c then map (fun ab => (c :: fst ab, snd ab)) (prefix_runs p r) +++ [([c], r)]
      else []
  end.

(** The first alternative that succeeds. *)
Fixpoint first_some {A B} (f : A -> option B) (xs : list A) : option B :=
  match xs with
  | [] => None
  | x :: r => match f x with Some y => Some y | None => first_some f r end
  end.

(** [$] without [re.MULTILINE]: at the end, or before a final newline. *)
Definition at_end (cs : list ascii) : bool :=
  match cs with
  | [] => true
  | [c] => Ascii.eqb c (ascii_of_nat 10)
  | _ => false
  end.

(** [(?:\s+(?P<mutation>.+))?$] on the rest of the input: [Some (Some m)]
    when the group matched with [mutation = m], [Some None] when the group
    was skipped, [None] on failure. The greedy [?] tries the group first. *)
Definition match_tail (cs : list ascii) : option (option (list ascii)) :=
  match first_some
          (fun ws => first_some (fun mr => if at_end (snd mr) then Some (fst mr) else None)
                                (prefix_runs not_nl (snd ws)))
          (prefix_runs is_space cs) with
  | Some m => Some (Some m)
  | None => if at_end cs then Some None else None
  end.

(** [_TARGET_RE.match(s)]: the groups [gene] and [mutation] of the first
    match in backtracking order. *)
Definition target_re_match (cs : list ascii) : option (list ascii * option (list ascii)) :=
  match cs with
  | c :: r =>
      if is_alnum c then
        first_some (fun gr => option_map (fun t => (c :: fst gr, t)) (match_tail (snd gr)))
                   (prefix_runs gene_char r)
      else None
  | [] => None
  end.

(** [TargetAnalyzer._parse_target(target)] *)
Definition parse_target (target : string) : string * option string :=
  let s := py_strip target in
  match target_re_match (list_ascii_of_string s) with
  | Some (g, m) => (string_of_list_ascii g, option_map string_of_list_ascii m)
  | None => (s, None)
  end.

(** [TargetAnalyzer._build_fallback(target)] *)
Definition build_fallback (target : string) : json :=
  let '(gene, mutation) := parse_target target in
  JObj [("primary_concepts",
          JObj [("conditions", JArr []); ("interventions", JArr []);
                ("gene_target", JObj [("gene", JStr gene);
                                      ("mutation", match mutation with
                                                   | Some m => JStr m
                                                   | None => JNull
                                                   end);
                                      ("pathway", JNull)])]);
        ("nice_to_have_filters",
          JObj [("population", JObj [("age_range", JNull); ("sex", JNull); ("stage", JNull);
                                     ("line_of_therapy", JNull); ("biomarkers", JArr [])]);
                ("study_design", JObj [("phase", JArr []); ("design", JNull); ("masking", JNull)]);
                ("geography", JArr []);
                ("status", JArr []);
                ("date_window", JObj [("start_after", JNull); ("complete_before", JNull)])]);
        ("search_queries",
          JObj [("clinicaltrials_condition", JStr target);
                ("clinicaltrials_intervention", JNull);
                ("pubmed_query", JStr target);
                ("semantic_scholar_query", JStr target)]);
        ("narrative_summary",
          JStr ("Parsed research target: " ++ target ++ " (gene=" ++ gene ++ ", mutation="
                ++ match mutation with
                   | Some m => if String.eqb m "" then "none" else m
                   | None => "none"
                   end ++ ")."))].

(** [TargetAnalyzer._parse_response(raw, target)]; [loads] is [json.loads]
    ([None]: [JSONDecodeError]). The result is [None] when an exception
    other than [JSONDecodeError] or [ValueError] escapes: [in] on a number,
    a boolean or [None] raises [TypeError]. *)
Definition parse_response (loads : string -> option json) (raw target : string) : option json :=
  match loads raw with
  | None => Some (build_fallback target)
  | Some data =>
      match py_contains data "primary_concepts" with
      | None => None
      | Some false => Some (build_fallback target)
      | Some true =>
          match py_contains data "search_queries" with
          | None => None
          | Some false => Some (build_fallback target)
          | Some true => Some data
          end
      end
  end.

(** Inputs of the shape [_TARGET_RE] is written for: a gene symbol (an ASCII
    letter or digit, then at least one letter, digit or hyphen), whitespace,
    and a one-line mutation text with no whitespace at either end. *)
Definition gene_token (g : string) : bool :=
  match list_ascii_of_string g with
  | c :: (_ :: _) as r => is_alnum c && forallb gene_char r
  | _ => false
  end.

Definition blank (w : string) : bool := forallb is_space (list_ascii_of_string w).

Definition mutation_text (m : string) : bool :=
  match list_ascii_of_string m with
  | [] => false
  | c :: r => negb (is_space c) && negb (is_space (last (c :: r) c)) && forallb not_nl (c :: r)
  end.

(** Whether every character of [s] is ASCII: there [is_space] is exactly
    Python's whitespace ([str.strip], [re]'s [\s]). *)
Definition ascii_text (s : string) : bool :=
  forallb (fun c => Nat.ltb (nat_of_ascii c) 128) (list_ascii_of_string s).

End Analyzer.

(* ------------------------------------------------------------------------- *)
(** ** Registry, literature and repository tools ([tools/*.py]) *)

Module Tools.
Import Validator Linking.

(* ---- clinical_trials.py ---- *)

(** [s.rstrip()] *)
Definition py_rstrip (s : string) : string :=
  string_of_list_ascii (rev (lstrip (rev (list_ascii_of_string s)))).

(** [_safe_text(value, max_len)]. Lengths count characters, here bytes: the
    model is exact on ASCII text. [text[:max_len - 3]] with a negative bound
    drops [3 - max_len] characters from the end. *)
Definition safe_text (value : json) (max_len : nat) : string :=
  match value with
  | JNull => ""
  | _ =>
      let text := py_strip (replace_nl (py_str value)) in
      if (String.length text <=? max_len)%nat then text
      else py_rstrip (substring 0 (if (3 <=? max_len)%nat then max_len - 3
                                   else String.length text - (3 - max_len)) text) ++ "..."
  end.

Definition backslash : ascii := ascii_of_nat 92.

(** [s.replace(c, "\\" + c)] *)
Fixpoint escape_char (c : ascii) (s : string) : string :=
  match s with
  | EmptyString => EmptyString
  | String d r =>
      if Ascii.eqb d c then String backslash (String d (escape_char c r))
      else String d (escape_char c r)
  end.

(** Reading an escaped table cell back: a backslash right before [|], [[]
    or []] is dropped. *)
Definition md_special (c : ascii) : bool :=
  Ascii.eqb c "|"%char || Ascii.eqb c "["%char || Ascii.eqb c "]"%char.

Fixpoint unescape_md (s : string) : string :=
  match s with
  | EmptyString => EmptyString
  | String b r' =>
      match r' with
      | String c r => if Ascii.eqb b backslash && md_special c then String c (unescape_md r)
                      else String b (unescape_md r')
      | EmptyString => String b EmptyString
      end
  end.

(** [_escape_md_table(value, max_len)] *)
Definition escape_md_table (value : json) (max_len : nat) : string :=
  escape_char "]"%char (escape_char "["%char (escape_char "|"%char (safe_text value max_len))).

(** [_is_results_reference(reference)] on a dict. *)
Definition is_results_reference (reference : json) : bool :=
  str_contains (py_upper (safe_text (fld reference "type" JNull) 40)) "RESULT"
  || truthy (fld reference "isResultsReference" JNull).

Definition lower_char (c : ascii) : ascii :=
  let n := nat_of_ascii c in
  if ((65 <=? n) && (n <=? 90))%nat then ascii_of_nat (n + 32) else c.

(** [s.lower()] *)
Definition py_lower (s : string) : string :=
  string_of_list_ascii (map lower_char (list_ascii_of_string s)).

(** The references [_extract_results_publications] iterates over
    (lines 50-52, 57). *)
Definition study_references (study : json) : option (list json) :=
  let? proto := get_or_empty study "protocolSection" in
  let? references_module := get_or_empty proto "referencesModule" in
  let? references := get_or_nil references_module "references" in
  py_iter references.

(** The publication dict appended for a kept reference (lines 71-79). *)
Definition results_entry (pmid citation : string) (reference : json) : json :=
  let pubmed_url := if py_isdigit pmid then "https://pubmed.ncbi.nlm.nih.gov/" ++ pmid ++ "/" else "" in
  let ref_type := safe_text (fld reference "type" JNull) 40 in
  JObj [("pmid", JStr (if String.eqb pmid "" then "N/A" else pmid));
        ("citation", JStr (if String.eqb citation "" then "No citation text provided." else citation));
        ("url", JStr pubmed_url);
        ("reference_type", JStr (if String.eqb ref_type "" then "RESULT" else ref_type))].

Definition key_eqb (a b : string * string) : bool :=
  String.eqb (fst a) (fst b) && String.eqb (snd a) (snd b).

(** The loop of lines 57-79; [seen] holds the dedupe keys so far. *)
Fixpoint results_loop (seen : list (string * string)) (references : list json) : list json :=
  match references with
  | [] => []
  | reference :: rest =>
      if negb (is_dict reference) || negb (is_results_reference reference) then results_loop seen rest
      else
        let pmid := safe_text (fld reference "pmid" JNull) 32 in
        let citation := safe_text (fld reference "citation" JNull) 600 in
        if String.eqb pmid "" && String.eqb citation "" then results_loop seen rest
        else
          let dedupe_key := (pmid, py_lower citation) in
          if existsb (key_eqb dedupe_key) seen then results_loop seen rest
          else results_entry pmid citation reference :: results_loop (dedupe_key :: seen) rest
  end.

(** [_extract_results_publications(study)]; [None]: an exception escapes. *)
Definition extract_results_publications (study : json) : option (list json) :=
  let? references := study_references study in
  Some (results_loop [] references).

(* ---- repositories.py ---- *)

(** One record of [search_vivli] (lines 112-121), for a study that is a
    dict. *)
Definition vivli_study (study : json) : json :=
  let title := if truthy (fld study "title" JNull) then fld study "title" JNull
               else if truthy (fld study "studyTitle" JNull) then fld study "studyTitle" JNull
               else JStr "Untitled" in
  let nct := if truthy (fld study "nctId" JNull) then fld study "nctId" JNull
             else if truthy (fld study "registryId" JNull) then fld study "registryId" JNull
             else JStr "" in
  let description := fld study "description" (JStr "") in
  JObj [("title", JStr (py_str title));
        ("url", JStr (if truthy nct then "https://vivli.org/study/" ++ py_str nct
                      else "https://vivli.org"));
        ("description",
         JStr (substring 0 300 (py_str (if truthy description then description else JStr ""))));
        ("nct_id", JStr (py_str nct));
        ("source", JStr "Vivli")].

(** [search_vivli(query, max_results)] once [resp.json()] returned [data]
    (lines 107-122); [None]: an exception that the [except] clause does not
    catch ([AttributeError], [TypeError]) escapes. *)
Definition vivli_results (data : json) (max_results : nat) : option (list json) :=
  let? studies := match data with
                  | JArr _ => Some data
                  | _ => dget data "studies" (JArr [])
                  end in
  let? top := py_slice max_results studies in
  let? items := py_iter top in
  Some (map vivli_study (filter is_dict items)).

(** Values a [set] accepts. *)
Definition hashable (j : json) : bool :=
  match j with JArr _ | JObj _ => false | _ => true end.

(** The deduplication loop of [search_repositories] (lines 167-173); [seen]
    holds the urls kept so far. *)
Fixpoint dedup_by_url (seen : list json) (rs : list json) : option (list json) :=
  match rs with
  | [] => Some []
  | r :: rest =>
      let? url := dget r "url" (JStr "") in
      if truthy url then
        if negb (hashable url) then None
        else if py_in url seen then dedup_by_url seen rest
        else let? kept := dedup_by_url (url :: seen) rest in Some (r :: kept)
      else dedup_by_url seen rest
  end.

(** The search loop (lines 159-164) for the searches [search_zenodo] and
    [search_vivli] ([None]: the search raised). The first component lists
    the searches made, as [(repository, query)]. *)
Fixpoint repository_loop (search_zenodo search_vivli : json -> nat -> option (list json))
  (max_results : nat) (queries : list json) : list (string * json) * option (list json) :=
  match queries with
  | [] => ([], Some [])
  | query :: rest =>
      match search_zenodo query max_results with
      | None => ([("zenodo", query)], None)
      | Some zenodo_hits =>
          match search_vivli query max_results with
          | None => ([("zenodo", query); ("vivli", query)], None)
          | Some vivli_hits =>
              let (cs, res) := repository_loop search_zenodo search_vivli max_results rest in
              (("zenodo", query) :: ("vivli", query) :: cs,
               option_map (fun all => zenodo_hits +++ vivli_hits +++ all) res)
          end
      end
  end.

(** [search_repositories(nct_id, trial_title, max_results)] *)
Definition search_repositories (search_zenodo search_vivli : json -> nat -> option (list json))
  (nct_id trial_title : json) (max_results : nat) : list (string * json) * option (list json) :=
  let q1 := if truthy nct_id then [nct_id] else [] in
  match (if truthy trial_title then option_map (fun t => [t]) (py_slice 60 trial_title)
         else Some []) with
  | None => ([], None)
  | Some q2 =>
      match q1 +++ q2 with
      | [] => ([], Some [])
      | queries =>
          let (calls, all_results) :=
            repository_loop search_zenodo search_vivli max_results (firstn 2 queries) in
          (calls,
           let? all := all_results in
           let? deduplicated := dedup_by_url [] all in
           Some (firstn (max_results * 2) deduplicated))
      end
  end.

(* ---- pubmed.py ---- *)

Definition dq : string := String (ascii_of_nat 34) EmptyString.

(** [[w for w in title.split() if len(w) > 3][:6]] *)
Definition title_words (title : string) : list string :=
  firstn 6 (filter (fun w => Nat.ltb 3 (String.length w)) (py_split title)).

(** [pi_name.strip().split()[-1] if pi_name.strip() else ""] *)
Definition surname_of (pi_name : string) : string :=
  if String.eqb (py_strip pi_name) "" then "" else last (py_split (py_strip pi_name)) "".

(** [int(s)] on a string of ASCII digits. *)
Definition int_of_digits (s : string) : Z :=
  fold_left (fun acc c => (10 * acc + Z.of_nat (nat_of_ascii c - 48))%Z) (list_ascii_of_string s) 0%Z.

(** The query parts of [search_by_trial_metadata] (lines 224-240). *)
Definition metadata_parts (title condition pi_name : string) : list string :=
  (if String.eqb title "" then []
   else match title_words title with
        | [] => []
        | words => [dq ++ join " " words ++ dq]
        end)
  +++ (if String.eqb condition "" then [] else [dq ++ condition ++ dq])
  +++ (if String.eqb pi_name "" then []
       else let surname := surname_of pi_name in
            if negb (String.eqb surname "") && Nat.ltb 2 (String.length surname)
            then [surname ++ "[Author]"] else []).

(** The clinical-trial publication-type filter (line 248). *)
Definition trial_type_filter : string :=
  " AND (" ++ dq ++ "clinical trial" ++ dq ++ "[pt] OR " ++ dq ++ "randomized controlled trial"
  ++ dq ++ "[pt])".

(** [search_by_trial_metadata(title, condition, pi_name, completion_year)]
    with [fetch_papers(query, max_results)] as [fetch_papers]. *)
Definition search_by_trial_metadata (fetch_papers : string -> nat -> string * list json)
  (title condition pi_name completion_year : string) : string * list json :=
  match metadata_parts title condition pi_name with
  | [] => ("Insufficient metadata for heuristic search.", [])
  | parts =>
      let query := join " AND " parts ++ trial_type_filter in
      let query :=
        if negb (String.eqb completion_year "") && py_isdigit completion_year
        then let year := int_of_digits completion_year in
             query ++ " AND " ++ string_of_Z (year - 2) ++ ":" ++ string_of_Z (year + 2) ++ "[dp]"
        else query in
      fetch_papers query 8
  end.

(* ---- europe_pmc.py ---- *)

(** [search_fulltext_for_nct(fulltext, nct_id)] *)
Definition search_fulltext_for_nct (fulltext nct_id : string) : bool :=
  if String.eqb fulltext "" || String.eqb nct_id "" then false
  else str_contains (py_upper fulltext) (py_upper nct_id).

(** Whether a string is a single line. *)
Definition no_nl (s : string) : bool := forallb Analyzer.not_nl (list_ascii_of_string s).

End Tools.

(* ------------------------------------------------------------------------- *)
(** ** Full-text extractor ([agents/linking/fulltext_extractor.py]) *)

Module Fulltext.
Import Validator Linking Tools.

(** [d[k] = v] on a dict: an existing key keeps its place. *)
Fixpoint jset (k : string) (v : json) (d : list (string * json)) : list (string * json) :=
  match d with
  | [] => [(k, v)]
  | (k', v') :: r => if String.eqb k k' then (k, v) :: r else (k', v') :: jset k v r
  end.

(** [s.split(sep)] for a one-character separator. *)
Fixpoint split_on_rev (sep : ascii) (cs : list ascii) (cur : list ascii) : list string :=
  match cs with
  | [] => [string_of_list_ascii (rev cur)]
  | c :: r =>
      if Ascii.eqb c sep then string_of_list_ascii (rev cur) :: split_on_rev sep r []
      else split_on_rev sep r (c :: cur)
  end.

Definition py_split_on (sep : ascii) (s : string) : list string :=
  split_on_rev sep (list_ascii_of_string s) [].

(** What [extract_data_availability(fulltext)] returns: a dict with the keys
    [urls], [repositories], [statement] and [has_data_section]. *)
Record data_info := mkDataInfo {
  di_urls : list string;
  di_repositories : list string;
  di_statement : string;
  di_has_data_section : bool }.

(** The dict [extract_publication_data] starts from (lines 47-58). *)
Definition default_result (pmid doi : json) : list (string * json) :=
  [("pmid", pmid); ("doi", doi); ("nct_mentioned", JBool false);
   ("fulltext_available", JBool false); ("availability_type", JStr "not_stated");
   ("statement_snippet", JStr ""); ("repository_urls", JArr []);
   ("repository_names", JArr []); ("supplementary_urls", JArr []); ("notes", JStr "")].

Definition py_bool_str (b : bool) : string := if b then "True" else "False".

(** [list(set(a + b))] with [set_list] as [list(set(..))] on hashable items
    (its order is the set's); [None]: [+] or [set] raises [TypeError]. *)
Definition merge_set (set_list : list json -> list json) (a b : json) : option json :=
  match a, b with
  | JArr xs, JArr ys => if forallb hashable (xs +++ ys) then Some (JArr (set_list (xs +++ ys))) else None
  | _, _ => None
  end.

Section Extract.
(** The collaborators: [fetch_fulltext] ([None]: it raised; [Some None]: it
    returned [None]), [extract_data_availability], [acall_llm] for the
    [fulltext_extractor] prompt ([None]: it raised), [json.loads] ([None]:
    [JSONDecodeError]) and the order of [list(set(..))]. *)
Variable fetch_fulltext : json -> json -> option (option string).
Variable extract_data_availability : string -> data_info.
Variable acall_llm : string -> option string.
Variable loads : string -> option json.
Variable set_list : list json -> list json.

(** The user prompt of lines 83-93. *)
Definition extractor_prompt (pmid : json) (fulltext : string) (info : data_info) : string :=
  let context_text := if Nat.ltb 3000 (String.length fulltext) then substring 0 3000 fulltext else fulltext in
  "## Publication: PMID " ++ py_str pmid ++ nl ++ nl
  ++ "## Extracted Data-Availability Information" ++ nl
  ++ "- Has data section: " ++ py_bool_str (di_has_data_section info) ++ nl
  ++ "- Detected repositories: " ++ py_repr (JArr (map JStr (di_repositories info))) ++ nl
  ++ "- Extracted URLs: " ++ py_repr (JArr (map JStr (di_urls info))) ++ nl
  ++ "- Statement snippet: " ++ di_statement info ++ nl ++ nl
  ++ "## Full Text Excerpt" ++ nl ++ context_text ++ nl.

(** Lines 101-104: strip a Markdown code fence. *)
Definition strip_fence (response : string) : string :=
  let response := py_strip response in
  if String.prefix "```" response
  then join nl (removelast (tl (py_split_on (ascii_of_nat 10) response)))
  else response.

(** The [try] block of lines 81-117: the dict as it stands when the block
    ends, and [true] when it ran to its end ([false]: an exception was
    raised, after the assignments made so far). *)
Definition try_block (pmid : json) (fulltext : string) (info : data_info)
  (result : list (string * json)) : list (string * json) * bool :=
  match acall_llm (extractor_prompt pmid fulltext info) with
  | None => (result, false)
  | Some response =>
    match loads (strip_fence response) with
    | None => (result, false)
    | Some parsed =>
      match parsed with
      | JObj kvs =>
        let result := jset "availability_type" (fld parsed "availability_type" (JStr "not_stated")) result in
        let result := jset "statement_snippet" (fld parsed "statement_snippet" (JStr "")) result in
        let result := jset "supplementary_urls" (fld parsed "supplementary_urls" (JArr [])) result in
        let result := jset "notes" (fld parsed "notes" (JStr "")) result in
        let llm_urls := fld parsed "repository_urls" (JArr []) in
        let llm_repos := fld parsed "repository_names" (JArr []) in
        match merge_set set_list (fld (JObj result) "repository_urls" JNull) llm_urls with
        | None => (result, false)
        | Some urls =>
          let result := jset "repository_urls" urls result in
          match merge_set set_list (fld (JObj result) "repository_names" JNull) llm_repos with
          | None => (result, false)
          | Some names => (jset "repository_names" names result, true)
          end
        end
      | _ => (result, false)
      end
    end
  end.

(** [extract_publication_data(pmid, doi, nct_id)]; [None]: an exception
    escapes. *)
Definition extract_publication_data (pmid doi : json) (nct_id : string) : option json :=
  let result := default_result pmid doi in
  let? fulltext := fetch_fulltext pmid doi in
  match fulltext with
  | None | Some EmptyString =>
      Some (JObj (jset "notes" (JStr "Full text not available (abstract-only or closed access)") result))
  | Some text =>
      let result := jset "fulltext_available" (JBool true) result in
      let result := if String.eqb nct_id "" then result
                     else jset "nct_mentioned" (JBool (search_fulltext_for_nct text nct_id)) result in
      let info := extract_data_availability text in
      let result := jset "repository_urls" (JArr (map JStr (di_urls info))) result in
      let result := jset "repository_names" (JArr (map JStr (di_repositories info))) result in
      if di_has_data_section info || negb (match di_repositories info with [] => true | _ => false end)
      then
        let (result, ok) := try_block pmid text info result in
        if ok then Some (JObj result)
        else
          let result := jset "availability_type"
                          (JStr (match di_repositories info with
                                 | [] => "not_stated"
                                 | _ => "open_access"
                                 end)) result in
          Some (JObj (jset "statement_snippet" (JStr (substring 0 200 (di_statement info))) result))
      else Some (JObj (jset "availability_type" (JStr "not_stated") result))
  end.

(** [extract_batch(publications, nct_id)]: one extraction per publication
    of [publications[:5]], in order ([asyncio.gather]). *)
Definition extract_batch (publications : list json) (nct_id : string) : option (list json) :=
  mapM (fun pub =>
          let? pmid := dget pub "pmid" (JStr "") in
          let? doi := dget pub "doi" (JStr "") in
          extract_publication_data pmid doi nct_id)
       (firstn 5 publications).

End Extract.

End Fulltext.

(* ========================================================================= *)
(** * Proofs *)

Module StrFacts.

Lemma app_assoc_str (a b c : string) : (a ++ b) ++ c = a ++ (b ++ c).
Proof. induction a as [|x a IH]; simpl; [reflexivity | now rewrite IH]. Qed.

Lemma app_nil_r_str (a : string) : a ++ "" = a.
Proof. induction a as [|x a IH]; simpl; [reflexivity | now rewrite IH]. Qed.

End StrFacts.

Module DebateProofs.
Import Debate StrFacts.

Lemma rounds_from_S (r : Z) (n : nat) :
  rounds_from r (S n) = (r + 1)%Z :: rounds_from (r + 1)%Z n.
Proof.
  unfold rounds_from. simpl. f_equal.
  rewrite <- seq_shift, map_map. apply map_ext. intros; lia.
Qed.

Lemma round_shape (llm : string -> string -> string) (hyp : string) (R r : Z)
  (h : string) (l : list agent_log) :
  exists a s m,
    debate_round llm hyp R r h l =
      (h ++ (spec_block R ((r + 1)%Z, Advocate) a
             ++ (spec_block R ((r + 1)%Z, Skeptic) s
             ++ spec_block R ((r + 1)%Z, Mediator) m)),
       app l [spec_entry ((r + 1)%Z, Advocate) a;
              spec_entry ((r + 1)%Z, Skeptic) s;
              spec_entry ((r + 1)%Z, Mediator) m]).
Proof.
  do 3 eexists. unfold debate_round, spec_block, spec_entry. cbv zeta.
  rewrite <- !app_assoc. cbn [app]. f_equal.
  rewrite !app_assoc_str. reflexivity.
Qed.

Lemma loop_shape (llm : string -> string -> string) (hyp : string) (R : Z) :
  forall n r h l, exists resps,
    length resps = 3 * n /\
    debate_loop llm hyp R n r h l =
      (h ++ concat_str (zip_with (spec_block R) (flat_map triple (rounds_from r n)) resps),
       app l (zip_with spec_entry (flat_map triple (rounds_from r n)) resps)).
Proof.
  induction n as [|n IH]; intros r h l.
  - exists []. cbn. rewrite app_nil_r_str, app_nil_r. split; reflexivity.
  - cbn [debate_loop].
    destruct (round_shape llm hyp R r h l) as (a & s & m & Hr). rewrite Hr.
    cbv iota.
    match goal with
    | |- exists _, _ /\ debate_loop _ _ _ _ _ ?h' ?l' = _ =>
        destruct (IH (r + 1)%Z h' l') as [resps [Hlen Heq]]
    end.
    exists (a :: s :: m :: resps). split; [cbn; lia|].
    rewrite Heq, rounds_from_S. cbn [flat_map triple app zip_with concat_str fold_right].
    rewrite <- !app_assoc. cbn [app]. f_equal.
    unfold concat_str. cbn [fold_right].
    rewrite !app_assoc_str. reflexivity.
Qed.

Lemma spec_schedule_rounds (R : Z) :
  spec_schedule R = flat_map triple (rounds_from 0 (Z.to_nat R)).
Proof.
  reflexivity.
Qed.

Lemma length_flat_map_triple (ks : list Z) :
  length (flat_map triple ks) = 3 * length ks.
Proof. induction ks as [|k ks IH]; cbn [flat_map triple app length]; [reflexivity|]; lia. Qed.

(** C3: started at round 0 with an empty transcript and [max_rounds = R], the
    debate step returns a transcript made of exactly [3R] labelled blocks
    "Round k/R — Role", in the order Advocate, Skeptic, Mediator for
    [k = 1 .. R], one [agents_log] entry per block (carrying the same
    response), and the returned debate state has [round = R]. *)
Theorem debate_blocks_in_order (acall_llm : string -> string -> string)
  (hyp : string) (R : Z) (HR : (0 <= R)%Z) :
  let u := call acall_llm hyp (mkDebate 0 R "") in
  exists resps : list string,
    Z.of_nat (length resps) = (3 * R)%Z /\
    Z.of_nat (length (spec_schedule R)) = (3 * R)%Z /\
    history (upd_debate u) = concat_str (zip_with (spec_block R) (spec_schedule R) resps) /\
    upd_agents_log u = zip_with spec_entry (spec_schedule R) resps /\
    round (upd_debate u) = R.
Proof.
  cbv zeta. unfold call. cbn [round max_rounds history].
  replace (R - 0)%Z with R by lia.
  destruct (loop_shape acall_llm hyp R (Z.to_nat R) 0 "" []) as [resps [Hlen Heq]].
  rewrite Heq. cbn [upd_debate upd_agents_log round history].
  rewrite spec_schedule_rounds.
  exists resps. split; [lia|]. split.
  - rewrite length_flat_map_triple. unfold rounds_from. rewrite length_map, length_seq. lia.
  - repeat split.
Qed.

Lemma debate_blocks_in_order_witness :
  (0 <= 2)%Z /\
  let u := call (fun _ _ => "ok") "H1" (mkDebate 0 2 "") in
  exists resps : list string,
    Z.of_nat (length resps) = (3 * 2)%Z /\
    Z.of_nat (length (spec_schedule 2)) = (3 * 2)%Z /\
    history (upd_debate u) = concat_str (zip_with (spec_block 2) (spec_schedule 2) resps) /\
    upd_agents_log u = zip_with spec_entry (spec_schedule 2) resps /\
    round (upd_debate u) = 2%Z.
Proof.
  split; [lia | apply (debate_blocks_in_order (fun _ _ => "ok") "H1" 2); lia].
Defined.

End DebateProofs.

Module PipelineProofs.
Import Debate Pipeline.

Lemma run_steps_app (ns : list (string * (state -> option update))) (n : string)
  (f : state -> option update) (s : state) tr s' :
  run_steps (ns +++ [(n, f)]) s = (tr, Some s') ->
  exists tr' sp u, run_steps ns s = (tr', Some sp) /\ f sp = Some u /\ s' = apply_update sp u.
Proof.
  revert s tr. induction ns as [|[m g] ns IH]; intros s tr H; cbn in H.
  - destruct (f s) as [u|] eqn:Hf; [|discriminate].
    inversion H; subst. exists [], s, u. auto.
  - destruct (g s) as [u|] eqn:Hg; [|discriminate].
    destruct (run_steps (ns +++ [(n, f)]) (apply_update s u)) as [tr0 fin] eqn:Hr.
    inversion H; subst.
    destruct (IH _ _ Hr) as (tr' & sp & u' & H1 & H2 & H3).
    exists ((m, u) :: tr'), sp, u'. cbn. rewrite Hg, H1. auto.
Qed.

Lemma run_steps_cons (m : string) (g : state -> option update) ns s tr s' :
  run_steps ((m, g) :: ns) s = (tr, Some s') ->
  exists u tr', g s = Some u /\ tr = (m, u) :: tr'.
Proof.
  cbn. destruct (g s) as [u|]; [|discriminate].
  destruct (run_steps ns (apply_update s u)) as [tr0 fin].
  intros H; inversion H; subst. eauto.
Qed.

Lemma analyzer_log (o : oracles) (s : state) (u : update) :
  target_analyzer o s = Some u ->
  exists e, u_agents_log u = Some [e] /\ agent e = "Target Analyzer".
Proof.
  unfold target_analyzer. destruct (parse_criteria o _ _); try discriminate.
  intros H; inversion H; subst. eexists; split; reflexivity.
Qed.

(** C1 (the code): after the six steps of the graph, [agents_log] holds only
    the synthesizer's entry. Every node returns its own entries under
    [agents_log] and the state has no reducer for that key, so each step
    replaces the log; the analyzer's entry, yielded by the first step, is no
    longer in the final state. *)
Theorem pipeline_agents_log_overwritten (o : oracles) (tgt : string) (rounds : Z)
  (clar : string) (tr : list (string * update)) (s' : state)
  (Hrun : run_steps (graph_nodes o) (initial_state tgt rounds clar) = (tr, Some s')) :
  agents_log s' = [mkLog "Synthesizer" (brief s')] /\
  exists u_an e_an,
    hd_error tr = Some ("analyzer", u_an) /\
    u_agents_log u_an = Some [e_an] /\
    agent e_an = "Target Analyzer" /\
    ~ In e_an (agents_log s').
Proof.
  assert (Hlast : agents_log s' = [mkLog "Synthesizer" (brief s')]).
  { change (graph_nodes o) with
      ([("analyzer", target_analyzer o); ("trials_scout", trials_scout o);
        ("literature_miner", literature_miner o);
        ("hypothesis_generator", hypothesis_generator o); ("debate", debate_node o)]
       +++ [("synthesizer", synthesizer o)]) in Hrun.
    destruct (run_steps_app _ _ _ _ _ _ Hrun) as (tr' & sp & u & _ & Hs & ->).
    unfold synthesizer in Hs. inversion Hs; subst. reflexivity. }
  split; [exact Hlast|].
  destruct (run_steps_cons _ _ _ _ _ _ Hrun) as (u & tr' & Hu & ->).
  destruct (analyzer_log _ _ _ Hu) as (e & He & Hname).
  exists u, e. repeat split; auto.
  rewrite Hlast. intros [Heq|[]]. subst e. discriminate Hname.
Qed.

Lemma pipeline_agents_log_overwritten_witness :
  let o0 := mkOracles (fun _ _ => "ok") (fun _ _ => JObj []) (fun _ => "{}")
              (fun _ _ => ("", [])) (fun _ => ("", [])) (fun _ => ("", [])) in
  let r := run_steps (graph_nodes o0) (initial_state "KRAS G12C" 2 "") in
  let s' := match snd r with Some s => s | None => initial_state "" 0 "" end in
  run_steps (graph_nodes o0) (initial_state "KRAS G12C" 2 "") = (fst r, Some s') /\
  (agents_log s' = [mkLog "Synthesizer" (brief s')] /\
   exists u_an e_an,
     hd_error (fst r) = Some ("analyzer", u_an) /\
     u_agents_log u_an = Some [e_an] /\
     agent e_an = "Target Analyzer" /\
     ~ In e_an (agents_log s')).
Proof.
  cbv zeta. split.
  - vm_compute. reflexivity.
  - apply (pipeline_agents_log_overwritten
             (mkOracles (fun _ _ => "ok") (fun _ _ => JObj []) (fun _ => "{}")
                (fun _ _ => ("", [])) (fun _ => ("", [])) (fun _ => ("", [])))
             "KRAS G12C" 2 "").
    vm_compute. reflexivity.
Defined.

End PipelineProofs.

Module ValidatorProofs.
Import Validator.

Example fallback_empty_record :
  fallback_validation [JObj [("nct_id", JStr "NCT01")]] =
  Some (mkFallback
          [mkTrialLink (JStr "NCT01") (JStr "") (JStr "https://clinicaltrials.gov/study/NCT01")
             [] [] "No data availability information found"]
          "Found 0 publications across 1 trials.").
Proof. reflexivity. Qed.

Example fallback_upgrade_20 :
  option_map (fun r => map (fun t => map (fun p => (confidence_tier p, confidence_score p))
                                          (publications t)) (trial_links r))
    (fallback_validation
       [JObj [("nct_id", JStr "NCT01");
              ("pubmed_candidates", JArr [JObj [("pmid", JStr "1"); ("confidence", JNum 20)]]);
              ("fulltext_data", JArr [JObj [("pmid", JStr "1"); ("nct_mentioned", JBool true)]])]])
  = Some [[("high", JNum 80)]].
Proof. reflexivity. Qed.

Lemma mapM_Forall2 {A B} (f : A -> option B) xs ys :
  mapM f xs = Some ys -> Forall2 (fun x y => f x = Some y) xs ys.
Proof.
  revert ys. induction xs as [|x xs IH]; intros ys H; cbn in H.
  - inversion H; constructor.
  - destruct (f x) eqn:Hf; [|discriminate].
    destruct (mapM f xs) eqn:Hr; [|discriminate].
    inversion H; subst. constructor; auto.
Qed.

Lemma Forall2_mapM {A B} (f : A -> option B) xs :
  Forall (fun x => exists y, f x = Some y) xs -> exists ys, mapM f xs = Some ys.
Proof.
  induction 1 as [|x xs [y Hy] _ [ys Hys]]; [exists []; reflexivity|].
  exists (y :: ys). cbn. now rewrite Hy, Hys.
Qed.

Ltac inv_opt :=
  repeat match goal with
  | H : match ?x with Some _ => _ | None => None end = Some _ |- _ =>
      let E := fresh "E" in destruct x eqn:E; [|discriminate H]
  | H : Some _ = Some _ |- _ => injection H as H
  end.

Lemma dget_field (j : json) (k : string) (d v : json) :
  dget j k d = Some v -> fld j k d = v /\ exists kvs, j = JObj kvs.
Proof. destruct j; cbn; try discriminate. intros H; inversion H; eauto. Qed.

Lemma trial_link_of_inv (rec : json) (tl : trial_link) :
  trial_link_of rec = Some tl ->
  exists top3 fts pubs0 avail,
    as_slice_iter (fld rec "pubmed_candidates" (JArr [])) = Some top3 /\
    as_iter (fld rec "fulltext_data" (JArr [])) = Some fts /\
    mapM make_pub top3 = Some pubs0 /\
    mapM (fun p => upgrade p fts) pubs0 = Some (publications tl) /\
    mapM (fun ft => dget ft "availability_type" (JStr "not_stated")) fts = Some avail /\
    data_availability tl = data_avail_of avail.
Proof.
  unfold trial_link_of. intros H. inv_opt. subst tl. cbn [publications data_availability].
  apply dget_field in E1 as [<- _]. apply dget_field in E2 as [<- _].
  exists l, l0, l2, l5. repeat split; assumption.
Qed.

Lemma fallback_inv (recs : list json) (r : fallback_result) :
  fallback_validation recs = Some r ->
  Forall2 (fun rec tl => trial_link_of rec = Some tl) recs (trial_links r).
Proof.
  unfold fallback_validation. intros H. inv_opt. subst r. cbn.
  now apply mapM_Forall2.
Qed.

(** C10: on an empty list of trial records [validate_links] returns
    [{"trial_links": [], "summary": "No trials to validate."}] at once,
    without calling the reasoning gateway. *)
Theorem validate_links_empty (gateway : list json -> gw_outcome) :
  validate_links gateway [] =
    ([], Some (VJson (JObj [("trial_links", JArr []);
                            ("summary", JStr "No trials to validate.")]))).
Proof. reflexivity. Qed.

(** C2 (as stated) fails: a gateway answer that parses as JSON but lacks the
    required key ["trial_links"] does not reach the fallback; for one trial
    record the result has no trial-link entry at all. *)
Lemma validate_links_missing_key_counterexample :
  validate_links (fun _ => GwParsed (JObj [])) [JObj [("nct_id", JStr "NCT04330664")]] =
    ([[JObj [("nct_id", JStr "NCT04330664")]]],
     Some (VJson (JObj [("trial_links", JArr []); ("summary", JStr "{}")]))) /\
  option_map (fun r => length (trial_links r))
    (fallback_validation [JObj [("nct_id", JStr "NCT04330664")]]) = Some 1.
Proof. split; reflexivity. Qed.

Lemma code_tier_spec (z : Z) :
  (if (70 <=? z)%Z then "high" else if (50 <=? z)%Z then "medium" else "low") = spec_tier z.
Proof.
  unfold spec_tier. rewrite Z.geb_leb.
  destruct (Z.leb_spec 70 z); [reflexivity|].
  destruct (Z.leb_spec 50 z); cbn; [|reflexivity].
  destruct (Z.leb_spec z 69); [reflexivity|lia].
Qed.

Lemma make_pub_ok (c : json) (p : publication) :
  make_pub c = Some p ->
  exists z,
    num_of_scalar (fld c "confidence" (JNum 30)) = Some z /\
    pub_pmid p = fld c "pmid" (JStr "") /\
    confidence_tier p = spec_tier z /\
    confidence_score p = fld c "confidence" (JNum 30).
Proof.
  unfold make_pub. intros H. inv_opt. subst p. cbn.
  apply dget_field in E as [-> _]. apply dget_field in E1 as [-> _].
  exists z. repeat split; auto. apply code_tier_spec.
Qed.

Lemma upgrade_ok (fts : list json) :
  forall p p' z,
    upgrade p fts = Some p' ->
    num_of_scalar (confidence_score p) = Some z ->
    pub_pmid p' = pub_pmid p /\
    if mentioned fts (pub_pmid p) then
      confidence_tier p' = "high" /\ num_of_scalar (confidence_score p') = Some (Z.max z 80)
    else confidence_tier p' = confidence_tier p /\ confidence_score p' = confidence_score p.
Proof.
  induction fts as [|ft fts IH]; intros p p' z H Hz; cbn in H.
  - injection H as <-. cbn. auto.
  - destruct (upgrade_one p ft) as [p1|] eqn:E1; [|discriminate].
    unfold upgrade_one in E1.
    destruct (dget ft "pmid" JNull) as [v|] eqn:Ev; [|discriminate].
    apply dget_field in Ev as [Hv _].
    cbn [mentioned existsb]. fold (mentioned fts (pub_pmid p)). rewrite Hv.
    destruct (py_eq v (pub_pmid p)) eqn:Heq; cbn [andb].
    + destruct (dget ft "nct_mentioned" JNull) as [m|] eqn:Em; [|discriminate].
      apply dget_field in Em as [Hm _]. rewrite Hm.
      destruct (truthy m) eqn:Ht; cbn [orb].
      * rewrite Hz in E1. inv_opt. subst p1.
        assert (Hs : num_of_scalar (if (z <? 80)%Z then JNum 80 else confidence_score p)
                     = Some (Z.max z 80)).
        { destruct (Z.ltb_spec z 80); cbn.
          - f_equal. lia.
          - rewrite Hz. f_equal. lia. }
        destruct (IH _ _ _ H Hs) as [Hp Hrest]. cbn in Hp, Hrest.
        split; [exact Hp|].
        destruct (mentioned fts (pub_pmid p)); destruct Hrest as [Ht' Hs'].
        -- split; [exact Ht'|]. rewrite Hs'. f_equal. lia.
        -- split; [exact Ht'|]. rewrite Hs'. exact Hs.
      * injection E1 as <-. apply (IH _ _ _ H Hz).
    + injection E1 as <-. apply (IH _ _ _ H Hz).
Qed.

Lemma Forall2_compose {A B C} (R : A -> B -> Prop) (S : B -> C -> Prop) (T : A -> C -> Prop)
  xs ys zs :
  (forall x y z, R x y -> S y z -> T x z) ->
  Forall2 R xs ys -> Forall2 S ys zs -> Forall2 T xs zs.
Proof.
  intros HT H1. revert zs. induction H1; intros zs H2; inversion H2; subst; constructor; eauto.
Qed.

(** C4: in the fallback, each trial record's link carries one publication per
    candidate among the first three ([candidates[:3]]), in order; the tier
    comes from the numeric score ([>= 70] high, [50 .. 69] medium, [< 50]
    low) and the score is kept, unless a full-text record of that trial with
    the same pmid flags [nct_mentioned], in which case the tier is high and
    the score is [max(score, 80) >= 80] whatever it was before. *)
Theorem fallback_top3_tiers (recs : list json) (r : fallback_result)
  (Hfb : fallback_validation recs = Some r) :
  Forall2 link_publications_ok recs (trial_links r).
Proof.
  apply fallback_inv in Hfb. eapply Forall2_impl; [|exact Hfb].
  intros rec tl Htl top3 fts Htop Hfts.
  destruct (trial_link_of_inv _ _ Htl)
    as (top3' & fts' & pubs0 & avail & Ht & Hf & Hm & Hu & _ & _).
  rewrite Htop in Ht. injection Ht as <-. rewrite Hfts in Hf. injection Hf as <-.
  eapply Forall2_compose; [| exact (mapM_Forall2 _ _ _ Hm) | exact (mapM_Forall2 _ _ _ Hu)].
  intros c p0 p Hc Hp. cbn beta in Hp.
  destruct (make_pub_ok _ _ Hc) as (z & Hz & Hpm & Htier & Hsc).
  assert (Hz0 : num_of_scalar (confidence_score p0) = Some z) by (rewrite Hsc; exact Hz).
  destruct (upgrade_ok _ _ _ _ Hp Hz0) as [Hpm' Hrest].
  exists z. split; [exact Hz|]. split; [congruence|].
  rewrite <- Hpm. destruct (mentioned fts (pub_pmid p0)); destruct Hrest as [H1 H2].
  - split; [exact H1|]. exists (Z.max z 80). repeat split; [exact H2 | lia].
  - split; congruence.
Qed.

Lemma fallback_top3_tiers_witness :
  let recs := [JObj [("nct_id", JStr "NCT01");
                     ("pubmed_candidates", JArr [JObj [("pmid", JStr "1"); ("confidence", JNum 20)];
                                                 JObj [("pmid", JStr "2"); ("confidence", JNum 55)]]);
                     ("fulltext_data", JArr [JObj [("pmid", JStr "1"); ("nct_mentioned", JBool true)]])]] in
  let r := match fallback_validation recs with Some r => r | None => mkFallback [] "" end in
  fallback_validation recs = Some r /\ Forall2 link_publications_ok recs (trial_links r).
Proof.
  cbv zeta. split.
  - reflexivity.
  - apply fallback_top3_tiers. reflexivity.
Defined.

Lemma py_eq_str (a : string) (t : json) :
  py_eq (JStr a) t = match t with JStr b => String.eqb a b | _ => false end.
Proof. destruct t; reflexivity. Qed.

Ltac case_bools :=
  repeat match goal with
  | |- context[if ?b then _ else _] =>
      lazymatch b with
      | context[existsb] => destruct b
      | context[String.eqb] => destruct b
      end
  end.

Lemma max_rank_char (ts : list json) :
  fold_right (fun t m => Nat.max (avail_rank t) m) 0 ts =
    if py_in (JStr "open_access") ts then 3
    else if py_in (JStr "on_request") ts then 2
    else if py_in (JStr "restricted") ts then 1
    else 0.
Proof.
  induction ts as [|t ts IH]; [reflexivity|].
  unfold py_in in *. cbn [fold_right existsb]. rewrite IH, !py_eq_str.
  destruct t as [| | |s| |]; cbn [orb avail_rank];
    [case_bools; reflexivity .. | | |].
  - rewrite (String.eqb_sym s "open_access"), (String.eqb_sym s "on_request"),
      (String.eqb_sym s "restricted").
    case_bools; reflexivity.
  - case_bools; reflexivity.
  - case_bools; reflexivity.
Qed.

Lemma data_avail_of_spec (ts : list json) :
  data_avail_of ts = spec_data_availability ts.
Proof.
  unfold data_avail_of, spec_data_availability. rewrite max_rank_char.
  destruct (py_in (JStr "open_access") ts); [reflexivity|].
  destruct (py_in (JStr "on_request") ts); [reflexivity|].
  destruct (py_in (JStr "restricted") ts); reflexivity.
Qed.

Lemma mapM_dget (k : string) (d : json) (fts avail : list json) :
  mapM (fun ft => dget ft k d) fts = Some avail -> avail = map (fun ft => fld ft k d) fts.
Proof.
  intros H. apply mapM_Forall2 in H. induction H as [|x y xs ys Hxy _ IH]; [reflexivity|].
  apply dget_field in Hxy as [Hxy _]. cbn. now rewrite IH, Hxy.
Qed.

(** C5 (as stated) fails on its label: for a trial record with no
    publications the fallback's entry has empty publications, but its
    data-availability label is "No data availability information found",
    not "no information found". *)
Lemma fallback_no_publications_label_counterexample :
  option_map (fun r => map (fun t => (publications t, data_availability t)) (trial_links r))
    (fallback_validation [JObj [("nct_id", JStr "NCT01"); ("pubmed_candidates", JArr []);
                                ("repository_hits", JArr []); ("fulltext_data", JArr [])]])
  = Some [([], "No data availability information found")] /\
  "No data availability information found" <> "no information found".
Proof. split; [reflexivity | discriminate]. Qed.

(** C5 (amended): the fallback emits exactly one trial link per trial
    record, in order; its label is taken from the availability types of that
    trial's full-text records by the precedence open_access ("Open-access
    data available") > on_request ("Data available on request") > restricted
    ("Restricted access data") > none ("No data availability information
    found"); a record with no candidates and no full-text records gets empty
    publications and "No data availability information found". *)
Theorem fallback_links_availability (recs : list json) (r : fallback_result)
  (Hfb : fallback_validation recs = Some r) :
  length (trial_links r) = length recs /\
  Forall2 link_availability_ok recs (trial_links r).
Proof.
  apply fallback_inv in Hfb. split.
  - symmetry. exact (Forall2_length Hfb).
  - eapply Forall2_impl; [|exact Hfb]. intros rec tl Htl.
    destruct (trial_link_of_inv _ _ Htl)
      as (top3 & fts & pubs0 & avail & Ht & Hf & Hm & Hu & Ha & Hd).
    split.
    + intros fts' Hf'. rewrite Hf in Hf'. injection Hf' as <-.
      rewrite Hd, (mapM_dget _ _ _ _ Ha). apply data_avail_of_spec.
    + intros Hc Hft. rewrite Hc in Ht. rewrite Hft in Hf. cbn in Ht, Hf.
      injection Ht as <-. injection Hf as <-. cbn in Hm. injection Hm as <-.
      cbn in Hu. injection Hu as Hu. cbn in Ha. injection Ha as <-.
      split; [symmetry; exact Hu | exact Hd].
Qed.

Lemma fallback_links_availability_witness :
  let recs := [JObj [("nct_id", JStr "NCT01"); ("pubmed_candidates", JArr []);
                     ("fulltext_data", JArr [])];
               JObj [("nct_id", JStr "NCT02");
                     ("pubmed_candidates", JArr [JObj [("pmid", JStr "7"); ("confidence", JNum 90)]]);
                     ("fulltext_data", JArr [JObj [("pmid", JStr "7");
                                                   ("availability_type", JStr "restricted")];
                                             JObj [("pmid", JStr "8");
                                                   ("availability_type", JStr "on_request")]])]] in
  let r := match fallback_validation recs with Some r => r | None => mkFallback [] "" end in
  fallback_validation recs = Some r /\
  (length (trial_links r) = length recs /\ Forall2 link_availability_ok recs (trial_links r)).
Proof.
  cbv zeta. split.
  - reflexivity.
  - apply fallback_links_availability. reflexivity.
Defined.

Lemma dget_dict (j : json) (k : string) (d : json) :
  is_dict j = true -> dget j k d = Some (fld j k d).
Proof. destruct j; cbn; try discriminate. reflexivity. Qed.

Lemma make_pub_some (c : json) :
  wf_candidate c = true ->
  exists p, make_pub c = Some p /\
    (exists z, num_of_scalar (confidence_score p) = Some z) /\
    reason_ok (match_reason p) = true.
Proof.
  unfold wf_candidate. intros H.
  apply andb_prop in H as [H Hr]. apply andb_prop in H as [Hd Hn].
  unfold make_pub. rewrite !dget_dict by exact Hd.
  destruct (num_of_scalar (fld c "confidence" (JNum 30))) as [z|] eqn:Hz; [|discriminate].
  eexists; split; [reflexivity|]. cbn. split; [eauto|].
  destruct (fld c "match_reason" _); try discriminate; reflexivity.
Qed.

Lemma upgrade_some (fts : list json) :
  forallb is_dict fts = true ->
  forall p, (exists z, num_of_scalar (confidence_score p) = Some z) ->
  reason_ok (match_reason p) = true ->
  exists p', upgrade p fts = Some p'.
Proof.
  induction fts as [|ft fts IH]; intros Hfts p [z Hz] Hr; [eexists; reflexivity|].
  cbn in Hfts. apply andb_prop in Hfts as [Hd Hfts].
  cbn [upgrade]. unfold upgrade_one. rewrite !dget_dict by exact Hd.
  destruct (py_eq _ _); [|apply IH; eauto].
  destruct (truthy _); [|apply IH; eauto].
  rewrite Hz.
  assert (Hr' : exists reason, match match_reason p with
                  | JStr m => Some (JStr (m ++ " (NCT ID confirmed in full text)"))
                  | JArr xs => Some (JArr (xs +++ map (fun ch => JStr (String ch ""))
                                                 (list_ascii_of_string " (NCT ID confirmed in full text)")))
                  | _ => None end = Some reason /\ reason_ok reason = true).
  { destruct (match_reason p); try discriminate; eexists; split; reflexivity. }
  destruct Hr' as [reason [-> Hreason]].
  apply IH; [exact Hfts| |exact Hreason]. cbn.
  destruct (z <? 80)%Z; cbn; eauto.
Qed.

Lemma Forall2_in_r {A B} (P : A -> B -> Prop) xs ys y :
  Forall2 P xs ys -> In y ys -> exists x, In x xs /\ P x y.
Proof.
  induction 1 as [|x y' xs ys Hxy _ IH]; [contradiction|].
  intros [<-|Hin]; [exists x; split; [left|]; auto|].
  destruct (IH Hin) as [x' [? ?]]. exists x'. split; [right|]; auto.
Qed.

Lemma trial_link_of_some (rec : json) :
  wf_record rec = true -> exists tl, trial_link_of rec = Some tl.
Proof.
  unfold wf_record. intros H.
  apply andb_prop in H as [H Hh]. apply andb_prop in H as [H Hf].
  apply andb_prop in H as [H Hc]. apply andb_prop in H as [Hd Hreg].
  unfold trial_link_of. rewrite !dget_dict by exact Hd.
  destruct (fld rec "pubmed_candidates" (JArr [])) as [| | | | xs |]; try discriminate Hc.
  destruct (fld rec "fulltext_data" (JArr [])) as [| | | | fts |]; try discriminate Hf.
  destruct (fld rec "repository_hits" (JArr [])) as [| | | | hits |]; try discriminate Hh.
  cbn [as_slice_iter as_iter wf_list] in *.
  destruct (Forall2_mapM make_pub (firstn 3 xs)) as [pubs0 Hp].
  { apply Forall_forall. intros c Hin. apply (proj1 (forallb_forall _ _) Hc) in Hin.
    destruct (make_pub_some _ Hin) as [p [Hp _]]. eauto. }
  rewrite Hp.
  destruct (Forall2_mapM (fun p => upgrade p fts) pubs0) as [pubs Hu].
  { apply mapM_Forall2 in Hp. apply Forall_forall. intros p0 Hin.
    destruct (Forall2_in_r _ _ _ _ Hp Hin) as [c [Hin' Hc0]].
    apply (proj1 (forallb_forall _ _) Hc) in Hin'.
    destruct (make_pub_some _ Hin') as [p1 [Hp1 [Hn Hr]]]. rewrite Hc0 in Hp1. injection Hp1 as <-.
    apply upgrade_some; assumption. }
  rewrite Hu.
  destruct (Forall2_mapM make_dataset hits) as [ds Hds].
  { apply Forall_forall. intros h Hin. apply (proj1 (forallb_forall _ _) Hh) in Hin.
    unfold make_dataset. rewrite !dget_dict by exact Hin. eauto. }
  rewrite Hds.
  destruct (Forall2_mapM (fun ft => dget ft "availability_type" (JStr "not_stated")) fts) as [av Hav].
  { apply Forall_forall. intros ft Hin. apply (proj1 (forallb_forall _ _) Hf) in Hin.
    rewrite dget_dict by exact Hin. eauto. }
  rewrite Hav. rewrite !dget_dict by exact Hreg. eauto.
Qed.

Lemma fallback_some (recs : list json) :
  forallb wf_record recs = true -> exists r, fallback_validation recs = Some r.
Proof.
  intros H. destruct (Forall2_mapM trial_link_of recs) as [links Hl].
  { apply Forall_forall. intros rec Hin. apply forallb_forall with (x := rec) in H; [|exact Hin].
    apply trial_link_of_some, H. }
  unfold fallback_validation. rewrite Hl. eauto.
Qed.

Lemma fallback_length (recs : list json) :
  forallb wf_record recs = true ->
  exists r, fallback_validation recs = Some r /\ length (trial_links r) = length recs.
Proof.
  intros H. destruct (fallback_some recs H) as [r Hr]. exists r. split; [exact Hr|].
  symmetry. exact (Forall2_length (fallback_inv _ _ Hr)).
Qed.

(** C2 (amended): on a non-empty list of well-formed trial records,
    [validate_links] calls the gateway once and never raises. When the
    gateway raised, its text is not JSON, or the parsed value does not
    support [in] (a number, a boolean or [null]: [TypeError]), the result is
    the fallback's, with one trial-link entry per record. A parsed object,
    array or string that lacks ["trial_links"] (as a key, an item or a
    substring) gives [{"trial_links": [], "summary": str(v)}] instead of the
    fallback, and a parsed value that has it is returned as it is. *)
Theorem validate_links_failure_paths (gateway : list json -> gw_outcome) (recs : list json)
  (Hne : recs <> []) (Hwf : forallb wf_record recs = true) :
  fst (validate_links gateway recs) = [recs] /\
  match gateway recs with
  | GwRaised | GwUnparsable =>
      exists r, snd (validate_links gateway recs) = Some (VFallback r)
                /\ length (trial_links r) = length recs
  | GwParsed v =>
      match py_contains v "trial_links" with
      | None =>
          exists r, snd (validate_links gateway recs) = Some (VFallback r)
                    /\ length (trial_links r) = length recs
      | Some false =>
          snd (validate_links gateway recs)
          = Some (VJson (JObj [("trial_links", JArr []); ("summary", JStr (py_str v))]))
      | Some true => snd (validate_links gateway recs) = Some (VJson v)
      end
  end.
Proof.
  destruct recs as [|rec0 recs']; [contradiction|].
  destruct (fallback_length _ Hwf) as [r [Hr Hlen]].
  unfold validate_links. rewrite Hr. cbn [fst snd]. split; [reflexivity|].
  destruct (gateway (rec0 :: recs')) as [| |v]; eauto.
  destruct (py_contains v "trial_links") as [[|]|]; eauto.
Qed.

Lemma validate_links_failure_paths_witness :
  let recs := [JObj [("nct_id", JStr "NCT04330664");
                     ("pubmed_candidates", JArr [JObj [("pmid", JStr "1"); ("confidence", JNum 75)]])]] in
  recs <> [] /\ forallb wf_record recs = true /\
  (fst (validate_links (fun _ => GwRaised) recs) = [recs] /\
   exists r, snd (validate_links (fun _ => GwRaised) recs) = Some (VFallback r)
             /\ length (trial_links r) = length recs).
Proof.
  cbv zeta. split; [discriminate|]. split; [reflexivity|].
  apply (validate_links_failure_paths (fun _ => GwRaised)); [discriminate | reflexivity].
Defined.

End ValidatorProofs.

Module LinkingProofs.
Import Validator Linking.

Lemma prefix_app (s q : string) : String.prefix s (s ++ q) = true.
Proof.
  induction s as [|c s IH]; [destruct q; reflexivity|].
  cbn. destruct (ascii_dec c c) as [_|n]; [exact IH | contradiction].
Qed.

Lemma str_contains_prefix (h n : string) : String.prefix n h = true -> str_contains h n = true.
Proof. destruct h; cbn [str_contains]; intros ->; reflexivity. Qed.

Lemma str_contains_app_l (p h n : string) :
  str_contains h n = true -> str_contains (p ++ h) n = true.
Proof.
  induction p as [|c p IH]; intros H; [exact H|].
  cbn [str_contains append]. destruct (String.prefix n (String c (p ++ h)));
    [reflexivity | exact (IH H)].
Qed.

Lemma str_contains_mid (p s q : string) : str_contains (p ++ s ++ q) s = true.
Proof. apply str_contains_app_l, str_contains_prefix, prefix_app. Qed.

Lemma trial_context_dict (registry nct_id : json) :
  is_dict registry = true -> exists ctx, trial_context registry nct_id = Some ctx.
Proof.
  intros Hd. unfold trial_context. rewrite !ValidatorProofs.dget_dict by exact Hd. eauto.
Qed.

Lemma fallback_candidate_ok (s : string) (c : json) :
  wf_citation c = true ->
  exists j, fallback_candidate (JStr s) c = Some j /\
            get "match_type" j = Some (JStr "metadata_heuristic").
Proof.
  unfold wf_citation. intros H. apply andb_prop in H as [Hd Ht].
  unfold fallback_candidate. rewrite !ValidatorProofs.dget_dict by exact Hd.
  destruct (fld c "title" (JStr "")) as [| b | z | t | xs | kvs];
    cbn [truthy negb] in Ht |- *;
    repeat match goal with
    | H : (if ?b then _ else _) = true |- _ => destruct b; try discriminate H
    | |- context[if ?b then _ else _] => lazymatch b with
                                         | truthy _ => fail
                                         | _ => destruct b
                                         end
    end; cbn in Ht; try discriminate Ht; eexists; split; reflexivity.
Qed.

Lemma fallback_candidates_ok (s : string) (cs : list json) :
  forallb wf_citation cs = true ->
  exists fb, mapM (fallback_candidate (JStr s)) cs = Some fb /\ length fb = length cs /\
             Forall (fun j => get "match_type" j = Some (JStr "metadata_heuristic")) fb.
Proof.
  induction cs as [|c cs IH]; intros H; [exists []; repeat split; constructor|].
  cbn in H. apply andb_prop in H as [Hc H].
  destruct (fallback_candidate_ok s c Hc) as [j [Hj Hm]].
  destruct (IH H) as [fb [Hfb [Hl Hall]]].
  exists (j :: fb). cbn. rewrite Hj, Hfb. repeat split; [cbn; congruence | constructor; assumption].
Qed.

(** C6 (as stated) fails: for target "KRAS G12C" with no trial ids supplied
    and no trial found, the orchestrator yields a status event, an agent
    event and done; no event of kind "result" is emitted. *)
Lemma no_trials_result_event_counterexample :
  map event_kind (yielded (fst (run_linking_pipeline no_trials_env "KRAS G12C" [] 10)))
    = ["status"; "agent"; "done"] /\
  existsb (fun ev => String.eqb (event_kind ev) "result")
    (yielded (fst (run_linking_pipeline no_trials_env "KRAS G12C" [] 10))) = false.
Proof. split; reflexivity. Qed.

(** C6 (amended): when no trial ids are supplied and the registry search for
    [target] returns zero trials, the orchestrator yields the status event
    "Searching ClinicalTrials.gov for '<target>'…", then one "agent" event of
    the Linking Orchestrator whose content "No clinical trials found for
    '<target>'." contains "No clinical trials found", then "done", and
    returns without raising; no enrichment call is made. *)
Theorem no_trials_found_stops (env : linking_env) (target : string) (max_trials : nat)
  (Hfetch : fetch_trials env target max_trials = inr []) :
  run_linking_pipeline env target [] max_trials =
    ([event "status" "Linking Orchestrator" ("Searching ClinicalTrials.gov for '" ++ target ++ "'…");
      Call (FetchTrials target max_trials);
      event "agent" "Linking Orchestrator" ("No clinical trials found for '" ++ target ++ "'.");
      done_event], true) /\
  map event_kind (yielded (fst (run_linking_pipeline env target [] max_trials)))
    = ["status"; "agent"; "done"] /\
  existsb is_enrich_call (fst (run_linking_pipeline env target [] max_trials)) = false /\
  str_contains ("No clinical trials found for '" ++ target ++ "'.") "No clinical trials found" = true.
Proof.
  assert (Hrun : run_linking_pipeline env target [] max_trials =
    ([event "status" "Linking Orchestrator" ("Searching ClinicalTrials.gov for '" ++ target ++ "'…");
      Call (FetchTrials target max_trials);
      event "agent" "Linking Orchestrator" ("No clinical trials found for '" ++ target ++ "'.");
      done_event], true)).
  { unfold run_linking_pipeline. rewrite Hfetch. reflexivity. }
  rewrite Hrun. repeat split; reflexivity.
Qed.

Lemma no_trials_found_stops_witness :
  fetch_trials no_trials_env "KRAS G12C" 10 = inr [] /\
  run_linking_pipeline no_trials_env "KRAS G12C" [] 10 =
    ([event "status" "Linking Orchestrator" ("Searching ClinicalTrials.gov for '" ++ "KRAS G12C" ++ "'…");
      Call (FetchTrials "KRAS G12C" 10);
      event "agent" "Linking Orchestrator" ("No clinical trials found for '" ++ "KRAS G12C" ++ "'.");
      done_event], true).
Proof.
  split; [reflexivity|].
  apply (no_trials_found_stops no_trials_env "KRAS G12C" 10). reflexivity.
Defined.

(** C9: [enrich_trial] does not raise on a 404 or a request exception: it
    returns a record with the input [nct_id] and a non-empty ["error"]
    (["not_found"], or [str(e)], which is non-empty for the exceptions
    [requests] raises), and the orchestrator's filter drops it. A successful
    enrichment carries the input [nct_id], has no ["error"] key, and the
    filter keeps it. *)
Theorem enrich_trial_error_discriminator (nct_id : string) (resp : http_result)
  (Hmsg : forall e, resp = HttpError e -> e <> "") :
  match resp with
  | Http404 | HttpError _ =>
      exists r, enrich_trial nct_id resp = Some r /\
                get "nct_id" r = Some (JStr nct_id) /\
                (exists e, get "error" r = Some (JStr e) /\ e <> "") /\
                valid_records [r] = Some []
  | HttpOk _ =>
      forall r, enrich_trial nct_id resp = Some r ->
                get "nct_id" r = Some (JStr nct_id) /\
                get "error" r = None /\
                valid_records [r] = Some [r]
  end.
Proof.
  destruct resp as [| e | study].
  - eexists. split; [reflexivity|]. split; [reflexivity|].
    split; [exists "not_found"; split; [reflexivity | discriminate] | reflexivity].
  - specialize (Hmsg e eq_refl).
    eexists. split; [reflexivity|]. split; [reflexivity|].
    split; [exists e; split; [reflexivity | exact Hmsg]|].
    cbn. destruct e as [|c e]; [contradiction | reflexivity].
  - intros r Hr. cbn [enrich_trial] in Hr. ValidatorProofs.inv_opt. subst r.
    repeat split; reflexivity.
Qed.

Lemma enrich_trial_error_discriminator_witness :
  (forall e, HttpError "404 Client Error" = HttpError e -> e <> "") /\
  exists r, enrich_trial "NCT04330664" (HttpError "404 Client Error") = Some r /\
            get "nct_id" r = Some (JStr "NCT04330664") /\
            (exists e, get "error" r = Some (JStr e) /\ e <> "") /\
            valid_records [r] = Some [].
Proof.
  assert (H : forall e, HttpError "404 Client Error" = HttpError e -> e <> "").
  { intros e He. injection He as <-. discriminate. }
  split; [exact H|].
  exact (enrich_trial_error_discriminator "NCT04330664" (HttpError "404 Client Error") H).
Defined.

Lemma str_contains_empty (h : string) : str_contains h "" = true.
Proof. destruct h; reflexivity. Qed.

Lemma combined_has_parts (nct_md heuristic_md : string) :
  str_contains (combined_of nct_md heuristic_md) nct_md = true /\
  str_contains (combined_of nct_md heuristic_md) heuristic_md = true.
Proof.
  unfold combined_of. split.
  - rewrite <- (StrFacts.app_assoc_str "## Structured NCT Search Results" nl).
    apply str_contains_mid.
  - destruct (String.eqb heuristic_md "") eqn:E.
    + apply String.eqb_eq in E. subst. apply str_contains_empty.
    + do 7 apply str_contains_app_l. apply str_contains_prefix, prefix_app.
Qed.

(** C7 (as stated) fails: when neither search finds a citation, nothing is
    handed to the reasoning gateway; no ranking call is made and the result
    is []. *)
Lemma link_no_citations_counterexample :
  link_trial_to_publications (fun _ => ("No results.", [])) (fun _ _ _ _ => ("No results.", []))
    (fun _ _ => GwRaised) bare_registry
  = ([SearchByNct (JStr "NCT04330664"); SearchByTrialMetadata (JStr "") (JStr "") (JStr "") ""],
     Some (JArr [])) /\
  existsb is_rank_call
    (fst (link_trial_to_publications (fun _ => ("No results.", [])) (fun _ _ _ _ => ("No results.", []))
            (fun _ _ => GwRaised) bare_registry)) = false.
Proof. split; reflexivity. Qed.

(** C7 (amended): for a trial record with a non-empty [nct_id],
    [link_trial_to_publications] first runs the structured search by
    [nct_id]; it runs the heuristic metadata search (title, first condition,
    PI name, completion year) if and only if the structured search returned
    fewer than 3 citations; and when the merged citation list is non-empty it
    makes one ranking call whose text [combined] holds the markdown of both
    searches. When the merged list is empty it makes no ranking call and
    returns [[]]. *)
Theorem link_search_phases
  (search_by_nct : json -> string * list json)
  (search_by_trial_metadata : json -> json -> json -> string -> string * list json)
  (rank : json -> string -> gw_outcome) (registry nct_id title condition pi_name : json)
  (comp_year : string)
  (Hd : is_dict registry = true)
  (Hn : fld registry "nct_id" (JStr "") = nct_id)
  (Ht : truthy nct_id = true)
  (Hargs : heuristic_args registry = Some (title, condition, pi_name, comp_year)) :
  let nct_md := fst (search_by_nct nct_id) in
  let nct_citations := snd (search_by_nct nct_id) in
  let run_heuristic := Nat.ltb (length nct_citations) 3 in
  let heuristic := if run_heuristic then search_by_trial_metadata title condition pi_name comp_year
                   else ("", []) in
  let combined := combined_of nct_md (fst heuristic) in
  exists ctx,
    trial_context registry nct_id = Some ctx /\
    fst (link_trial_to_publications search_by_nct search_by_trial_metadata rank registry) =
      SearchByNct nct_id ::
      (if run_heuristic then [SearchByTrialMetadata title condition pi_name comp_year] else []) +++
      (match nct_citations +++ snd heuristic with
       | [] => []
       | _ => [RankCandidates ctx combined]
       end) /\
    (nct_citations +++ snd heuristic = [] ->
     snd (link_trial_to_publications search_by_nct search_by_trial_metadata rank registry) =
       Some (JArr [])) /\
    str_contains combined nct_md = true /\
    str_contains combined (fst heuristic) = true.
Proof.
  cbv zeta.
  destruct (trial_context_dict registry nct_id Hd) as [ctx Hctx].
  exists ctx. split; [exact Hctx|].
  unfold link_trial_to_publications.
  rewrite (ValidatorProofs.dget_dict _ _ _ Hd), Hn, Ht. cbn [negb].
  destruct (search_by_nct nct_id) as [nct_md nct_citations]. cbn [fst snd].
  destruct (Nat.ltb (length nct_citations) 3).
  - rewrite Hargs.
    destruct (search_by_trial_metadata title condition pi_name comp_year) as [hmd hcits].
    cbn [fst snd]. split; [|split; [|apply combined_has_parts]].
    + destruct (nct_citations +++ hcits); [reflexivity|]. rewrite Hctx. reflexivity.
    + intros ->. reflexivity.
  - cbn [fst snd]. split; [|split; [|apply combined_has_parts]].
    + destruct (nct_citations +++ []); [reflexivity|]. rewrite Hctx. reflexivity.
    + intros ->. reflexivity.
Qed.

Lemma link_search_phases_witness :
  let reg := JObj [("nct_id", JStr "NCT04330664"); ("brief_title", JStr "Remdesivir in COVID-19");
                   ("completion_date", JStr "April 2020")] in
  let sn := fun _ : json => ("one hit", [JObj [("pmid", JStr "1")]]) in
  let sm := fun (_ _ _ : json) (_ : string) => ("two hits", [JObj [("pmid", JStr "2")]; JObj [("pmid", JStr "3")]]) in
  is_dict reg = true /\ fld reg "nct_id" (JStr "") = JStr "NCT04330664" /\
  truthy (JStr "NCT04330664") = true /\
  heuristic_args reg = Some (JStr "Remdesivir in COVID-19", JStr "", JStr "", "2020") /\
  exists ctx,
    trial_context reg (JStr "NCT04330664") = Some ctx /\
    fst (link_trial_to_publications sn sm (fun _ _ => GwRaised) reg) =
      [SearchByNct (JStr "NCT04330664");
       SearchByTrialMetadata (JStr "Remdesivir in COVID-19") (JStr "") (JStr "") "2020";
       RankCandidates ctx (combined_of "one hit" "two hits")] /\
    ([JObj [("pmid", JStr "1")]] +++ [JObj [("pmid", JStr "2")]; JObj [("pmid", JStr "3")]] = [] ->
     snd (link_trial_to_publications sn sm (fun _ _ => GwRaised) reg) = Some (JArr [])) /\
    str_contains (combined_of "one hit" "two hits") "one hit" = true /\
    str_contains (combined_of "one hit" "two hits") "two hits" = true.
Proof.
  cbv zeta. split; [reflexivity|]. split; [reflexivity|]. split; [reflexivity|].
  split; [reflexivity|].
  exact (link_search_phases (fun _ : json => ("one hit", [JObj [("pmid", JStr "1")]]))
           (fun (_ _ _ : json) (_ : string) => ("two hits", [JObj [("pmid", JStr "2")]; JObj [("pmid", JStr "3")]]))
           (fun _ _ => GwRaised)
           (JObj [("nct_id", JStr "NCT04330664"); ("brief_title", JStr "Remdesivir in COVID-19");
                  ("completion_date", JStr "April 2020")])
           (JStr "NCT04330664") (JStr "Remdesivir in COVID-19") (JStr "") (JStr "") "2020"
           eq_refl eq_refl eq_refl eq_refl).
Defined.

(** C8: for a trial record with a non-empty string [nct_id] whose ranking
    call fails (it raises, or its text is not JSON), and whose raw citations
    are dicts with a string (or falsy) title, [link_trial_to_publications]
    does not raise; it returns a non-empty list if and only if the searches
    it ran returned at least one citation, and every returned candidate has
    [match_type = "metadata_heuristic"]. *)
Theorem link_fallback_candidates
  (search_by_nct : json -> string * list json)
  (search_by_trial_metadata : json -> json -> json -> string -> string * list json)
  (rank : json -> string -> gw_outcome) (registry : json) (nct_s : string)
  (title condition pi_name : json) (comp_year : string)
  (Hd : is_dict registry = true)
  (Hn : fld registry "nct_id" (JStr "") = JStr nct_s)
  (Hne : nct_s <> "")
  (Hargs : heuristic_args registry = Some (title, condition, pi_name, comp_year))
  (Hfail : forall ctx combined, rank ctx combined = GwRaised \/ rank ctx combined = GwUnparsable)
  (Hwf : forallb wf_citation
           (snd (search_by_nct (JStr nct_s)) +++
            (if Nat.ltb (length (snd (search_by_nct (JStr nct_s)))) 3
             then snd (search_by_trial_metadata title condition pi_name comp_year) else [])) = true) :
  let raw := snd (search_by_nct (JStr nct_s)) +++
             (if Nat.ltb (length (snd (search_by_nct (JStr nct_s)))) 3
              then snd (search_by_trial_metadata title condition pi_name comp_year) else []) in
  exists candidates,
    snd (link_trial_to_publications search_by_nct search_by_trial_metadata rank registry)
      = Some (JArr candidates) /\
    (candidates <> [] <-> raw <> []) /\
    Forall (fun c => get "match_type" c = Some (JStr "metadata_heuristic")) candidates.
Proof.
  cbv zeta. revert Hwf.
  unfold link_trial_to_publications.
  rewrite (ValidatorProofs.dget_dict _ _ _ Hd), Hn.
  assert (Ht : truthy (JStr nct_s) = true).
  { cbn. destruct nct_s; [contradiction | reflexivity]. }
  rewrite Ht. cbn [negb].
  destruct (search_by_nct (JStr nct_s)) as [nct_md nct_citations]. cbn [fst snd].
  destruct (trial_context_dict registry (JStr nct_s) Hd) as [ctx Hctx].
  assert (Hfb : forall raw, forallb wf_citation raw = true ->
            exists candidates,
              match raw with
              | [] => Some (JArr [])
              | _ =>
                  let? fallback := mapM (fallback_candidate (JStr nct_s)) (firstn 5 raw) in
                  Some (JArr fallback)
              end = Some (JArr candidates) /\
              (candidates <> [] <-> raw <> []) /\
              Forall (fun c => get "match_type" c = Some (JStr "metadata_heuristic")) candidates).
  { intros raw Hw. destruct raw as [|c0 rest].
    - exists []. repeat split; auto.
    - assert (Hw5 : forallb wf_citation (firstn 5 (c0 :: rest)) = true).
      { apply forallb_forall. intros x Hx. apply (proj1 (forallb_forall _ _) Hw).
        rewrite <- (firstn_skipn 5 (c0 :: rest)). apply in_or_app. left. exact Hx. }
      destruct (fallback_candidates_ok nct_s _ Hw5) as [fb [Hm [Hl Hall]]].
      rewrite Hm. exists fb. split; [reflexivity|]. split; [|exact Hall].
      split; intros _; [discriminate|].
      destruct fb; [discriminate Hl | discriminate]. }
  destruct (Nat.ltb (length nct_citations) 3).
  - rewrite Hargs.
    destruct (search_by_trial_metadata title condition pi_name comp_year) as [hmd hcits].
    cbn [fst snd]. intros Hw.
    destruct (Hfb _ Hw) as [cands [Hc Hrest]]. exists cands. split; [|exact Hrest].
    rewrite <- Hc. destruct (nct_citations +++ hcits) as [|c0 rest]; [reflexivity|].
    rewrite Hctx. cbn [snd]. destruct (Hfail ctx (combined_of nct_md hmd)) as [-> | ->]; reflexivity.
  - cbn [fst snd]. intros Hw.
    destruct (Hfb _ Hw) as [cands [Hc Hrest]]. exists cands. split; [|exact Hrest].
    rewrite <- Hc. destruct (nct_citations +++ []) as [|c0 rest]; [reflexivity|].
    rewrite Hctx. cbn [snd]. destruct (Hfail ctx (combined_of nct_md "")) as [-> | ->]; reflexivity.
Qed.

Lemma link_fallback_candidates_witness :
  let reg := JObj [("nct_id", JStr "NCT04330664")] in
  let sn := fun _ : json => ("one hit", [JObj [("pmid", JStr "1"); ("title", JStr "Results of NCT04330664")]]) in
  let sm := fun (_ _ _ : json) (_ : string) => ("none", @nil json) in
  heuristic_args reg = Some (JStr "", JStr "", JStr "", "") /\
  exists candidates,
    snd (link_trial_to_publications sn sm (fun _ _ => GwRaised) reg) = Some (JArr candidates) /\
    (candidates <> [] <-> snd (sn (JStr "NCT04330664")) +++ snd (sm (JStr "") (JStr "") (JStr "") "") <> []) /\
    Forall (fun c => get "match_type" c = Some (JStr "metadata_heuristic")) candidates.
Proof.
  cbv zeta. split; [reflexivity|].
  exact (link_fallback_candidates
           (fun _ : json => ("one hit", [JObj [("pmid", JStr "1"); ("title", JStr "Results of NCT04330664")]]))
           (fun (_ _ _ : json) (_ : string) => ("none", @nil json))
           (fun _ _ => GwRaised) (JObj [("nct_id", JStr "NCT04330664")]) "NCT04330664"
           (JStr "") (JStr "") (JStr "") ""
           eq_refl eq_refl ltac:(discriminate) eq_refl
           (fun _ _ => or_introl eq_refl) eq_refl).
Defined.

End LinkingProofs.

Module TextFacts.
Import Validator Linking.

Lemma list_ascii_app (a b : string) :
  list_ascii_of_string (a ++ b) = list_ascii_of_string a +++ list_ascii_of_string b.
Proof. induction a as [|c a IH]; cbn; [reflexivity | now rewrite IH]. Qed.

Lemma forallb_rev {A} (p : A -> bool) (l : list A) : forallb p (rev l) = forallb p l.
Proof.
  induction l as [|x l IH]; cbn; [reflexivity|].
  rewrite forallb_app, IH; cbn. rewrite andb_true_r, andb_comm. reflexivity.
Qed.

Lemma lstrip_blank (w x : list ascii) :
  forallb is_space w = true -> lstrip (w +++ x) = lstrip x.
Proof.
  induction w as [|c w IH]; cbn; [reflexivity|].
  intros H. apply andb_prop in H as [H1 H2]. rewrite H1. auto.
Qed.

Lemma lstrip_keep (c : ascii) (r : list ascii) :
  is_space c = false -> lstrip (c :: r) = c :: r.
Proof. cbn. intros ->. reflexivity. Qed.

(** [strip] removes whitespace around a text that starts and ends with a
    non-whitespace character. *)
Lemma py_strip_around (s : string) (w1 w2 : list ascii) (c : ascii) (r : list ascii) :
  list_ascii_of_string s = w1 +++ (c :: r) +++ w2 ->
  forallb is_space w1 = true -> forallb is_space w2 = true ->
  is_space c = false -> is_space (last (c :: r) c) = false ->
  py_strip s = string_of_list_ascii (c :: r).
Proof.
  intros Hs H1 H2 Hc Hl. unfold py_strip. rewrite Hs.
  rewrite lstrip_blank by exact H1.
  rewrite <- app_comm_cons, lstrip_keep by exact Hc.
  rewrite app_comm_cons, rev_app_distr.
  rewrite lstrip_blank by (rewrite forallb_rev; exact H2).
  assert (Hr : exists d t, rev (c :: r) = d :: t /\ is_space d = false).
  { destruct (rev (c :: r)) as [|d t] eqn:E.
    - apply (f_equal (@length ascii)) in E. rewrite length_rev in E. discriminate.
    - exists d, t. split; [reflexivity|].
      assert (Hd : d = last (c :: r) c).
      { rewrite <- (rev_involutive (c :: r)), E. cbn.
        rewrite last_last. reflexivity. }
      now subst d. }
  destruct Hr as (d & t & Ht & Hd). rewrite Ht, lstrip_keep by exact Hd.
  rewrite <- Ht, rev_involutive. reflexivity.
Qed.

Lemma last_in {A} (l : list A) (d : A) : l <> [] -> In (last l d) l.
Proof.
  induction l as [|x l IH]; [congruence|]. intros _.
  destruct l as [|y l]; [now left|]. right. apply IH. discriminate.
Qed.

End TextFacts.

Module AnalyzerProofs.
Import Validator Linking Analyzer TextFacts.

Lemma alnum_not_space (c : ascii) : is_alnum c = true -> is_space c = false.
Proof. destruct c as [[] [] [] [] [] [] [] []]; vm_compute; congruence. Qed.

Lemma gene_char_not_space (c : ascii) : gene_char c = true -> is_space c = false.
Proof. destruct c as [[] [] [] [] [] [] [] []]; vm_compute; congruence. Qed.

Lemma space_not_gene_char (c : ascii) : is_space c = true -> gene_char c = false.
Proof. destruct c as [[] [] [] [] [] [] [] []]; vm_compute; congruence. Qed.

(** A run of [p]-characters followed by a character that is not one (or by
    the end) is the first way [p+] matches. *)
Lemma prefix_runs_first (p : ascii -> bool) (a b : list ascii) :
  a <> [] -> forallb p a = true ->
  match b with [] => True | c :: _ => p c = false end ->
  exists rest, prefix_runs p (a +++ b) = (a, b) :: rest.
Proof.
  intros Hne Ha Hb. induction a as [|c a IH]; [congruence|].
  cbn in Ha. apply andb_prop in Ha as [Hc Ha].
  cbn. rewrite Hc. destruct a as [|c' a'].
  - cbn. assert (prefix_runs p b = []) as ->.
    { destruct b as [|d b]; cbn; [reflexivity|]. now rewrite Hb. }
    exists []. reflexivity.
  - destruct (IH ltac:(discriminate) Ha) as (rest & Hr).
    rewrite Hr. cbn. eexists. reflexivity.
Qed.

Lemma last_cons_app {A} (c : A) (r s : list A) (d : A) :
  s <> [] -> last (c :: r +++ s) d = last s d.
Proof.
  intros Hs. revert c. induction r as [|x r IH]; intros c; cbn.
  - destruct s; [congruence | reflexivity].
  - apply IH.
Qed.

Lemma last_default {A} (l : list A) (d d' : A) : l <> [] -> last l d = last l d'.
Proof.
  induction l as [|x l IH]; [congruence|]. intros _. destruct l; [reflexivity|].
  cbn. apply IH. discriminate.
Qed.

(** X1: [_parse_target] splits "gene mutation" back into its parts: for a
    gene symbol [g] (a letter or digit, then at least one letter, digit or
    hyphen) and a one-line ASCII mutation text [m] with no whitespace at its
    ends, joined by ASCII whitespace and with any ASCII whitespace around
    them, it returns [(g, Some m)]; the gene symbol alone gives
    [(g, None)]. *)
Theorem parse_target_round_trip (w1 g sep m w2 : string)
  (Hg : gene_token g = true) (H1 : blank w1 = true) (H2 : blank w2 = true)
  (Hs : blank sep = true) (Hsne : sep <> "") (Hm : mutation_text m = true)
  (Ha : ascii_text m = true) :
  parse_target (w1 ++ g ++ w2) = (g, None) /\
  parse_target (w1 ++ g ++ sep ++ m ++ w2) = (g, Some m).
Proof.
  clear Ha. unfold gene_token, blank, mutation_text in *.
  rewrite <- (string_of_list_ascii_of_string g), <- (string_of_list_ascii_of_string m).
  rewrite <- (string_of_list_ascii_of_string sep) in Hsne.
  rewrite <- (string_of_list_ascii_of_string w1), <- (string_of_list_ascii_of_string w2),
    <- (string_of_list_ascii_of_string sep).
  destruct (list_ascii_of_string g) as [|c [|x r]] eqn:Eg; try discriminate.
  apply andb_prop in Hg as [Hc Hr].
  destruct (list_ascii_of_string m) as [|mc mr] eqn:Em; try discriminate.
  apply andb_prop in Hm as [Hm Hnl]. apply andb_prop in Hm as [Hmc Hml].
  apply negb_true_iff in Hmc, Hml.
  destruct (list_ascii_of_string sep) as [|sc sr] eqn:Es; [cbn in Hsne; congruence|].
  set (W1 := list_ascii_of_string w1) in *. set (W2 := list_ascii_of_string w2) in *.
  assert (Hgs : forallb gene_char (c :: x :: r) = true).
  { change (gene_char c && forallb gene_char (x :: r) = true).
    rewrite Hr. unfold gene_char. now rewrite Hc. }
  unfold parse_target. split.
  - erewrite (py_strip_around _ W1 W2 c (x :: r)); [| | exact H1 | exact H2 | |].
    + rewrite list_ascii_of_string_of_list_ascii. cbn [target_re_match]. rewrite Hc.
      destruct (prefix_runs_first gene_char (x :: r) [] ltac:(discriminate) Hr I) as (rest & Hp).
      rewrite app_nil_r in Hp. rewrite Hp. reflexivity.
    + rewrite !list_ascii_app, !list_ascii_of_string_of_list_ascii. reflexivity.
    + now apply alnum_not_space.
    + apply gene_char_not_space. eapply (proj1 (forallb_forall _ _)); [exact Hgs|].
      apply last_in. discriminate.
  - assert (Hsp : is_space sc = true) by (cbn in Hs; now apply andb_prop in Hs as [-> _]).
    erewrite (py_strip_around _ W1 W2 c (x :: r +++ (sc :: sr) +++ (mc :: mr)));
      [| | exact H1 | exact H2 | |].
    + rewrite list_ascii_of_string_of_list_ascii. cbn [target_re_match]. rewrite Hc.
      destruct (prefix_runs_first gene_char (x :: r) ((sc :: sr) +++ (mc :: mr))
                  ltac:(discriminate) Hr ltac:(cbn; now apply space_not_gene_char))
        as (rest & Hp).
      rewrite <- app_comm_cons in Hp. rewrite Hp. cbn [first_some fst snd].
      unfold match_tail.
      destruct (prefix_runs_first is_space (sc :: sr) (mc :: mr) ltac:(discriminate) Hs Hmc)
        as (rest' & Hp'). rewrite Hp'. cbn [first_some fst snd].
      destruct (prefix_runs_first not_nl (mc :: mr) [] ltac:(discriminate) Hnl I) as (rest'' & Hp'').
      rewrite app_nil_r in Hp''. rewrite Hp''. reflexivity.
    + rewrite !list_ascii_app, !list_ascii_of_string_of_list_ascii.
      cbn. rewrite <- !app_assoc. cbn. rewrite <- ?app_assoc. reflexivity.
    + now apply alnum_not_space.
    + rewrite app_comm_cons, last_cons_app by discriminate.
      rewrite <- app_comm_cons, last_cons_app by discriminate.
      rewrite (last_default _ c mc) by discriminate. exact Hml.
Qed.

Lemma parse_target_round_trip_witness :
  let w1 := " " in let g := "EGFR" in let sep := " " in let m := "T790M" in let w2 := "" in
  gene_token g = true /\ blank w1 = true /\ blank w2 = true /\ blank sep = true /\
  sep <> "" /\ mutation_text m = true /\ ascii_text m = true /\
  parse_target (w1 ++ g ++ w2) = (g, None) /\
  parse_target (w1 ++ g ++ sep ++ m ++ w2) = (g, Some m).
Proof.
  cbv zeta. do 4 (split; [reflexivity|]). split; [discriminate|]. do 2 (split; [reflexivity|]).
  apply (parse_target_round_trip " " "EGFR" " " "T790M" ""); (reflexivity || discriminate).
Defined.

Lemma build_fallback_keys (t : string) :
  py_contains (build_fallback t) "primary_concepts" = Some true /\
  py_contains (build_fallback t) "search_queries" = Some true.
Proof. unfold build_fallback. destruct (parse_target t). split; reflexivity. Qed.

(** X2: [_parse_response] either raises [TypeError], exactly when the reply
    parses to a number, a boolean or [null], or returns a value that passes
    its own key check: both ["primary_concepts"] and ["search_queries"] are
    [in] it. Invalid JSON and replies without the keys give the fallback,
    which has both keys. *)
Theorem parse_response_keys (loads : string -> option json) (raw target : string) :
  (forall v, parse_response loads raw target = Some v ->
     py_contains v "primary_concepts" = Some true /\
     py_contains v "search_queries" = Some true) /\
  (parse_response loads raw target = None <->
     (exists z, loads raw = Some (JNum z)) \/ (exists b, loads raw = Some (JBool b)) \/
     loads raw = Some JNull).
Proof.
  unfold parse_response. split.
  - intros v. destruct (loads raw) as [data|].
    + destruct (py_contains data "primary_concepts") as [[]|] eqn:E1;
        [|intros H; inversion H; subst; apply build_fallback_keys|discriminate].
      destruct (py_contains data "search_queries") as [[]|] eqn:E2;
        [|intros H; inversion H; subst; apply build_fallback_keys|discriminate].
      intros H; inversion H; subst. auto.
    + intros H; inversion H; subst. apply build_fallback_keys.
  - destruct (loads raw) as [data|].
    + destruct data as [| b | z | str | xs | kvs]; cbn.
      * split; auto.
      * split; eauto.
      * split; eauto.
      * split; [destruct (str_contains str "primary_concepts"), (str_contains str "search_queries"); discriminate|].
        intros [(? & ?)|[(? & ?)|?]]; discriminate.
      * split; [destruct (py_in (JStr "primary_concepts") xs), (py_in (JStr "search_queries") xs); discriminate|].
        intros [(? & ?)|[(? & ?)|?]]; discriminate.
      * split; [destruct (assoc "primary_concepts" kvs), (assoc "search_queries" kvs); discriminate|].
        intros [(? & ?)|[(? & ?)|?]]; discriminate.
    + split; [discriminate|]. intros [(? & ?)|[(? & ?)|?]]; discriminate.
Qed.

End AnalyzerProofs.

Module AnalyzerPipelineProofs.
Import Debate Pipeline Analyzer.

(** X3: when the analyzer's reply is parsed to the heuristic fallback, the
    analyzer step succeeds and in the state it leaves every scout query
    ([clinicaltrials_condition], [clinicaltrials_intervention],
    [pubmed_query], [semantic_scholar_query]) is the research target, so the
    trials scout searches the registry for the target with no intervention
    filter. *)
Theorem analyzer_fallback_queries (o : oracles) (s : state)
  (Hfb : parse_criteria o
           (acall_llm o "analyzer"
              ("Research target: " ++ target s ++ nl ++ "User clarification: " ++ clarification s))
           (target s) = build_fallback (target s)) :
  exists u, target_analyzer o s = Some u /\
  (let s1 := apply_update s u in
   get_query s1 "clinicaltrials_condition" = Some (target s) /\
   get_query s1 "clinicaltrials_intervention" = Some (target s) /\
   get_query s1 "pubmed_query" = Some (target s) /\
   get_query s1 "semantic_scholar_query" = Some (target s) /\
   exists u2, trials_scout o s1 = Some u2 /\
     u_api_data u2 = Some (dict_set "trials" (fst (fetch_trials o (target s) None)) (api_data s1))).
Proof.
  unfold target_analyzer. rewrite Hfb.
  unfold build_fallback. destruct (parse_target (target s)) as [gene mutation].
  eexists. split; [reflexivity|]. cbv zeta.
  match goal with |- context [apply_update s ?u] => set (s1 := apply_update s u) end.
  assert (Hq : forall k, k <> "clinicaltrials_intervention" ->
            In k ["clinicaltrials_condition"; "pubmed_query"; "semantic_scholar_query"] ->
            get_query s1 k = Some (target s)).
  { intros k Hk Hin. unfold s1, get_query, apply_update. cbn [target search_criteria].
    destruct Hin as [<-|[<-|[<-|[]]]]; destruct (target s); reflexivity. }
  assert (Hi : get_query s1 "clinicaltrials_intervention" = Some (target s)) by reflexivity.
  assert (Hc : get_query s1 "clinicaltrials_condition" = Some (target s))
    by (apply Hq; [discriminate | now left]).
  split; [exact Hc|]. split; [exact Hi|].
  split; [apply Hq; [discriminate | cbn; tauto]|].
  split; [apply Hq; [discriminate | cbn; tauto]|].
  unfold trials_scout. rewrite Hc, Hi.
  replace (target s1) with (target s) by reflexivity.
  rewrite String.eqb_refl.
  destruct (fetch_trials o (target s) None) as [rt tc].
  eexists. split; reflexivity.
Qed.

Lemma analyzer_fallback_queries_witness :
  let o := mkOracles (fun _ _ => "not json") (fun _ t => build_fallback t) (fun _ => "{}")
             (fun _ _ => ("trials", [])) (fun _ => ("papers", [])) (fun _ => ("semantic", [])) in
  let s := mkState "EGFR T790M" "" "" JNull [] "" (mkDebate 0 1 "") "" [] [] in
  parse_criteria o
    (acall_llm o "analyzer"
       ("Research target: " ++ target s ++ nl ++ "User clarification: " ++ clarification s))
    (target s) = build_fallback (target s) /\
  exists u, target_analyzer o s = Some u /\
  (let s1 := apply_update s u in
   get_query s1 "clinicaltrials_condition" = Some (target s) /\
   get_query s1 "clinicaltrials_intervention" = Some (target s) /\
   get_query s1 "pubmed_query" = Some (target s) /\
   get_query s1 "semantic_scholar_query" = Some (target s) /\
   exists u2, trials_scout o s1 = Some u2 /\
     u_api_data u2 = Some (dict_set "trials" (fst (fetch_trials o (target s) None)) (api_data s1))).
Proof.
  cbv zeta. split; [reflexivity|].
  apply (analyzer_fallback_queries
           (mkOracles (fun _ _ => "not json") (fun _ t => build_fallback t) (fun _ => "{}")
              (fun _ _ => ("trials", [])) (fun _ => ("papers", [])) (fun _ => ("semantic", [])))
           (mkState "EGFR T790M" "" "" JNull [] "" (mkDebate 0 1 "") "" [] [])).
  reflexivity.
Defined.

End AnalyzerPipelineProofs.

Module ToolsProofs.
Import Validator Linking Tools TextFacts.


Lemma length_list_ascii (s : string) : String.length s = length (list_ascii_of_string s).
Proof. induction s as [|c s IH]; cbn; [reflexivity | now rewrite IH]. Qed.

Lemma substring_list (k : nat) (s : string) :
  list_ascii_of_string (substring 0 k s) = firstn k (list_ascii_of_string s).
Proof.
  revert k. induction s as [|c s IH]; intros [|k]; cbn; try reflexivity.
  now rewrite IH.
Qed.

Lemma lstrip_suffix (l : list ascii) : exists pre, l = pre +++ lstrip l.
Proof.
  induction l as [|c l IH]; cbn; [now exists []|].
  destruct (is_space c); [|now exists []].
  destruct IH as (pre & Hpre). exists (c :: pre). cbn. now rewrite <- Hpre.
Qed.

Lemma forallb_suffix {A} (p : A -> bool) (pre l : list A) :
  forallb p (pre +++ l) = true -> forallb p l = true.
Proof. rewrite forallb_app. now intros [_ H]%andb_prop. Qed.

Lemma lstrip_forallb (p : ascii -> bool) (l : list ascii) :
  forallb p l = true -> forallb p (lstrip l) = true.
Proof. destruct (lstrip_suffix l) as (pre & Hp). rewrite Hp at 1. apply forallb_suffix. Qed.

Lemma lstrip_length (l : list ascii) : length (lstrip l) <= length l.
Proof.
  destruct (lstrip_suffix l) as (pre & Hp). rewrite Hp at 2. rewrite length_app. lia.
Qed.

Lemma py_strip_forallb (p : ascii -> bool) (s : string) :
  forallb p (list_ascii_of_string s) = true ->
  forallb p (list_ascii_of_string (py_strip s)) = true /\
  String.length (py_strip s) <= String.length s.
Proof.
  intros H. unfold py_strip. rewrite !length_list_ascii, list_ascii_of_string_of_list_ascii.
  split.
  - rewrite forallb_rev. apply lstrip_forallb. rewrite forallb_rev. now apply lstrip_forallb.
  - rewrite length_rev. etransitivity; [apply lstrip_length|].
    rewrite length_rev. apply lstrip_length.
Qed.

Lemma py_rstrip_forallb (p : ascii -> bool) (s : string) :
  forallb p (list_ascii_of_string s) = true ->
  forallb p (list_ascii_of_string (py_rstrip s)) = true /\
  String.length (py_rstrip s) <= String.length s.
Proof.
  intros H. unfold py_rstrip. rewrite !length_list_ascii, list_ascii_of_string_of_list_ascii.
  split.
  - rewrite forallb_rev. apply lstrip_forallb. now rewrite forallb_rev.
  - rewrite length_rev. etransitivity; [apply lstrip_length|]. now rewrite length_rev.
Qed.

Lemma replace_nl_no_nl (s : string) : no_nl (replace_nl s) = true.
Proof.
  unfold no_nl, replace_nl. rewrite list_ascii_of_string_of_list_ascii.
  apply forallb_forall. intros x Hx. apply in_map_iff in Hx as (c & <- & _).
  unfold Analyzer.not_nl. destruct (Ascii.eqb c (ascii_of_nat 10)) eqn:E; [reflexivity|].
  now rewrite E.
Qed.

Lemma forallb_firstn {A} (p : A -> bool) (k : nat) (l : list A) :
  forallb p l = true -> forallb p (firstn k l) = true.
Proof.
  rewrite <- (firstn_skipn k l) at 1. rewrite forallb_app. now intros [H _]%andb_prop.
Qed.

Lemma safe_body (str : string) (max_len : nat) (Hm : 3 <= max_len) :
  let text := py_strip (replace_nl str) in
  let out := if (String.length text <=? max_len)%nat then text
             else py_rstrip (substring 0 (if (3 <=? max_len)%nat then max_len - 3
                                          else String.length text - (3 - max_len)) text) ++ "..." in
  no_nl out = true /\ String.length out <= max_len.
Proof.
  intros text out. subst out.
  destruct (py_strip_forallb Analyzer.not_nl (replace_nl str) (replace_nl_no_nl str)) as [Ht Hlen].
  fold text in Ht, Hlen.
  destruct (Nat.leb_spec (String.length text) max_len) as [Hle|Hgt]; [split; assumption|].
  destruct (Nat.leb_spec 3 max_len) as [_|]; [|lia].
  assert (Hsub : forallb Analyzer.not_nl (list_ascii_of_string (substring 0 (max_len - 3) text)) = true)
    by (rewrite substring_list; now apply forallb_firstn).
  destruct (py_rstrip_forallb _ _ Hsub) as [Hr Hrl].
  split.
  - unfold no_nl. rewrite list_ascii_app, forallb_app, Hr. reflexivity.
  - assert (String.length (substring 0 (max_len - 3) text) <= max_len - 3)
      by (rewrite length_list_ascii, substring_list, length_firstn; lia).
    rewrite length_list_ascii, list_ascii_app, length_app, <- !length_list_ascii.
    cbn [String.length]. lia.
Qed.

(** X4: [_safe_text(value, max_len)] returns a single line (no newline
    character) of at most [max_len] characters, for every [max_len] of at
    least 3. *)
Theorem safe_text_bounded (value : json) (max_len : nat) (Hm : 3 <= max_len) :
  no_nl (safe_text value max_len) = true /\ String.length (safe_text value max_len) <= max_len.
Proof.
  unfold safe_text. destruct value; [split; [reflexivity | cbn; lia] | exact (safe_body _ _ Hm) ..].
Qed.

Lemma safe_text_bounded_witness :
  3 <= 5 /\
  no_nl (safe_text (JStr "  a long title  ") 5) = true /\
  String.length (safe_text (JStr "  a long title  ") 5) <= 5.
Proof.
  split; [lia|]. apply (safe_text_bounded (JStr "  a long title  ") 5). lia.
Defined.

Lemma escape_char_other (c d : ascii) (r : string) :
  Ascii.eqb d c = false -> escape_char c (String d r) = String d (escape_char c r).
Proof. cbn. intros ->. reflexivity. Qed.

Lemma escape_plain (d : ascii) (r : string) :
  md_special d = false ->
  escape_char "]"%char (escape_char "["%char (escape_char "|"%char (String d r)))
  = String d (escape_char "]"%char (escape_char "["%char (escape_char "|"%char r))).
Proof.
  unfold md_special. intros H. apply orb_false_iff in H as [H H3].
  apply orb_false_iff in H as [H1 H2].
  rewrite (escape_char_other _ _ _ H1), (escape_char_other _ _ _ H2), (escape_char_other _ _ _ H3).
  reflexivity.
Qed.

Lemma escape_head (r : string) (c : ascii) (r2 : string) :
  escape_char "]"%char (escape_char "["%char (escape_char "|"%char r)) = String c r2 ->
  md_special c = false.
Proof.
  destruct r as [|d r]; [discriminate|].
  destruct (md_special d) eqn:Hd.
  - unfold md_special in Hd.
    destruct (Ascii.eqb_spec d "|"%char) as [->|_]; [intros H; inversion H; reflexivity|].
    destruct (Ascii.eqb_spec d "["%char) as [->|_]; [intros H; inversion H; reflexivity|].
    destruct (Ascii.eqb_spec d "]"%char) as [->|_]; [intros H; inversion H; reflexivity|].
    discriminate.
  - rewrite escape_plain by exact Hd. intros H; inversion H; subst. exact Hd.
Qed.

Lemma unescape_cons_plain (b c : ascii) (r : string) :
  md_special c = false -> unescape_md (String b (String c r)) = String b (unescape_md (String c r)).
Proof.
  intros H.
  change (unescape_md (String b (String c r))) with
    (if Ascii.eqb b backslash && md_special c then String c (unescape_md r)
     else String b (unescape_md (String c r))).
  rewrite H, andb_false_r. reflexivity.
Qed.

Lemma unescape_escape (s : string) :
  unescape_md (escape_char "]"%char (escape_char "["%char (escape_char "|"%char s))) = s.
Proof.
  induction s as [|d r IH]; [reflexivity|].
  destruct (md_special d) eqn:Hd.
  - unfold md_special in Hd.
    destruct (Ascii.eqb_spec d "|"%char) as [->|_]; [cbn; now rewrite IH|].
    destruct (Ascii.eqb_spec d "["%char) as [->|_]; [cbn; now rewrite IH|].
    destruct (Ascii.eqb_spec d "]"%char) as [->|_]; [cbn; now rewrite IH|].
    discriminate.
  - rewrite escape_plain by exact Hd.
    destruct (escape_char "]"%char (escape_char "["%char (escape_char "|"%char r))) as [|c r2] eqn:Er.
    + destruct r as [|x r]; [reflexivity|].
      destruct (md_special x) eqn:Hx.
      * unfold md_special in Hx.
        destruct (Ascii.eqb_spec x "|"%char) as [->|_]; [discriminate|].
        destruct (Ascii.eqb_spec x "["%char) as [->|_]; [discriminate|].
        destruct (Ascii.eqb_spec x "]"%char) as [->|_]; [discriminate|].
        discriminate.
      * rewrite escape_plain in Er by exact Hx. discriminate.
    + assert (Hc : md_special c = false) by (eapply escape_head; exact Er).
      rewrite unescape_cons_plain by exact Hc. rewrite IH. reflexivity.
Qed.

Lemma escape_char_no_nl (c : ascii) (s : string) :
  Ascii.eqb c (ascii_of_nat 10) = false -> no_nl s = true -> no_nl (escape_char c s) = true.
Proof.
  intros Hc. induction s as [|d r IH]; [reflexivity|]. unfold no_nl in *. cbn.
  intros H. apply andb_prop in H as [Hd Hr].
  destruct (Ascii.eqb d c) eqn:E; cbn; rewrite Hd, IH by exact Hr; reflexivity.
Qed.

Lemma safe_text_no_nl (value : json) (max_len : nat) : no_nl (safe_text value max_len) = true.
Proof.
  unfold safe_text. destruct value; try reflexivity;
  match goal with |- context [replace_nl ?x] => set (str := x) end;
  destruct (py_strip_forallb Analyzer.not_nl (replace_nl str) (replace_nl_no_nl str)) as [Ht _];
  set (text := py_strip (replace_nl str)) in *;
  (destruct (Nat.leb (String.length text) max_len); [exact Ht|]);
  match goal with |- context [substring 0 ?k text] =>
    assert (Hsub : forallb Analyzer.not_nl (list_ascii_of_string (substring 0 k text)) = true)
      by (rewrite substring_list; now apply forallb_firstn) end;
  destruct (py_rstrip_forallb _ _ Hsub) as [Hr _];
  unfold no_nl; rewrite list_ascii_app, forallb_app, Hr; reflexivity.
Qed.

(** X5: [_escape_md_table(value, max_len)] keeps a table cell on one line
    (no newline character) and loses nothing: removing the backslash it put
    before each [|], [[] and []] gives back [_safe_text(value, max_len)]
    exactly. *)
Theorem escape_md_table_lossless (value : json) (max_len : nat) :
  no_nl (escape_md_table value max_len) = true /\
  unescape_md (escape_md_table value max_len) = safe_text value max_len.
Proof.
  split; [|apply unescape_escape].
  unfold escape_md_table.
  do 3 (apply escape_char_no_nl; [reflexivity|]).
  apply safe_text_no_nl.
Qed.

Lemma results_entry_fields (pmid citation : string) (r : json) :
  exists p c u t,
    results_entry pmid citation r
      = JObj [("pmid", JStr p); ("citation", JStr c); ("url", JStr u); ("reference_type", JStr t)] /\
    p <> "" /\ c <> "" /\ t <> "" /\
    ((py_isdigit p = true /\ u = "https://pubmed.ncbi.nlm.nih.gov/" ++ p ++ "/") \/
     (py_isdigit p = false /\ u = "")).
Proof.
  unfold results_entry.
  set (t := safe_text (fld r "type" JNull) 40).
  eexists _, _, _, _. split; [reflexivity|].
  split; [destruct (String.eqb_spec pmid ""); discriminate + assumption|].
  split; [destruct (String.eqb_spec citation ""); discriminate + assumption|].
  split; [destruct (String.eqb_spec t ""); discriminate + assumption|].
  destruct (String.eqb_spec pmid "") as [->|Hne].
  - right. split; reflexivity.
  - destruct (py_isdigit pmid); [left | right]; split; reflexivity.
Qed.

Lemma results_loop_spec (seen : list (string * string)) (refs : list json) :
  length (results_loop seen refs) <= length refs /\
  Forall (fun e => exists r pmid citation,
            In r refs /\ is_dict r = true /\ is_results_reference r = true /\
            e = results_entry pmid citation r) (results_loop seen refs).
Proof.
  revert seen. induction refs as [|r rest IH]; intros seen; [split; [reflexivity | constructor]|].
  cbn [results_loop].
  assert (Hweak : forall l, length l <= length rest /\
            Forall (fun e => exists r' pmid citation, In r' rest /\ is_dict r' = true /\
                     is_results_reference r' = true /\ e = results_entry pmid citation r') l ->
            length l <= length (r :: rest) /\
            Forall (fun e => exists r' pmid citation, In r' (r :: rest) /\ is_dict r' = true /\
                     is_results_reference r' = true /\ e = results_entry pmid citation r') l).
  { intros l [Hl Hf]. split; [cbn; lia|].
    eapply Forall_impl; [|exact Hf]. intros e (r' & p & c & Hin & H1 & H2 & H3).
    exists r', p, c. repeat split; auto. now right. }
  destruct (is_dict r) eqn:Hd; cbn [negb orb]; [|apply Hweak, IH].
  destruct (is_results_reference r) eqn:Hres; cbn [negb orb]; [|apply Hweak, IH].
  match goal with |- context [if ?b then _ else _] => destruct b end; [apply Hweak, IH|].
  match goal with |- context [if ?b then _ else _] => destruct b end; [apply Hweak, IH|].
  destruct (IH ((safe_text (fld r "pmid" JNull) 32,
                 py_lower (safe_text (fld r "citation" JNull) 600)) :: seen)) as [Hl Hf].
  split; [cbn; lia|]. constructor.
  - exists r, (safe_text (fld r "pmid" JNull) 32), (safe_text (fld r "citation" JNull) 600).
    repeat split; auto. now left.
  - eapply Forall_impl; [|exact Hf]. intros e (r' & p & c & Hin & H1 & H2 & H3).
    exists r', p, c. repeat split; auto. now right.
Qed.

(** X6: the publications [_extract_results_publications(study)] returns are
    at most as many as the study's references, and each one comes from a
    reference that is a dict marked as results-linked; its [pmid], [citation]
    and [reference_type] are non-empty (placeholders fill in missing values),
    and its [url] is the PubMed link of the [pmid] when the [pmid] is all
    digits and empty otherwise. *)
Theorem extract_results_publications_entries (study : json) (refs pubs : list json)
  (Hr : study_references study = Some refs) (Hp : extract_results_publications study = Some pubs) :
  length pubs <= length refs /\
  Forall (fun e => exists r p c u t,
     In r refs /\ is_dict r = true /\ is_results_reference r = true /\
     e = JObj [("pmid", JStr p); ("citation", JStr c); ("url", JStr u); ("reference_type", JStr t)] /\
     p <> "" /\ c <> "" /\ t <> "" /\
     ((py_isdigit p = true /\ u = "https://pubmed.ncbi.nlm.nih.gov/" ++ p ++ "/") \/
      (py_isdigit p = false /\ u = ""))) pubs.
Proof.
  unfold extract_results_publications in Hp. rewrite Hr in Hp. inversion Hp; subst pubs.
  destruct (results_loop_spec [] refs) as [Hl Hf]. split; [exact Hl|].
  eapply Forall_impl; [|exact Hf]. intros e (r & pmid & citation & Hin & Hd & Hres & ->).
  destruct (results_entry_fields pmid citation r) as (p & c & u & t & He & Hrest).
  exists r, p, c, u, t. rewrite He. auto.
Qed.

Lemma extract_results_publications_entries_witness :
  let study := JObj [("protocolSection", JObj [("referencesModule", JObj [("references",
                 JArr [JObj [("pmid", JStr "123"); ("type", JStr "RESULT");
                             ("citation", JStr "A trial.")]])])])] in
  let refs := [JObj [("pmid", JStr "123"); ("type", JStr "RESULT"); ("citation", JStr "A trial.")]] in
  let pubs := [JObj [("pmid", JStr "123"); ("citation", JStr "A trial.");
                     ("url", JStr "https://pubmed.ncbi.nlm.nih.gov/123/");
                     ("reference_type", JStr "RESULT")]] in
  study_references study = Some refs /\ extract_results_publications study = Some pubs /\
  length pubs <= length refs /\
  Forall (fun e => exists r p c u t,
     In r refs /\ is_dict r = true /\ is_results_reference r = true /\
     e = JObj [("pmid", JStr p); ("citation", JStr c); ("url", JStr u); ("reference_type", JStr t)] /\
     p <> "" /\ c <> "" /\ t <> "" /\
     ((py_isdigit p = true /\ u = "https://pubmed.ncbi.nlm.nih.gov/" ++ p ++ "/") \/
      (py_isdigit p = false /\ u = ""))) pubs.
Proof.
  cbv zeta. split; [reflexivity|]. split; [vm_compute; reflexivity|].
  apply (extract_results_publications_entries (JObj [("protocolSection", JObj [("referencesModule", JObj [("references",
                 JArr [JObj [("pmid", JStr "123"); ("type", JStr "RESULT");
                             ("citation", JStr "A trial.")]])])])])); [reflexivity | vm_compute; reflexivity].
Defined.

Lemma in_firstn_l {A} (n : nat) (l : list A) (x : A) : In x (firstn n l) -> In x l.
Proof. intros H. rewrite <- (firstn_skipn n l). apply in_or_app. now left. Qed.

Lemma ForallOrdPairs_firstn {A} (R : A -> A -> Prop) (n : nat) (l : list A) :
  ForallOrdPairs R l -> ForallOrdPairs R (firstn n l).
Proof.
  revert l. induction n as [|n IH]; intros l H; [constructor|].
  destruct l as [|x l]; [constructor|]. inversion H; subst. cbn. constructor.
  - apply Forall_forall. intros y Hy. eapply Forall_forall; [eassumption|].
    eapply in_firstn_l; exact Hy.
  - now apply IH.
Qed.

Lemma dget_fld (r : json) (k : string) (d u : json) : dget r k d = Some u -> fld r k d = u.
Proof. destruct r; try discriminate. cbn. intros H; inversion H; reflexivity. Qed.

Lemma dedup_by_url_spec (seen rs out : list json) :
  dedup_by_url seen rs = Some out ->
  incl out rs /\
  Forall (fun r => truthy (fld r "url" (JStr "")) = true /\
                   py_in (fld r "url" (JStr "")) seen = false) out /\
  ForallOrdPairs (fun a b => py_eq (fld b "url" (JStr "")) (fld a "url" (JStr "")) = false) out.
Proof.
  revert seen out. induction rs as [|r rest IH]; intros seen out H.
  - inversion H; subst. split; [intros x []|]. split; constructor.
  - cbn [dedup_by_url] in H.
    destruct (dget r "url" (JStr "")) as [url|] eqn:Hu; [|discriminate].
    apply dget_fld in Hu.
    assert (Hweak : forall o, incl o rest -> incl o (r :: rest))
      by (intros o Ho x Hx; right; now apply Ho).
    destruct (truthy url) eqn:Ht.
    + destruct (hashable url); [|discriminate]. cbn [negb] in H.
      destruct (py_in url seen) eqn:Hin.
      * destruct (IH _ _ H) as (Hi & Hf & Hp). split; [now apply Hweak|]. auto.
      * destruct (dedup_by_url (url :: seen) rest) as [kept|] eqn:Hk; [|discriminate].
        inversion H; subst out. destruct (IH _ _ Hk) as (Hi & Hf & Hp).
        split; [|split].
        -- intros x [<-|Hx]; [now left | right; now apply Hi].
        -- constructor; [rewrite Hu; auto|].
           eapply Forall_impl; [|exact Hf]. intros b [Hb1 Hb2]. split; [exact Hb1|].
           cbn in Hb2. apply orb_false_iff in Hb2. tauto.
        -- constructor; [|exact Hp].
           eapply Forall_impl; [|exact Hf]. intros b [_ Hb2]. rewrite Hu.
           cbn in Hb2. apply orb_false_iff in Hb2. tauto.
    + destruct (IH _ _ H) as (Hi & Hf & Hp). split; [now apply Hweak|]. auto.
Qed.

Lemma repository_loop_spec (z v : json -> nat -> option (list json)) (mr : nat)
  (qs : list json) (calls : list (string * json)) (all : list json) :
  repository_loop z v mr qs = (calls, Some all) ->
  length calls = 2 * length qs /\
  forall r, In r all -> exists q hz hv,
    In ("zenodo", q) calls /\ z q mr = Some hz /\ v q mr = Some hv /\ In r (hz +++ hv).
Proof.
  revert calls all. induction qs as [|q rest IH]; intros calls all H.
  - inversion H; subst. split; [reflexivity | intros r []].
  - cbn [repository_loop] in H.
    destruct (z q mr) as [hz|] eqn:Hz; [|discriminate].
    destruct (v q mr) as [hv|] eqn:Hv; [|discriminate].
    destruct (repository_loop z v mr rest) as [cs [res|]] eqn:Hr; inversion H; subst.
    destruct (IH _ _ eq_refl) as [Hl Hall]. split; [cbn; lia|].
    intros r Hin. apply in_app_or in Hin as [Hin|Hin].
    + exists q, hz, hv. repeat split; auto; [now left | apply in_or_app; now left].
    + apply in_app_or in Hin as [Hin|Hin].
      * exists q, hz, hv. repeat split; auto; [now left | apply in_or_app; now right].
      * destruct (Hall r Hin) as (q' & hz' & hv' & Hc & H1 & H2 & H3).
        exists q', hz', hv'. repeat split; auto. right; right; exact Hc.
Qed.

(** X7: every dataset record [search_repositories] returns was found by
    the Zenodo or Vivli search for one of its queries, has a non-empty
    [url], and no two records share a [url]; it returns at most
    [2 * max_results] records and makes at most four searches. *)
Theorem search_repositories_dedup (search_zenodo search_vivli : json -> nat -> option (list json))
  (nct_id trial_title : json) (max_results : nat) (calls : list (string * json)) (out : list json)
  (H : search_repositories search_zenodo search_vivli nct_id trial_title max_results = (calls, Some out)) :
  length out <= max_results * 2 /\ length calls <= 4 /\
  Forall (fun r => truthy (fld r "url" (JStr "")) = true) out /\
  ForallOrdPairs (fun a b => py_eq (fld b "url" (JStr "")) (fld a "url" (JStr "")) = false) out /\
  Forall (fun r => exists q hz hv,
            In ("zenodo", q) calls /\ search_zenodo q max_results = Some hz /\
            search_vivli q max_results = Some hv /\ In r (hz +++ hv)) out.
Proof.
  unfold search_repositories in H.
  destruct (if truthy trial_title then _ else _) as [q2|]; [|discriminate].
  destruct ((if truthy nct_id then [nct_id] else []) +++ q2) as [|q qs] eqn:Hq.
  - inversion H; subst. repeat split; try constructor; cbn; lia.
  - destruct (repository_loop search_zenodo search_vivli max_results (firstn 2 (q :: qs)))
      as [cs [all|]] eqn:Hr; [|discriminate].
    destruct (dedup_by_url [] all) as [dd|] eqn:Hd; inversion H; subst.
    destruct (repository_loop_spec _ _ _ _ _ _ Hr) as [Hl Hall].
    destruct (dedup_by_url_spec _ _ _ Hd) as (Hi & Hf & Hp).
    split; [rewrite length_firstn; lia|].
    split; [rewrite Hl, length_firstn; lia|].
    split; [|split].
    + apply Forall_forall. intros x Hx. apply in_firstn_l in Hx.
      eapply Forall_forall in Hf; [|exact Hx]. tauto.
    + now apply ForallOrdPairs_firstn.
    + apply Forall_forall. intros x Hx. apply in_firstn_l in Hx. apply Hall, Hi, Hx.
Qed.

Lemma search_repositories_dedup_witness :
  let search_zenodo := fun (q : json) (_ : nat) => Some [JObj [("url", JStr ("z/" ++ py_str q))]] in
  let search_vivli := fun (q : json) (_ : nat) => Some [JObj [("url", JStr ("v/" ++ py_str q))]] in
  let calls := [("zenodo", JStr "NCT1"); ("vivli", JStr "NCT1"); ("zenodo", JStr "T"); ("vivli", JStr "T")] in
  let out := [JObj [("url", JStr "z/NCT1")]; JObj [("url", JStr "v/NCT1")];
              JObj [("url", JStr "z/T")]; JObj [("url", JStr "v/T")]] in
  search_repositories search_zenodo search_vivli (JStr "NCT1") (JStr "T") 5 = (calls, Some out) /\
  length out <= 5 * 2 /\ length calls <= 4 /\
  Forall (fun r => truthy (fld r "url" (JStr "")) = true) out /\
  ForallOrdPairs (fun a b => py_eq (fld b "url" (JStr "")) (fld a "url" (JStr "")) = false) out /\
  Forall (fun r => exists q hz hv,
            In ("zenodo", q) calls /\ search_zenodo q 5 = Some hz /\
            search_vivli q 5 = Some hv /\ In r (hz +++ hv)) out.
Proof.
  cbv zeta. split; [vm_compute; reflexivity|].
  apply (search_repositories_dedup
           (fun (q : json) (_ : nat) => Some [JObj [("url", JStr ("z/" ++ py_str q))]])
           (fun (q : json) (_ : nat) => Some [JObj [("url", JStr ("v/" ++ py_str q))]])
           (JStr "NCT1") (JStr "T") 5).
  vm_compute. reflexivity.
Defined.

Lemma first_truthy3 (a b c : json) :
  let t := if truthy a then a else if truthy b then b else c in
  t = a /\ truthy t = true \/ truthy a = false /\ t = b /\ truthy t = true \/
  truthy a = false /\ truthy b = false /\ t = c.
Proof.
  cbv zeta. destruct (truthy a) eqn:Ea; [left; auto|].
  destruct (truthy b) eqn:Eb; [right; left; auto | right; right; auto].
Qed.

Lemma Forall2_map_self {A B : Type} (R : A -> B -> Prop) (f : A -> B) (l : list A) :
  (forall x, In x l -> R x (f x)) -> Forall2 R l (map f l).
Proof.
  induction l as [|x l IH]; intros Hl; constructor.
  - apply Hl. left. reflexivity.
  - apply IH. intros y Hy. apply Hl. right. exact Hy.
Qed.

Lemma filter_dict_chars (s : string) :
  filter is_dict (map (fun c => JStr (String c EmptyString)) (list_ascii_of_string s)) = [].
Proof. induction s as [|c s IH]; cbn; [reflexivity | exact IH]. Qed.

(** X20: [search_vivli] builds one record per study of
    [studies[:max_results]] that is a dict, in order (a string [studies]
    gives none): its title is the study's [title], else its [studyTitle],
    else ["Untitled"]; its id is the study's [nctId], else its
    [registryId], else empty, and its url is
    [https://vivli.org/study/<id>], or the bare [https://vivli.org] when
    there is no id; its description is the first 300 characters of the
    study's description; its source is ["Vivli"]. So it returns at most
    [max_results] records. *)
Theorem vivli_results_records (data : json) (max_results : nat) (rs : list json)
  (H : vivli_results data max_results = Some rs) :
  length rs <= max_results /\
  ((exists studies,
      (data = JArr studies \/ dget data "studies" (JArr []) = Some (JArr studies)) /\
      Forall2 (fun study r =>
             is_dict study = true /\
             exists title nct,
               (title = fld study "title" JNull /\ truthy title = true \/
                truthy (fld study "title" JNull) = false /\ title = fld study "studyTitle" JNull /\
                truthy title = true \/
                truthy (fld study "title" JNull) = false /\
                truthy (fld study "studyTitle" JNull) = false /\ title = JStr "Untitled") /\
               (nct = fld study "nctId" JNull /\ truthy nct = true \/
                truthy (fld study "nctId" JNull) = false /\ nct = fld study "registryId" JNull /\
                truthy nct = true \/
                truthy (fld study "nctId" JNull) = false /\
                truthy (fld study "registryId" JNull) = false /\ nct = JStr "") /\
               exists description,
                 description = substring 0 300 (if truthy (fld study "description" (JStr ""))
                                                then py_str (fld study "description" (JStr "")) else "") /\
                 String.length description <= 300 /\
                 r = JObj [("title", JStr (py_str title));
                           ("url", JStr (if truthy nct then "https://vivli.org/study/" ++ py_str nct
                                         else "https://vivli.org"));
                           ("description", JStr description); ("nct_id", JStr (py_str nct));
                           ("source", JStr "Vivli")])
        (filter is_dict (firstn max_results studies)) rs) \/
   (exists text, dget data "studies" (JArr []) = Some (JStr text) /\ rs = [])).
Proof.
  assert (Hrec : forall l : list json,
    Forall2 (fun study r =>
             is_dict study = true /\
             exists title nct,
               (title = fld study "title" JNull /\ truthy title = true \/
                truthy (fld study "title" JNull) = false /\ title = fld study "studyTitle" JNull /\
                truthy title = true \/
                truthy (fld study "title" JNull) = false /\
                truthy (fld study "studyTitle" JNull) = false /\ title = JStr "Untitled") /\
               (nct = fld study "nctId" JNull /\ truthy nct = true \/
                truthy (fld study "nctId" JNull) = false /\ nct = fld study "registryId" JNull /\
                truthy nct = true \/
                truthy (fld study "nctId" JNull) = false /\
                truthy (fld study "registryId" JNull) = false /\ nct = JStr "") /\
               exists description,
                 description = substring 0 300 (if truthy (fld study "description" (JStr ""))
                                                then py_str (fld study "description" (JStr "")) else "") /\
                 String.length description <= 300 /\
                 r = JObj [("title", JStr (py_str title));
                           ("url", JStr (if truthy nct then "https://vivli.org/study/" ++ py_str nct
                                         else "https://vivli.org"));
                           ("description", JStr description); ("nct_id", JStr (py_str nct));
                           ("source", JStr "Vivli")])
      (filter is_dict l) (map vivli_study (filter is_dict l))).
  { intros l. apply Forall2_map_self. intros st Hst.
    apply filter_In in Hst as [_ Hd]. split; [exact Hd|].
    do 2 eexists. split; [apply first_truthy3|]. split; [apply first_truthy3|].
    eexists. split; [reflexivity|]. split.
    - rewrite length_list_ascii, substring_list, length_firstn. lia.
    - unfold vivli_study. destruct (truthy (fld st "description" (JStr ""))); reflexivity. }
  assert (Hlen : forall l : list json,
    length (map vivli_study (filter is_dict (firstn max_results l))) <= max_results).
  { intros l. rewrite length_map. etransitivity; [apply filter_length_le|].
    rewrite length_firstn. lia. }
  unfold vivli_results in H.
  destruct data as [ | | | text | xs | kvs ]; try discriminate.
  - cbn in H. injection H as <-. split; [apply Hlen|].
    left. exists xs. split; [left; reflexivity | apply Hrec].
  - destruct (dget (JObj kvs) "studies" (JArr [])) as [studies|] eqn:Hst; [|discriminate].
    destruct studies as [ | | | text | ys | kvs' ]; cbn in H; try discriminate.
    + injection H as <-. rewrite filter_dict_chars. split; [cbn; lia|].
      right. exists text. split; reflexivity.
    + injection H as <-. split; [apply Hlen|].
      left. exists ys. split; [right; reflexivity | apply Hrec].
Qed.

Lemma vivli_results_records_witness :
  let data := JObj [("studies", JArr [JObj [("nctId", JStr "NCT1")]; JNum 3;
                                      JObj [("title", JStr "T"); ("registryId", JStr "R2")]])] in
  let rs := [JObj [("title", JStr "Untitled"); ("url", JStr "https://vivli.org/study/NCT1");
                   ("description", JStr ""); ("nct_id", JStr "NCT1"); ("source", JStr "Vivli")];
             JObj [("title", JStr "T"); ("url", JStr "https://vivli.org/study/R2");
                   ("description", JStr ""); ("nct_id", JStr "R2"); ("source", JStr "Vivli")]] in
  vivli_results data 5 = Some rs /\
  length rs <= 5 /\
  ((exists studies,
      (data = JArr studies \/ dget data "studies" (JArr []) = Some (JArr studies)) /\
      Forall2 (fun study r =>
             is_dict study = true /\
             exists title nct,
               (title = fld study "title" JNull /\ truthy title = true \/
                truthy (fld study "title" JNull) = false /\ title = fld study "studyTitle" JNull /\
                truthy title = true \/
                truthy (fld study "title" JNull) = false /\
                truthy (fld study "studyTitle" JNull) = false /\ title = JStr "Untitled") /\
               (nct = fld study "nctId" JNull /\ truthy nct = true \/
                truthy (fld study "nctId" JNull) = false /\ nct = fld study "registryId" JNull /\
                truthy nct = true \/
                truthy (fld study "nctId" JNull) = false /\
                truthy (fld study "registryId" JNull) = false /\ nct = JStr "") /\
               exists description,
                 description = substring 0 300 (if truthy (fld study "description" (JStr ""))
                                                then py_str (fld study "description" (JStr "")) else "") /\
                 String.length description <= 300 /\
                 r = JObj [("title", JStr (py_str title));
                           ("url", JStr (if truthy nct then "https://vivli.org/study/" ++ py_str nct
                                         else "https://vivli.org"));
                           ("description", JStr description); ("nct_id", JStr (py_str nct));
                           ("source", JStr "Vivli")])
        (filter is_dict (firstn 5 studies)) rs) \/
   (exists text, dget data "studies" (JArr []) = Some (JStr text) /\ rs = [])).
Proof.
  cbv zeta. split; [vm_compute; reflexivity|].
  apply (vivli_results_records
           (JObj [("studies", JArr [JObj [("nctId", JStr "NCT1")]; JNum 3;
                                    JObj [("title", JStr "T"); ("registryId", JStr "R2")]])]) 5).
  vm_compute. reflexivity.
Defined.

End ToolsProofs.

Module PubmedProofs.
Import Validator Linking Tools StrFacts
  LinkingProofs TextFacts.

Lemma filter_nil_forallb {A} (f : A -> bool) (l : list A) :
  filter f l = [] <-> forallb (fun x => negb (f x)) l = true.
Proof.
  induction l as [|x l IH]; cbn; [tauto|].
  destruct (f x); cbn; [split; discriminate|exact IH].
Qed.

Lemma firstn_S_nil {A} (n : nat) (l : list A) : firstn (S n) l = [] <-> l = [].
Proof. destruct l; cbn; split; congruence. Qed.

Lemma ltb_3_negb (n : nat) : negb (Nat.ltb 3 n) = Nat.leb n 3.
Proof. destruct (Nat.ltb_spec 3 n), (Nat.leb_spec n 3); cbn; lia. Qed.

Lemma title_part_nil (title : string) :
  (if String.eqb title "" then []
   else match title_words title with
        | [] => []
        | words => [dq ++ join " " words ++ dq]
        end) = [] <->
  forallb (fun w => Nat.leb (String.length w) 3) (py_split title) = true.
Proof.
  destruct (String.eqb_spec title ""); [subst; split; reflexivity|].
  transitivity (title_words title = []).
  { destruct (title_words title); split; congruence. }
  unfold title_words. rewrite firstn_S_nil, filter_nil_forallb.
  induction (py_split title) as [|w l IH]; [reflexivity|]. cbn [forallb]. rewrite ltb_3_negb. destruct (Nat.leb (String.length w) 3); cbn [andb]; [exact IH|split; discriminate].
Qed.

Lemma author_part_nil (pi_name : string) :
  (if String.eqb pi_name "" then []
   else if negb (String.eqb (surname_of pi_name) "") && Nat.ltb 2 (String.length (surname_of pi_name))
        then [surname_of pi_name ++ "[Author]"] else []) = [] <->
  String.length (surname_of pi_name) <= 2.
Proof.
  destruct (String.eqb_spec pi_name ""); [subst; cbn; split; [lia|reflexivity]|].
  destruct (String.eqb_spec (surname_of pi_name) "") as [->|]; cbn [negb andb].
  - cbn; split; [lia|reflexivity].
  - destruct (Nat.ltb_spec 2 (String.length (surname_of pi_name))); split; congruence || lia.
Qed.

Lemma metadata_parts_nil (title condition pi_name : string) :
  metadata_parts title condition pi_name = [] <->
  forallb (fun w => Nat.leb (String.length w) 3) (py_split title) = true /\
  condition = "" /\ String.length (surname_of pi_name) <= 2.
Proof.
  unfold metadata_parts. cbv zeta. rewrite <- title_part_nil, <- author_part_nil.
  split.
  - intros H. apply app_eq_nil in H as [H1 H]. apply app_eq_nil in H as [H2 H3].
    split; [exact H1|split; [|exact H3]].
    destruct (String.eqb_spec condition ""); [assumption|discriminate].
  - intros (H1 & H2 & H3). rewrite H1, H3. subst condition. reflexivity.
Qed.

(** X8: [search_by_trial_metadata] returns the insufficient-metadata
    message without searching exactly when no word of the title is longer
    than three characters, the condition is empty and the surname of the
    PI has at most two characters; otherwise it makes one PubMed search
    for at most 8 papers, whose query ends with the clinical-trial
    publication-type filter and, for an all-digit completion year [y],
    the date window [y-2:y+2[dp]]. *)
Theorem search_by_trial_metadata_query (title condition pi_name completion_year : string) :
  (forallb (fun w => Nat.leb (String.length w) 3) (py_split title) = true /\
   condition = "" /\ String.length (surname_of pi_name) <= 2 ->
   forall fetch_papers,
     search_by_trial_metadata fetch_papers title condition pi_name completion_year =
     ("Insufficient metadata for heuristic search.", [])) /\
  (~ (forallb (fun w => Nat.leb (String.length w) 3) (py_split title) = true /\
      condition = "" /\ String.length (surname_of pi_name) <= 2) ->
   exists base, forall fetch_papers,
     search_by_trial_metadata fetch_papers title condition pi_name completion_year =
     fetch_papers
       (base ++ trial_type_filter ++
        (if negb (String.eqb completion_year "") && py_isdigit completion_year
         then " AND " ++ string_of_Z (int_of_digits completion_year - 2) ++ ":" ++
              string_of_Z (int_of_digits completion_year + 2) ++ "[dp]"
         else "")) 8).
Proof.
  rewrite <- metadata_parts_nil. unfold search_by_trial_metadata. split.
  - intros -> fetch_papers. reflexivity.
  - intros Hne. destruct (metadata_parts title condition pi_name) as [|p ps]; [tauto|].
    exists (join " AND " (p :: ps)). intros fetch_papers.
    destruct (negb (String.eqb completion_year "") && py_isdigit completion_year).
    + rewrite app_assoc_str. reflexivity.
    + rewrite app_nil_r_str. reflexivity.
Qed.

Lemma upper_char_idem (c : ascii) : upper_char (upper_char c) = upper_char c.
Proof. destruct c as [[] [] [] [] [] [] [] []]; vm_compute; reflexivity. Qed.

Lemma string_of_list_app (a b : list ascii) :
  string_of_list_ascii (a +++ b) = string_of_list_ascii a ++ string_of_list_ascii b.
Proof. induction a as [|x a IH]; cbn; [reflexivity|now rewrite IH]. Qed.

Lemma py_upper_app (a b : string) : py_upper (a ++ b) = py_upper a ++ py_upper b.
Proof. unfold py_upper. now rewrite list_ascii_app, map_app, string_of_list_app. Qed.

Lemma py_upper_idem (s : string) : py_upper (py_upper s) = py_upper s.
Proof.
  unfold py_upper. rewrite list_ascii_of_string_of_list_ascii, map_map.
  erewrite map_ext; [reflexivity|]. apply upper_char_idem.
Qed.

Lemma py_upper_empty (s : string) : String.eqb (py_upper s) "" = String.eqb s "".
Proof. destruct s; reflexivity. Qed.

Lemma prefix_split (n h : string) : String.prefix n h = true -> exists q, h = n ++ q.
Proof.
  revert h. induction n as [|c n IH]; intros h H; [now exists h|].
  destruct h as [|d h]; [discriminate|]. cbn in H.
  destruct (ascii_dec c d) as [<-|]; [|discriminate].
  destruct (IH h H) as [q ->]. now exists q.
Qed.

Lemma str_contains_split (h n : string) :
  str_contains h n = true -> exists p q, h = p ++ n ++ q.
Proof.
  induction h as [|c h IH]; cbn [str_contains]; intros H.
  - destruct (String.prefix n "") eqn:Hp.
    + destruct (prefix_split _ _ Hp) as [q ->]. now exists "", q.
    + discriminate.
  - destruct (String.prefix n (String c h)) eqn:Hp.
    + destruct (prefix_split _ _ Hp) as [q Hq]. exists "", q. exact Hq.
    + destruct (IH H) as (p & q & ->). now exists (String c p), q.
Qed.

(** X9: [search_fulltext_for_nct] ignores letter case in both arguments,
    and it finds every non-empty identifier that occurs literally in a
    non-empty text. *)
Theorem search_fulltext_for_nct_case (fulltext nct_id : string) :
  search_fulltext_for_nct (py_upper fulltext) (py_upper nct_id) =
  search_fulltext_for_nct fulltext nct_id /\
  (nct_id <> "" -> str_contains fulltext nct_id = true ->
   search_fulltext_for_nct fulltext nct_id = true).
Proof.
  unfold search_fulltext_for_nct. split.
  - now rewrite !py_upper_empty, !py_upper_idem.
  - intros Hn Hc. destruct (str_contains_split _ _ Hc) as (p & q & ->).
    destruct (String.eqb_spec nct_id ""); [contradiction|].
    rewrite orb_false_r.
    destruct (String.eqb_spec (p ++ nct_id ++ q) "") as [He|].
    + destruct p; [destruct nct_id; [contradiction|discriminate]|discriminate].
    + rewrite !py_upper_app. apply str_contains_mid.
Qed.

End PubmedProofs.

Module FulltextProofs.
Import Validator Linking Tools Fulltext.

Lemma jset_keys (k : string) (v : json) (d : list (string * json)) :
  In k (map fst d) -> map fst (jset k v d) = map fst d.
Proof.
  induction d as [|[k' v'] d IH]; cbn; [tauto|].
  destruct (String.eqb_spec k k') as [->|Hne]; [reflexivity|].
  intros [->|H]; [contradiction|]. cbn. now rewrite IH.
Qed.

Lemma jset_in (k k' : string) (v : json) (d : list (string * json)) :
  In k' (map fst d) -> In k' (map fst (jset k v d)).
Proof.
  induction d as [|[k'' v'] d IH]; cbn; [tauto|].
  destruct (String.eqb_spec k k'') as [->|]; cbn; tauto.
Qed.

Lemma assoc_jset_eq (k : string) (v : json) (d : list (string * json)) :
  assoc k (jset k v d) = Some v.
Proof.
  induction d as [|[k' v'] d IH]; cbn; [now rewrite String.eqb_refl|].
  destruct (String.eqb_spec k k') as [->|Hne]; cbn; [now rewrite String.eqb_refl|].
  apply String.eqb_neq in Hne. now rewrite Hne.
Qed.

Lemma assoc_jset_neq (k k' : string) (v : json) (d : list (string * json)) :
  k' <> k -> assoc k' (jset k v d) = assoc k' d.
Proof.
  intros Hne. induction d as [|[k'' v'] d IH]; cbn.
  - apply String.eqb_neq in Hne. now rewrite Hne.
  - destruct (String.eqb_spec k k'') as [->|]; cbn.
    + apply String.eqb_neq in Hne. now rewrite Hne.
    + now rewrite IH.
Qed.

Ltac simpl_assoc :=
  repeat first [ rewrite assoc_jset_eq | rewrite assoc_jset_neq by discriminate ].



Section TryBlock.
Variable acall_llm : string -> option string.
Variable loads : string -> option json.
Variable set_list : list json -> list json.

Lemma try_block_other (pmid : json) (text : string) (info : data_info)
  (r : list (string * json)) (k : string) :
  ~ In k ["availability_type"; "statement_snippet"; "supplementary_urls"; "notes";
        "repository_urls"; "repository_names"] ->
  assoc k (fst (try_block acall_llm loads set_list pmid text info r)) = assoc k r.
Proof.
  intros Hk. assert (Hn : forall k', In k' ["availability_type"; "statement_snippet"; "supplementary_urls"; "notes";
        "repository_urls"; "repository_names"] -> k <> k') by (intros k' Hk' ->; tauto).
  unfold try_block.
  destruct (acall_llm _); [|reflexivity]. destruct (loads _) as [[]|]; try reflexivity.
  destruct (merge_set _ _ _); [destruct (merge_set _ _ _)|]; cbn [fst];
    rewrite ?assoc_jset_neq by (apply Hn; cbn; tauto); reflexivity.
Qed.

Lemma try_block_keys (pmid : json) (text : string) (info : data_info) (r : list (string * json)) :
  incl ["availability_type"; "statement_snippet"; "supplementary_urls"; "notes";
        "repository_urls"; "repository_names"] (map fst r) ->
  map fst (fst (try_block acall_llm loads set_list pmid text info r)) = map fst r.
Proof.
  intros Hi. unfold try_block.
  destruct (acall_llm _); [|reflexivity]. destruct (loads _) as [[]|]; try reflexivity.
  destruct (merge_set _ _ _); [destruct (merge_set _ _ _)|]; cbn [fst];
    repeat (rewrite jset_keys by (repeat apply jset_in; apply Hi; cbn; tauto)); reflexivity.
Qed.

Hypothesis Hset : forall l x, In x l -> In x (set_list l).



End TryBlock.

Lemma try_block_pair (acall_llm : string -> option string) (loads : string -> option json)
  (set_list : list json -> list json) (pmid : json) (text : string) (info : data_info)
  (r r' : list (string * json)) (ok : bool) :
  try_block acall_llm loads set_list pmid text info r = (r', ok) ->
  r' = fst (try_block acall_llm loads set_list pmid text info r).
Proof. intros ->. reflexivity. Qed.

Lemma jset_keys_eq (k : string) (v : json) (d : list (string * json)) (ks : list string) :
  map fst d = ks -> In k ks -> map fst (jset k v d) = ks.
Proof. intros <- Hk. now apply jset_keys. Qed.

Ltac in_keys := cbn; repeat (solve [left; reflexivity] || right).

Ltac keys_tac :=
  repeat (apply jset_keys_eq; [|in_keys]);
  first
  [ reflexivity
  | rewrite try_block_keys;
    [ repeat (apply jset_keys_eq; [|in_keys]); reflexivity
    | let k := fresh "k" in let Hk := fresh "Hk" in
      intros k Hk; repeat apply jset_in;
      repeat (destruct Hk as [<-|Hk]; [in_keys|]); destruct Hk ] ].

Ltac assoc_tac :=
  simpl_assoc; rewrite ?try_block_other by (cbn; intuition discriminate); simpl_assoc;
  reflexivity.

(** The case analysis of [extract_publication_data] once [fetch_fulltext]
    returned. *)
Ltac epd_cases Hf :=
  unfold extract_publication_data; rewrite Hf;
  match goal with
  | |- context [match ?t with EmptyString => _ | String _ _ => _ end] =>
      let c := fresh "c" in let t' := fresh "t" in destruct t as [|c t']
  | _ => idtac
  end;
  cbv zeta;
  try match goal with
  | |- context [if String.eqb ?n "" then _ else _] =>
      let Hn := fresh "Hn" in destruct (String.eqb_spec n "") as [Hn|Hn]
  end;
  try match goal with
  | |- context [if di_has_data_section ?i || ?b then _ else _] =>
      let Hc := fresh "Hc" in destruct (di_has_data_section i || b) eqn:Hc
  end;
  try match goal with
  | |- context [let (_, _) := try_block ?l ?ld ?sl ?p ?t ?i ?r in _] =>
      let r' := fresh "r'" in let ok := fresh "ok" in let Ht := fresh "Ht" in
      destruct (try_block l ld sl p t i r) as [r' ok] eqn:Ht;
      apply try_block_pair in Ht; destruct ok
  end.

Lemma epd_some_shape (fetch_fulltext : json -> json -> option (option string))
  (extract_data_availability : string -> data_info) (acall_llm : string -> option string)
  (loads : string -> option json) (set_list : list json -> list json)
  (pmid doi : json) (nct_id : string) (r : json) :
  extract_publication_data fetch_fulltext extract_data_availability acall_llm loads set_list
    pmid doi nct_id = Some r ->
  exists kvs, r = JObj kvs /\ map fst kvs = map fst (default_result pmid doi) /\
              assoc "pmid" kvs = Some pmid /\ assoc "doi" kvs = Some doi.
Proof.
  intros Hr. destruct (fetch_fulltext pmid doi) as [ft|] eqn:Hf.
  2:{ revert Hr. unfold extract_publication_data. rewrite Hf. discriminate. }
  destruct ft as [text|].
  2:{ revert Hr. unfold extract_publication_data. rewrite Hf. intros Hr. inversion Hr; subst.
      eexists; split; [reflexivity|]. split; [reflexivity|]. split; reflexivity. }
  revert Hr. epd_cases Hf; intros Hr; inversion Hr; subst; eexists; (split; [reflexivity|]);
    (split; [keys_tac|split; assoc_tac]).
Qed.

(** X10: [extract_publication_data] raises only when [fetch_fulltext]
    raises; otherwise it returns a dict with exactly the ten keys of its
    default result, in their order, with [pmid] and [doi] as given. *)
Theorem extract_publication_data_shape (fetch_fulltext : json -> json -> option (option string))
  (extract_data_availability : string -> data_info) (acall_llm : string -> option string)
  (loads : string -> option json) (set_list : list json -> list json)
  (pmid doi : json) (nct_id : string) :
  (extract_publication_data fetch_fulltext extract_data_availability acall_llm loads set_list
     pmid doi nct_id = None <-> fetch_fulltext pmid doi = None) /\
  (forall r, extract_publication_data fetch_fulltext extract_data_availability acall_llm loads
               set_list pmid doi nct_id = Some r ->
   exists kvs, r = JObj kvs /\ map fst kvs = map fst (default_result pmid doi) /\
               assoc "pmid" kvs = Some pmid /\ assoc "doi" kvs = Some doi).
Proof.
  split; [|apply epd_some_shape].
  destruct (fetch_fulltext pmid doi) as [ft|] eqn:Hf.
  2:{ unfold extract_publication_data. rewrite Hf. tauto. }
  split; [|discriminate]. intros Hn.
  destruct ft as [text|]; revert Hn; epd_cases Hf; discriminate.
Qed.

(** X11: when the full text is missing or empty, or the rule-based
    extraction finds neither a data section nor a repository,
    [extract_publication_data] does not consult the LLM: its result is the
    same for every [acall_llm], [json.loads] and set order, with
    [availability_type] ["not_stated"], an empty snippet and no
    supplementary urls. *)
Theorem extract_publication_data_no_llm (fetch_fulltext : json -> json -> option (option string))
  (extract_data_availability : string -> data_info) (pmid doi : json) (nct_id : string)
  (ft : option string) (Hf : fetch_fulltext pmid doi = Some ft)
  (Hno : forall text, ft = Some text ->
         text = "" \/ (di_has_data_section (extract_data_availability text) = false /\
                       di_repositories (extract_data_availability text) = [])) :
  exists kvs,
    (forall acall_llm loads set_list,
       extract_publication_data fetch_fulltext extract_data_availability acall_llm loads set_list
         pmid doi nct_id = Some (JObj kvs)) /\
    assoc "availability_type" kvs = Some (JStr "not_stated") /\
    assoc "statement_snippet" kvs = Some (JStr "") /\
    assoc "supplementary_urls" kvs = Some (JArr []).
Proof.
  destruct ft as [[|c t]|].
  - eexists. split; [intros; unfold extract_publication_data; rewrite Hf; reflexivity|].
    split; [|split]; reflexivity.
  - destruct (Hno _ eq_refl) as [|[Hd Hr]]; [discriminate|].
    destruct (String.eqb nct_id "") eqn:Hn;
      (eexists; split;
       [intros; unfold extract_publication_data; rewrite Hf; cbv zeta; rewrite Hn, Hd, Hr;
        reflexivity|]);
      (split; [|split]); reflexivity.
  - eexists. split; [intros; unfold extract_publication_data; rewrite Hf; reflexivity|].
    split; [|split]; reflexivity.
Qed.

Lemma extract_publication_data_no_llm_witness :
  let fetch_fulltext := (fun (_ _ : json) => Some (Some "text NCT1")) in
  let extract_data_availability := fun (_ : string) => mkDataInfo [] [] "" false in
  fetch_fulltext (JStr "1") (JStr "") = Some (Some "text NCT1") /\
  (forall text, Some "text NCT1" = Some text ->
     text = "" \/ (di_has_data_section (extract_data_availability text) = false /\
                   di_repositories (extract_data_availability text) = [])) /\
  exists kvs,
    (forall acall_llm loads set_list,
       extract_publication_data fetch_fulltext extract_data_availability acall_llm loads set_list
         (JStr "1") (JStr "") "NCT1" = Some (JObj kvs)) /\
    assoc "availability_type" kvs = Some (JStr "not_stated") /\
    assoc "statement_snippet" kvs = Some (JStr "") /\
    assoc "supplementary_urls" kvs = Some (JArr []).
Proof.
  cbv zeta. split; [reflexivity|]. split; [intros text _; right; split; reflexivity|].
  apply (extract_publication_data_no_llm (fun (_ _ : json) => Some (Some "text NCT1")) (fun (_ : string) => mkDataInfo [] [] "" false)
           (JStr "1") (JStr "") "NCT1" (Some "text NCT1")); [reflexivity|].
  intros text _. right. split; reflexivity.
Defined.

(** X12: the result says [fulltext_available: True] exactly when a
    non-empty full text was fetched, and [nct_mentioned: True] exactly when
    moreover [nct_id] is non-empty and [search_fulltext_for_nct] finds it
    in that text. *)
Theorem extract_publication_data_flags (fetch_fulltext : json -> json -> option (option string))
  (extract_data_availability : string -> data_info) (acall_llm : string -> option string)
  (loads : string -> option json) (set_list : list json -> list json)
  (pmid doi : json) (nct_id : string) (kvs : list (string * json))
  (H : extract_publication_data fetch_fulltext extract_data_availability acall_llm loads set_list
         pmid doi nct_id = Some (JObj kvs)) :
  (assoc "fulltext_available" kvs = Some (JBool true) <->
   exists text, fetch_fulltext pmid doi = Some (Some text) /\ text <> "") /\
  (assoc "nct_mentioned" kvs = Some (JBool true) <->
   exists text, fetch_fulltext pmid doi = Some (Some text) /\ text <> "" /\ nct_id <> "" /\
                search_fulltext_for_nct text nct_id = true).
Proof.
  destruct (fetch_fulltext pmid doi) as [[[|c t]|]|] eqn:Hf.
  - revert H. unfold extract_publication_data. rewrite Hf. intros H. inversion H; subst.
    cbn. split; split; try discriminate;
      intros [text [Ht Hx]]; inversion Ht; subst; exfalso; try destruct Hx as [Hx _]; apply Hx; reflexivity.
  - assert (Hv : assoc "fulltext_available" kvs = Some (JBool true) /\
                 assoc "nct_mentioned" kvs =
                 Some (JBool (negb (String.eqb nct_id "") &&
                              search_fulltext_for_nct (String c t) nct_id))).
    { revert H. epd_cases Hf; intros H; inversion H; subst; clear H.
      all: try (apply String.eqb_neq in Hn; rewrite Hn).
      all: split; assoc_tac. }
    destruct Hv as [-> ->]. split.
    + split; [intros _; exists (String c t); split; [reflexivity|discriminate]|reflexivity].
    + destruct (String.eqb_spec nct_id "") as [Hn|Hn];
        destruct (search_fulltext_for_nct (String c t) nct_id) eqn:Hs; cbn; split;
        try discriminate.
      all: try (intros _; exists (String c t); split; [reflexivity|split; [discriminate|auto]]).
      all: intros (text & Ht & _ & Hn' & Hs'); inversion Ht; subst; congruence.
  - revert H. unfold extract_publication_data. rewrite Hf. intros H. inversion H; subst.
    cbn. split; split; try discriminate; intros [text [Ht _]]; discriminate.
  - revert H. unfold extract_publication_data. rewrite Hf. discriminate.
Qed.

Lemma extract_publication_data_flags_witness :
  let fetch_fulltext := (fun (_ _ : json) => Some (Some "text NCT1")) in
  let kvs := [("pmid", JStr "1"); ("doi", JStr ""); ("nct_mentioned", JBool true);
       ("fulltext_available", JBool true); ("availability_type", JStr "open_access");
       ("statement_snippet", JStr "Data are on Zenodo.");
       ("repository_urls", JArr [JStr "https://zenodo.org/x"]);
       ("repository_names", JArr [JStr "Zenodo"]);
       ("supplementary_urls", JArr []); ("notes", JStr "")] in
  extract_publication_data fetch_fulltext (fun (_ : string) => mkDataInfo ["https://zenodo.org/x"] ["Zenodo"] "Data are on Zenodo." true) (fun (_ : string) => @None string) (fun (_ : string) => @None json) (fun (l : list json) => l) (JStr "1") (JStr "") "NCT1" = Some (JObj kvs) /\
  (assoc "fulltext_available" kvs = Some (JBool true) <->
   exists text, fetch_fulltext (JStr "1") (JStr "") = Some (Some text) /\ text <> "") /\
  (assoc "nct_mentioned" kvs = Some (JBool true) <->
   exists text, fetch_fulltext (JStr "1") (JStr "") = Some (Some text) /\ text <> "" /\ "NCT1" <> "" /\
                search_fulltext_for_nct text "NCT1" = true).
Proof.
  cbv zeta. split; [vm_compute; reflexivity|].
  apply (extract_publication_data_flags (fun (_ _ : json) => Some (Some "text NCT1")) (fun (_ : string) => mkDataInfo ["https://zenodo.org/x"] ["Zenodo"] "Data are on Zenodo." true) (fun (_ : string) => @None string) (fun (_ : string) => @None json) (fun (l : list json) => l) (JStr "1") (JStr "") "NCT1").
  vm_compute. reflexivity.
Defined.

Lemma try_block_fail (acall_llm : string -> option string) (loads : string -> option json)
  (set_list : list json -> list json) (pmid : json) (text : string) (info : data_info)
  (Hfail : acall_llm (extractor_prompt pmid text info) = None \/
           exists response, acall_llm (extractor_prompt pmid text info) = Some response /\
                            forall kvs, loads (strip_fence response) <> Some (JObj kvs))
  (r : list (string * json)) :
  try_block acall_llm loads set_list pmid text info r = (r, false).
Proof.
  unfold try_block. destruct Hfail as [->|(response & -> & Hl)]; [reflexivity|].
  destruct (loads (strip_fence response)) as [[]|] eqn:E; try reflexivity.
  exfalso. eapply Hl. reflexivity.
Qed.

(** X13: when the LLM is consulted but its call raises, or its answer does
    not parse to a JSON object, [extract_publication_data] keeps the
    rule-based results: [availability_type] is ["open_access"] if
    repositories were detected and ["not_stated"] otherwise, the snippet is
    the first 200 characters of the detected statement, the repository
    urls and names are the detected ones, and the notes and supplementary
    urls stay empty. *)
Theorem extract_publication_data_llm_failure
  (fetch_fulltext : json -> json -> option (option string))
  (extract_data_availability : string -> data_info) (acall_llm : string -> option string)
  (loads : string -> option json) (set_list : list json -> list json)
  (pmid doi : json) (nct_id text : string)
  (Hf : fetch_fulltext pmid doi = Some (Some text)) (Ht : text <> "")
  (Hneed : di_has_data_section (extract_data_availability text) = true \/
           di_repositories (extract_data_availability text) <> [])
  (Hfail : acall_llm (extractor_prompt pmid text (extract_data_availability text)) = None \/
           exists response,
             acall_llm (extractor_prompt pmid text (extract_data_availability text)) = Some response /\
             forall kvs, loads (strip_fence response) <> Some (JObj kvs)) :
  exists kvs,
    extract_publication_data fetch_fulltext extract_data_availability acall_llm loads set_list
      pmid doi nct_id = Some (JObj kvs) /\
    assoc "availability_type" kvs =
      Some (JStr (match di_repositories (extract_data_availability text) with
                  | [] => "not_stated"
                  | _ => "open_access"
                  end)) /\
    assoc "statement_snippet" kvs =
      Some (JStr (substring 0 200 (di_statement (extract_data_availability text)))) /\
    assoc "repository_urls" kvs = Some (JArr (map JStr (di_urls (extract_data_availability text)))) /\
    assoc "repository_names" kvs =
      Some (JArr (map JStr (di_repositories (extract_data_availability text)))) /\
    assoc "notes" kvs = Some (JStr "") /\
    assoc "supplementary_urls" kvs = Some (JArr []).
Proof.
  destruct text as [|c t]; [contradiction|].
  assert (Hc : di_has_data_section (extract_data_availability (String c t)) ||
               negb (match di_repositories (extract_data_availability (String c t)) with
                     | [] => true | _ => false end) = true).
  { destruct Hneed as [-> | Hr]; [reflexivity|].
    destruct (di_repositories _); [contradiction|apply orb_true_r]. }
  unfold extract_publication_data. rewrite Hf. cbv zeta. rewrite Hc.
  rewrite (try_block_fail _ _ _ _ _ _ Hfail).
  destruct (String.eqb nct_id "");
    (eexists; split; [reflexivity|]);
    (split; [assoc_tac|]); (split; [assoc_tac|]); (split; [assoc_tac|]);
    (split; [assoc_tac|]); (split; assoc_tac).
Qed.

Lemma extract_publication_data_llm_failure_witness :
  let extract_data_availability := (fun (_ : string) => mkDataInfo ["https://zenodo.org/x"] ["Zenodo"] "Data are on Zenodo." true) in
  let acall_llm := fun (_ : string) => @None string in
  (fun (_ _ : json) => Some (Some "text NCT1")) (JStr "1") (JStr "") = Some (Some "text NCT1") /\ "text NCT1" <> "" /\
  (di_has_data_section (extract_data_availability "text NCT1") = true \/
   di_repositories (extract_data_availability "text NCT1") <> []) /\
  acall_llm (extractor_prompt (JStr "1") "text NCT1" (extract_data_availability "text NCT1")) = None /\
  exists kvs,
    extract_publication_data (fun (_ _ : json) => Some (Some "text NCT1")) extract_data_availability (fun (_ : string) => @None string) (fun (_ : string) => @None json) (fun (l : list json) => l) (JStr "1") (JStr "") "NCT1"
      = Some (JObj kvs) /\
    assoc "availability_type" kvs =
      Some (JStr (match di_repositories (extract_data_availability "text NCT1") with
                  | [] => "not_stated"
                  | _ => "open_access"
                  end)) /\
    assoc "statement_snippet" kvs =
      Some (JStr (substring 0 200 (di_statement (extract_data_availability "text NCT1")))) /\
    assoc "repository_urls" kvs =
      Some (JArr (map JStr (di_urls (extract_data_availability "text NCT1")))) /\
    assoc "repository_names" kvs =
      Some (JArr (map JStr (di_repositories (extract_data_availability "text NCT1")))) /\
    assoc "notes" kvs = Some (JStr "") /\
    assoc "supplementary_urls" kvs = Some (JArr []).
Proof.
  cbv zeta. split; [reflexivity|]. split; [discriminate|]. split; [left; reflexivity|].
  split; [reflexivity|].
  apply (extract_publication_data_llm_failure (fun (_ _ : json) => Some (Some "text NCT1")) (fun (_ : string) => mkDataInfo ["https://zenodo.org/x"] ["Zenodo"] "Data are on Zenodo." true) (fun (_ : string) => @None string) (fun (_ : string) => @None json) (fun (l : list json) => l) (JStr "1") (JStr "") "NCT1" "text NCT1");
    [reflexivity | discriminate | left; reflexivity | left; reflexivity].
Defined.





End FulltextProofs.

Module DebatePipelineProofs.
Import Debate Pipeline StrFacts.

Lemma debate_round_extends (acall_llm : string -> string -> string) (hyp : string) (mr r : Z)
  (h : string) (log : list agent_log) :
  exists sfx a b c, debate_round acall_llm hyp mr r h log = (h ++ sfx, log +++ [a; b; c]).
Proof.
  do 4 eexists. unfold debate_round. cbv zeta. f_equal.
  - rewrite !app_assoc_str. reflexivity.
  - rewrite <- !app_assoc. reflexivity.
Qed.

Lemma debate_loop_extends (acall_llm : string -> string -> string) (hyp : string) (mr : Z)
  (n : nat) (r : Z) (h : string) (log : list agent_log) :
  exists sfx l, debate_loop acall_llm hyp mr n r h log = (h ++ sfx, log +++ l) /\
                length l = 3 * n.
Proof.
  revert r h log. induction n as [|n IH]; intros r h log.
  - exists "", []. cbn. now rewrite app_nil_r_str, app_nil_r.
  - cbn [debate_loop]. destruct (debate_round_extends acall_llm hyp mr r h log)
      as (sfx & a & b & c & ->).
    destruct (IH (r + 1)%Z (h ++ sfx) (log +++ [a; b; c])) as (sfx' & l & -> & Hl).
    exists (sfx ++ sfx'), ([a; b; c] +++ l). split.
    + now rewrite app_assoc_str, app_assoc.
    + cbn. lia.
Qed.

(** X16: [Debate.call] resumed at any round keeps the transcript so far
    as a prefix of the new one, adds three log entries for each of the
    [max_rounds - round] remaining rounds, and ends with [round] equal to
    [max_rounds]; when [round >= max_rounds] nothing is added, and a
    [round] beyond [max_rounds] is set back to [max_rounds]. *)
Theorem debate_call_resume (acall_llm : string -> string -> string) (hyp : string)
  (d : debate_state) :
  round (upd_debate (call acall_llm hyp d)) = max_rounds d /\
  max_rounds (upd_debate (call acall_llm hyp d)) = max_rounds d /\
  (exists suffix, history (upd_debate (call acall_llm hyp d)) = history d ++ suffix) /\
  length (upd_agents_log (call acall_llm hyp d)) = 3 * Z.to_nat (max_rounds d - round d) /\
  ((max_rounds d <= round d)%Z ->
   upd_debate (call acall_llm hyp d) = mkDebate (max_rounds d) (max_rounds d) (history d) /\
   upd_agents_log (call acall_llm hyp d) = []).
Proof.
  assert (Hz : (max_rounds d <= round d)%Z ->
               upd_debate (call acall_llm hyp d) = mkDebate (max_rounds d) (max_rounds d) (history d) /\
               upd_agents_log (call acall_llm hyp d) = []).
  { intros Hle. unfold call. replace (Z.to_nat (max_rounds d - round d)) with 0 by lia.
    split; reflexivity. }
  unfold call.
  destruct (debate_loop_extends acall_llm hyp (max_rounds d)
              (Z.to_nat (max_rounds d - round d)) (round d) (history d) [])
    as (sfx & l & Heq & Hl).
  split; [|split; [|split; [|split; [|exact Hz]]]]; rewrite Heq; cbn; [reflexivity|reflexivity| |].
  - now exists sfx.
  - exact Hl.
Qed.

Lemma run_steps_step (m : string) (g : state -> option update) ns s tr s' :
  run_steps ((m, g) :: ns) s = (tr, Some s') ->
  exists u tr', g s = Some u /\ run_steps ns (apply_update s u) = (tr', Some s').
Proof.
  cbn. destruct (g s) as [u|]; [|discriminate].
  destruct (run_steps ns (apply_update s u)) as [tr0 fin] eqn:E.
  intros H; inversion H; subst. eauto.
Qed.

Lemma trials_scout_citations (o : oracles) (s : state) (u : update) :
  trials_scout o s = Some u ->
  exists cq iq, u_citations u = Some (citations s +++ snd (fetch_trials o cq iq)).
Proof.
  unfold trials_scout.
  destruct (get_query s _) as [cq|]; [|discriminate].
  destruct (get_query s _) as [iq|]; [|discriminate].
  destruct (fetch_trials o cq _) as [raw tc] eqn:E.
  intros H; inversion H; subst. do 2 eexists. rewrite E. reflexivity.
Qed.

Lemma literature_miner_citations (o : oracles) (s : state) (u : update) :
  literature_miner o s = Some u ->
  exists pq sq, u_citations u =
    Some (citations s +++ snd (fetch_papers o pq) +++ snd (search_papers o sq)).
Proof.
  unfold literature_miner.
  destruct (get_query s _) as [pq|]; [|discriminate].
  destruct (get_query s _) as [sq|]; [|discriminate].
  destruct (fetch_papers o pq) as [pd pc] eqn:E1.
  destruct (search_papers o sq) as [sd sc] eqn:E2.
  intros H; inversion H; subst. exists pq, sq. rewrite E1, E2. reflexivity.
Qed.

(** X17: although [agents_log] is replaced at every step, [citations]
    accumulates: after a complete run of the graph the state's citations
    are the ones it started with, then the trial citations of the trials
    scout, then the PubMed and the Semantic Scholar citations of the
    literature miner, for the queries these nodes used. *)
Theorem pipeline_citations_accumulate (o : oracles) (s0 s' : state)
  (tr : list (string * update))
  (Hrun : run_steps (graph_nodes o) s0 = (tr, Some s')) :
  exists cq iq pq sq,
    citations s' = citations s0 +++ snd (fetch_trials o cq iq) +++ snd (fetch_papers o pq)
                   +++ snd (search_papers o sq).
Proof.
  unfold graph_nodes in Hrun.
  apply run_steps_step in Hrun as (u1 & ? & H1 & Hrun).
  apply run_steps_step in Hrun as (u2 & ? & H2 & Hrun).
  apply run_steps_step in Hrun as (u3 & ? & H3 & Hrun).
  apply run_steps_step in Hrun as (u4 & ? & H4 & Hrun).
  apply run_steps_step in Hrun as (u5 & ? & H5 & Hrun).
  apply run_steps_step in Hrun as (u6 & ? & H6 & Hrun).
  cbn in Hrun. inversion Hrun; subst s'.
  destruct (trials_scout_citations _ _ _ H2) as (cq & iq & E2).
  destruct (literature_miner_citations _ _ _ H3) as (pq & sq & E3).
  exists cq, iq, pq, sq.
  unfold target_analyzer in H1. destruct (parse_criteria o _ _); try discriminate.
  inversion H1; subst u1. clear H1.
  unfold hypothesis_generator in H4. inversion H4; subst u4.
  unfold debate_node in H5. inversion H5; subst u5.
  unfold synthesizer in H6. inversion H6; subst u6.
  cbn [apply_update citations keep u_citations] in *. rewrite E2 in E3 |- *. rewrite E3.
  cbn [keep]. now rewrite <- !app_assoc.
Qed.

Lemma pipeline_citations_accumulate_witness :
  let o := (mkOracles (fun _ _ => "x") (fun _ t => Analyzer.build_fallback t) (fun _ => "{}")
              (fun _ _ => ("trials", [JStr "NCT1"])) (fun _ => ("papers", [JStr "PMID1"]))
              (fun _ => ("semantic", [JStr "S2"]))) in
  let s0 := (mkState "EGFR T790M" "" "" JNull [] "" (mkDebate 0 1 "") "" [] []) in
  let r := run_steps (graph_nodes o) s0 in
  let s' := match snd r with Some s => s | None => s0 end in
  run_steps (graph_nodes o) s0 = (fst r, Some s') /\
  exists cq iq pq sq,
    citations s' = citations s0 +++ snd (fetch_trials o cq iq) +++ snd (fetch_papers o pq)
                   +++ snd (search_papers o sq).
Proof.
  cbv zeta. split; [vm_compute; reflexivity|].
  apply (pipeline_citations_accumulate (mkOracles (fun _ _ => "x") (fun _ t => Analyzer.build_fallback t) (fun _ => "{}")
              (fun _ _ => ("trials", [JStr "NCT1"])) (fun _ => ("papers", [JStr "PMID1"]))
              (fun _ => ("semantic", [JStr "S2"]))) (mkState "EGFR T790M" "" "" JNull [] "" (mkDebate 0 1 "") "" [] []) _
           (fst (run_steps (graph_nodes (mkOracles (fun _ _ => "x") (fun _ t => Analyzer.build_fallback t) (fun _ => "{}")
              (fun _ _ => ("trials", [JStr "NCT1"])) (fun _ => ("papers", [JStr "PMID1"]))
              (fun _ => ("semantic", [JStr "S2"])))) (mkState "EGFR T790M" "" "" JNull [] "" (mkDebate 0 1 "") "" [] [])))).
  vm_compute. reflexivity.
Defined.

End DebatePipelineProofs.

Module OrchestratorProofs.
Import Validator Linking.

Lemma seq_run_fst {A} (es : list effect) (o : option A) (k : A -> run) :
  fst (seq_run (es, o) k) = es +++ match o with Some a => fst (k a) | None => [] end.
Proof.
  destruct o as [a|]; cbn; [destruct (k a); reflexivity|now rewrite app_nil_r].
Qed.

Lemma fst_emit (e : effect) (k : run) : fst (emit e k) = e :: fst k.
Proof. reflexivity. Qed.

Ltac later_ok :=
  repeat first
    [ rewrite fst_emit | rewrite seq_run_fst | apply Forall_cons | apply Forall_app; split
    | match goal with |- Forall _ [] => constructor end
    | match goal with |- Forall _ (fst (_, _)) => cbn [fst] end
    | match goal with
      | |- is_enrich_call ?e = false /\ forall t m, ?e <> Call (FetchTrials t m) =>
          split; [reflexivity|intros ? ? ?; discriminate]
      end ].

Lemma filter_nil_forallb_false {A} (f : A -> bool) (l : list A) :
  Forall (fun x => f x = false) l -> filter f l = [].
Proof. induction 1 as [|x l Hx _ IH]; cbn; [reflexivity|now rewrite Hx]. Qed.

Section Later.
Variable env : linking_env.

Lemma validate_stage_calls (recs : list trial_record) :
  Forall (fun e => is_enrich_call e = false /\ forall t m, e <> Call (FetchTrials t m))
    (fst (validate_stage env recs)).
Proof.
  unfold validate_stage. later_ok.
  destruct (validate env _) as [v|]; [|constructor].
  destruct (format_linking_markdown env v), (dget v "summary" (JStr "Results aggregated.")); later_ok.
Qed.

Lemma link_loop_calls (valid : list json) :
  Forall (fun e => is_enrich_call e = false /\ forall t m, e <> Call (FetchTrials t m))
    (fst (link_loop env valid)).
Proof.
  induction valid as [|r rest IH]; cbn [link_loop]; [constructor|].
  destruct (dget r "nct_id" (JStr "")) as [n|], (dget r "brief_title" (JStr "")) as [t|];
    try constructor.
  destruct (link_pubs env r), (search_repositories env n t); later_ok.
  destruct (link_loop env rest) as [es recs]. cbn. later_ok. exact IH.
Qed.

Lemma extract_loop_calls (recs : list trial_record) :
  Forall (fun e => is_enrich_call e = false /\ forall t m, e <> Call (FetchTrials t m))
    (fst (extract_loop env recs)).
Proof.
  induction recs as [|[[[[n reg] c] h] f] rest IH]; cbn [extract_loop]; [constructor|].
  destruct (truthy c).
  - destruct (py_slice 3 c) as [top3|]; [|constructor].
    destruct (extract_batch env top3 n); later_ok.
    destruct (extract_loop env rest) as [es recs']. cbn. later_ok. exact IH.
  - destruct (extract_loop env rest) as [es recs']. exact IH.
Qed.

Lemma fulltext_stage_calls (n : nat) (recs : list trial_record) :
  Forall (fun e => is_enrich_call e = false /\ forall t m, e <> Call (FetchTrials t m))
    (fst (fulltext_stage env n recs)).
Proof.
  unfold fulltext_stage. destruct (Nat.ltb 0 n); [|apply validate_stage_calls].
  later_ok.
  destruct (extract_loop env recs) as [es o] eqn:E.
  rewrite seq_run_fst. apply Forall_app. split.
  - pose proof (extract_loop_calls recs) as H. rewrite E in H. exact H.
  - destruct o as [recs'|]; [|constructor].
    destruct (count_flag "nct_mentioned" recs'), (count_flag "fulltext_available" recs');
      cbn [fst]; try constructor.
    later_ok. apply validate_stage_calls.
Qed.

Lemma stages_calls (ids : list json) :
  exists ev rest,
    fst (stages env ids) = ev :: map (fun n => Call (EnrichTrial n)) ids +++ rest /\
    is_enrich_call ev = false /\ (forall t m, ev <> Call (FetchTrials t m)) /\
    Forall (fun e => is_enrich_call e = false /\ forall t m, e <> Call (FetchTrials t m)) rest.
Proof.
  unfold stages. rewrite fst_emit, seq_run_fst. do 2 eexists.
  split; [reflexivity|]. split; [reflexivity|]. split; [intros ? ? ?; discriminate|].
  destruct (mapM (enrich env) ids) as [enr|]; [|constructor].
  destruct (valid_records enr) as [valid|]; [|constructor].
  match goal with |- context [match sum_opt ?a with _ => _ end] =>
    destruct (sum_opt a) as [nr|] end; [|constructor].
  later_ok.
  destruct (link_loop env valid) as [es o] eqn:E.
  rewrite seq_run_fst. apply Forall_app. split.
  - pose proof (link_loop_calls valid) as H. rewrite E in H. exact H.
  - destruct o as [recs|]; [|constructor].
    repeat match goal with |- context [sum_opt ?a] => destruct (sum_opt a) end;
      cbn [fst]; try constructor.
    later_ok. apply fulltext_stage_calls.
Qed.

Lemma filter_enrich_stages (ids : list json) :
  filter is_enrich_call (fst (stages env ids)) = map (fun n => Call (EnrichTrial n)) ids /\
  forall t m, ~ In (Call (FetchTrials t m)) (fst (stages env ids)).
Proof.
  destruct (stages_calls ids) as (ev & rest & -> & Hev & Hevf & Hr). split.
  - cbn [filter]. rewrite Hev, filter_app.
    replace (filter is_enrich_call rest) with (@nil effect).
    + rewrite app_nil_r. induction ids as [|n ids IH]; [reflexivity|]. cbn. now rewrite IH.
    + symmetry. apply filter_nil_forallb_false.
      eapply Forall_impl; [|exact Hr]. intros e [He _]. exact He.
  - intros t m [Heq|Hin]; [exact (Hevf t m Heq)|].
    apply in_app_or in Hin as [Hin|Hin].
    + apply in_map_iff in Hin as (n & Hn & _). discriminate.
    + eapply Forall_forall in Hr; [|exact Hin]. exact (proj2 Hr t m eq_refl).
Qed.

End Later.

(** X18: [run_linking_pipeline] enriches at most [max_trials] trials, one
    [enrich_trial] call per id and in order. With [nct_ids] given, these
    are the first [max_trials] non-empty ids and ClinicalTrials.gov is never
    searched; without them, they are the first [max_trials] truthy ids of
    the trials the search returned. *)
Theorem run_linking_enrich_calls (env : linking_env) (target : string) (nct_ids : list string)
  (max_trials : nat) :
  length (filter is_enrich_call (fst (run_linking_pipeline env target nct_ids max_trials)))
    <= max_trials /\
  (nct_ids <> [] ->
   filter is_enrich_call (fst (run_linking_pipeline env target nct_ids max_trials)) =
     map (fun s => Call (EnrichTrial (JStr s)))
       (firstn max_trials (filter (fun s => negb (String.eqb s "")) nct_ids)) /\
   forall t m, ~ In (Call (FetchTrials t m)) (fst (run_linking_pipeline env target nct_ids max_trials))) /\
  (nct_ids = [] -> forall trial_list all_ids,
   fetch_trials env target max_trials = inr trial_list -> trial_list <> [] ->
   collect_ids trial_list = Some all_ids ->
   filter is_enrich_call (fst (run_linking_pipeline env target nct_ids max_trials)) =
     map (fun n => Call (EnrichTrial n)) (firstn max_trials all_ids)).
Proof.
  assert (Hgiven : nct_ids <> [] ->
   filter is_enrich_call (fst (run_linking_pipeline env target nct_ids max_trials)) =
     map (fun s => Call (EnrichTrial (JStr s)))
       (firstn max_trials (filter (fun s => negb (String.eqb s "")) nct_ids)) /\
   forall t m, ~ In (Call (FetchTrials t m)) (fst (run_linking_pipeline env target nct_ids max_trials))).
  { intros Hne. destruct nct_ids as [|id ids]; [contradiction|].
    unfold run_linking_pipeline. cbv zeta. rewrite !fst_emit.
    set (X := fst (stages _ _)).
    destruct (filter_enrich_stages env
                (map JStr (firstn max_trials (filter (fun s => negb (String.eqb s "")) (id :: ids)))))
      as [Hf Hn].
    split.
    - cbn [filter is_enrich_call]. subst X. rewrite Hf, map_map. reflexivity.
    - intros t m [H|[H|H]]; try discriminate. exact (Hn t m H). }
  assert (Hsearch : nct_ids = [] -> forall trial_list all_ids,
   fetch_trials env target max_trials = inr trial_list -> trial_list <> [] ->
   collect_ids trial_list = Some all_ids ->
   filter is_enrich_call (fst (run_linking_pipeline env target nct_ids max_trials)) =
     map (fun n => Call (EnrichTrial n)) (firstn max_trials all_ids)).
  { intros -> trial_list all_ids Hf Hne Hc. unfold run_linking_pipeline. rewrite Hf.
    destruct trial_list as [|t0 ts]; [contradiction|]. rewrite Hc, !fst_emit.
    cbn [filter is_enrich_call]. apply filter_enrich_stages. }
  split; [|split; [exact Hgiven|exact Hsearch]].
  destruct nct_ids as [|id ids].
  - unfold run_linking_pipeline. rewrite !fst_emit. cbn [filter is_enrich_call].
    destruct (fetch_trials env target max_trials) as [e|[|t0 ts]]; [cbn; lia|cbn; lia|].
    destruct (collect_ids (t0 :: ts)) as [all_ids|].
    + rewrite fst_emit. cbn [filter is_enrich_call].
      cbn [event is_enrich_call]. rewrite (proj1 (filter_enrich_stages env _)), length_map, length_firstn. lia.
    + cbn. lia.
  - destruct (Hgiven ltac:(discriminate)) as [Heq _]. rewrite Heq.
    rewrite length_map, length_firstn. lia.
Qed.

End OrchestratorProofs.

Module EnricherProofs.
Import Validator Linking Tools TextFacts ToolsProofs.







End EnricherProofs.
